(** * BrewyBackend: order, payment, shipment and catalog-webhook handlers

    A shallow embedding of the request handlers of the DrinkBrewy backend
    (Express routes over Mongoose models) and the properties of the order
    lifecycle, the webhook authentication and the checkout flows.

    Conventions.
    - A JavaScript number is an IEEE binary64 value: Rocq's primitive [float].
    - A JavaScript string is its sequence of code units; the code units
      modelled are those below 256, one [ascii] each.
    - A Mongoose collection is the list of its documents in natural order;
      [findOne] returns the first match.
    - A handler is a function from the request and the world (the three
      collections and the log of writes and outbound calls made so far) to a
      response and the world after it.
    - What the repository calls but does not define (the crypto, JWT, JSON
      and HTTP libraries, the collaborators' servers) is a field of
      [Runtime]. *)

From Stdlib Require Import List String Ascii Bool NArith Floats DecimalString Lia.
Import ListNotations.

Set Implicit Arguments.
Set Warnings "-inexact-float".

Local Open Scope string_scope.

(* ------------------------------------------------------------------ *)
(** ** JavaScript values *)

Module JS.

Definition number := float.

(** [ToBoolean] on a number: [0], [-0] and [NaN] are falsy. *)
Definition truthy_num (x : number) : bool :=
  negb (PrimFloat.is_nan x || PrimFloat.is_zero x).

(** [x || d] on numbers. *)
Definition or_num (x d : number) : number :=
  if truthy_num x then x else d.

(** [ToBoolean] on a string: only the empty string is falsy. *)
Definition truthy_str (s : string) : bool :=
  match s with EmptyString => false | String _ _ => true end.

(** [x || d] on strings. *)
Definition or_str (s d : string) : string :=
  if truthy_str s then s else d.

(** [ToBoolean] on a possibly undefined string. *)
Definition truthy_ostr (s : option string) : bool :=
  match s with Some v => truthy_str v | None => false end.

(** [x || d] where [x] may be undefined. *)
Definition or_ostr (s : option string) (d : string) : string :=
  match s with Some v => or_str v d | None => d end.

(** [Math.max] on two numbers: [NaN] if either is, and [+0] above [-0]. *)
Definition Math_max (a b : number) : number :=
  if (PrimFloat.is_nan a || PrimFloat.is_nan b)%bool then nan
  else if PrimFloat.ltb a b then b
  else if PrimFloat.ltb b a then a
  else if PrimFloat.get_sign a then b else a.

(** Strict equality of possibly undefined strings, as [a === b]. *)
Definition strict_eq (a b : option string) : bool :=
  match a, b with
  | Some x, Some y => String.eqb x y
  | None, None => true
  | _, _ => false
  end.

Definition code (c : ascii) : N := N_of_ascii c.

Definition is_upper (c : ascii) : bool :=
  let n := code c in
  ((65 <=? n) && (n <=? 90) ||
   (192 <=? n) && (n <=? 222) && negb (n =? 215))%N.

Definition lower_char (c : ascii) : ascii :=
  if is_upper c then ascii_of_N (code c + 32) else c.

(** [String.prototype.toLowerCase]. *)
Fixpoint toLowerCase (s : string) : string :=
  match s with
  | EmptyString => EmptyString
  | String c r => String (lower_char c) (toLowerCase r)
  end.

(** The class [\s]: tab, line feed, vertical tab, form feed, carriage
    return, space and no-break space. *)
Definition is_space (c : ascii) : bool :=
  let n := code c in
  ((9 <=? n) && (n <=? 13) || (n =? 32) || (n =? 160))%N.

(** [s.replace(/\s+/g, r)] for a one-character [r]; [in_run] says that
    the previous character was already part of the current match. *)
Fixpoint replace_ws_from (in_run : bool) (r : ascii) (s : string) : string :=
  match s with
  | EmptyString => EmptyString
  | String c rest =>
      if is_space c then
        if in_run then replace_ws_from true r rest
        else String r (replace_ws_from true r rest)
      else String c (replace_ws_from false r rest)
  end.

Definition replace_ws (r : ascii) (s : string) : string :=
  replace_ws_from false r s.

(** [s.replace(pat, rep)] for a string pattern: the first occurrence. *)
Fixpoint replace_first (pat rep s : string) : string :=
  if prefix pat s then
    rep ++ substring (String.length pat) (String.length s - String.length pat) s
  else
    match s with
    | EmptyString => EmptyString
    | String c rest => String c (replace_first pat rep rest)
    end.

(** A number read where it may be undefined: [undefined] converts to
    [NaN] in arithmetic. *)
Definition to_number (x : option number) : number :=
  match x with Some v => v | None => nan end.

(** [n.toString()] for a non-negative integer below 2^53. *)
Definition toString (n : N) : string :=
  NilZero.string_of_uint (N.to_uint n).

End JS.

(* ------------------------------------------------------------------ *)
(** ** The models (models/Order.ts, models/Product.ts, models/Collection.ts) *)

(** The [enum] of [OrderSchema.status]. *)
Inductive Status := created | paid | failed | shipped | delivered.

Definition Status_eqb (a b : Status) : bool :=
  match a, b with
  | created, created | paid, paid | failed, failed
  | shipped, shipped | delivered, delivered => true
  | _, _ => false
  end.

Record Address := {
  line1 : string;
  line2 : option string;
  city : string;
  state : string;
  pincode : string;
  country : string
}.

Record Customer := {
  cust_name : string;
  cust_email : string;
  cust_phone : string;
  cust_address : Address
}.

Record OrderItem := {
  item_productId : string;
  item_variantId : string;
  item_name : string;
  item_quantity : JS.number;
  item_price : JS.number
}.

(** [IOrder]; the timestamps Mongoose maintains are left out. *)
Record Order := {
  orderId : string;
  razorpayOrderId : string;
  razorpayPaymentId : option string;
  razorpaySignature : option string;
  amount : JS.number;
  currency : string;
  status : Status;
  customer : Customer;
  items : list OrderItem;
  shiprocketOrderId : option string;
  shiprocketShipmentId : option string;
  trackingUrl : option string
}.

Record Variant := {
  var_id : string;
  var_title : string;
  var_price : JS.number;
  var_availableForSale : bool;
  var_sku : option string
}.

Record Dimensions := {
  dim_length : JS.number;
  dim_breadth : JS.number;
  dim_height : JS.number;
  dim_weight : JS.number
}.

(** [IProduct].  [prod_price] and [prod_handle] are optional here although
    the interface declares them: the catalog webhook inserts documents
    without validation, and may leave either out. *)
Record Product := {
  prod_id : string;
  prod_name : string;
  prod_flavor : string;
  prod_price : option JS.number;
  prod_description : string;
  prod_handle : option string;
  prod_images : list string;
  prod_stock : JS.number;
  prod_availableForSale : bool;
  prod_variants : list Variant;
  prod_dimensions : option Dimensions;
  prod_updatedAt : string
}.

(** [ICollection]. *)
Record Collection := {
  coll_id : string;
  coll_name : string;
  coll_handle : option string;
  coll_description : string;
  coll_productIds : list string;
  coll_image : option string;
  coll_updatedAt : string
}.

(* ------------------------------------------------------------------ *)
(** ** The document store *)

Module Db.

(** [Model.findOne(filter)]: the first document the filter accepts. *)
Definition findOne {A} (filter : A -> bool) (docs : list A) : option A :=
  find filter docs.

(** The write of [findOneAndUpdate]: the first document the filter
    accepts is replaced by its update; the others stay. *)
Fixpoint updateFirst {A} (filter : A -> bool) (upd : A -> A)
         (docs : list A) : list A :=
  match docs with
  | [] => []
  | d :: rest =>
      if filter d then upd d :: rest
      else d :: updateFirst filter upd rest
  end.

(** [Model.findOneAndUpdate(filter, update, {new: true})]: the updated
    document (or [None] for [null]) and the collection after it. *)
Definition findOneAndUpdate {A} (filter : A -> bool) (upd : A -> A)
           (docs : list A) : option A * list A :=
  match findOne filter docs with
  | Some d => (Some (upd d), updateFirst filter upd docs)
  | None => (None, docs)
  end.

(** A field of a plain update object: a value replaces the stored one,
    [undefined] leaves it. *)
Definition set_opt {A} (new old : option A) : option A :=
  match new with Some v => Some v | None => old end.

End Db.

Definition byOrderId (i : string) (o : Order) : bool := String.eqb (orderId o) i.
Definition byProductId (i : string) (p : Product) : bool := String.eqb (prod_id p) i.
Definition byCollectionId (i : string) (c : Collection) : bool := String.eqb (coll_id c) i.

(* ------------------------------------------------------------------ *)
(** ** Requests, responses and the outside world *)

(** [process.env]: a variable is set or undefined. *)
Record Env := {
  ADMIN_PASSWORD : option string;
  JWT_SECRET : option string;
  SHIPROCKET_API_KEY : option string;
  SHIPROCKET_API_SECRET : option string;
  RAZORPAY_KEY_ID : option string;
  RAZORPAY_KEY_SECRET : option string;
  FRONTEND_URL : option string;
  BACKEND_URL : option string
}.

(** A variable interpolated in a template literal. *)
Definition interpolate (v : option string) : string :=
  match v with Some s => s | None => "undefined" end.

(** The outcome of an axios call as the services read it: the response
    data, or a failure with [error.response?.data?.message] and
    [error.message]. *)
Inductive Http (A : Type) :=
| HttpOk (data : A)
| HttpFail (response_message : option string) (error_message : string).
Arguments HttpFail {A} response_message error_message.

(** What a service wrapper returns: [{success: true, ...}] or
    [{success: false, error}]. *)
Inductive Result (A : Type) :=
| Success (value : A)
| Failure (error : string).
Arguments Failure {A} error.

(** services/razorpay.ts *)
Record CreateOrderParams := {
  cop_amount : JS.number;
  cop_currency : string;
  cop_receipt : string;
  cop_notes : string * string   (* orderId, customerEmail *)
}.

Record RazorpayOrder := {
  rzp_id : string;
  rzp_currency : string
}.

(** services/shiprocket-faster.ts *)
Record FasterCheckoutProduct := {
  fcp_name : string;
  fcp_sku : string;
  fcp_units : JS.number;
  fcp_selling_price : option JS.number;
  fcp_discount : JS.number
}.

Record FasterCheckoutParams := {
  fc_order_id : string;
  fc_order_amount : JS.number;
  fc_order_currency : string;
  fc_customer_email : string;
  fc_customer_phone : string;
  fc_customer_name : string;
  fc_products : list FasterCheckoutProduct;
  fc_pickup_postcode : string;
  fc_callback_url : string;
  fc_redirect_url : string;
  fc_webhook_url : string
}.

Record FasterCheckoutResponse := {
  fcr_checkout_url : option string;
  fcr_checkout_id : option string;
  fcr_order_id : option string
}.

Record FasterCheckoutVerified := {
  fcv_payment_status : option string;
  fcv_order_id : option string;
  fcv_shipment_id : option string;
  fcv_tracking_url : option string
}.

(** services/shiprocket.ts *)
Record ShiprocketOrderItem := {
  soi_name : string;
  soi_sku : string;
  soi_units : JS.number;
  soi_selling_price : JS.number;
  soi_discount : JS.number
}.

(** [ShiprocketOrderParams]; the billing fields are the projections of
    the order's customer snapshot and are carried as that snapshot. *)
Record ShiprocketOrderParams := {
  sop_order_id : string;
  sop_pickup_location : string;
  sop_billing : Customer;
  sop_order_items : list ShiprocketOrderItem;
  sop_sub_total : JS.number;
  sop_length : JS.number;
  sop_breadth : JS.number;
  sop_height : JS.number;
  sop_weight : JS.number
}.

Record ShiprocketCreated := {
  sc_order_id : option N;
  sc_shipment_id : option N
}.

(** services/shiprocketCheckout.ts *)
Record CheckoutCartItem := {
  cart_variant_id : string;
  cart_quantity : JS.number
}.

Record AccessTokenPayload := {
  atp_cart_items : list CheckoutCartItem;
  atp_redirect_url : string;
  atp_timestamp : string
}.

(** The partner's product and collection records, as the webhooks
    receive them (the request schema of the two routes). *)
Record PartnerVariant := {
  pv_id : N;
  pv_title : string;
  pv_price : string;
  pv_quantity : JS.number;
  pv_sku : option string;
  pv_weight : option string;
  pv_image_src : option string
}.

Record PartnerProduct := {
  pp_id : N;
  pp_title : string;
  pp_body_html : option string;
  pp_product_type : option string;
  pp_updated_at : string;
  pp_status : string;
  pp_variants : option (list PartnerVariant);
  pp_image_src : option string
}.

Record PartnerCollection := {
  pc_id : N;
  pc_title : string;
  pc_body_html : option string;
  pc_updated_at : string;
  pc_image_src : option string
}.

(** The libraries and servers the repository calls.  [hmac_sha256_hex k d]
    is [crypto.createHmac('sha256', k).update(d).digest('hex')];
    [jwt_verify t s] says that [jwt.verify(t, s)] returns;
    [razorpay_orders_create] is [None] when the SDK call rejects; the
    other calls are the HTTP exchanges of the Shiprocket services,
    bearer-token login included. *)
Record Runtime := {
  hmac_sha256_hex : string -> string -> string;
  hmac_sha256_base64 : string -> string -> string;
  jwt_verify : string -> string -> bool;
  parseFloat : string -> JS.number;
  stringify_product : PartnerProduct -> string;
  stringify_collection : PartnerCollection -> string;
  stringify_token_payload : AccessTokenPayload -> string;
  razorpay_orders_create : CreateOrderParams -> option RazorpayOrder;
  post_faster_checkout_create : FasterCheckoutParams -> Http FasterCheckoutResponse;
  get_faster_checkout : string -> Http FasterCheckoutVerified;
  post_faster_orders_cancel : string -> Http unit;
  post_orders_create_adhoc : ShiprocketOrderParams -> Http ShiprocketCreated;
  post_orders_cancel : string -> Http unit;
  post_access_token : AccessTokenPayload -> string -> string -> Http (option string)
}.

(** The outbound calls a handler can make, one for each call of a service
    function.  A call of a Shiprocket service stands for the whole
    exchange that the service function makes: the login of
    [getShiprocketToken] when its token cache is empty or has expired,
    and then the request proper. *)
Inductive Call :=
| CallRazorpayCreate (p : CreateOrderParams)
| CallFasterCreate (p : FasterCheckoutParams)
| CallFasterVerify (checkoutId : string)
| CallFasterCancel (orderId : string)
| CallShiprocketCreate (p : ShiprocketOrderParams)
| CallShiprocketCancel (orderId : string)
| CallAccessToken (p : AccessTokenPayload).

(** What a handler did, in the order it did it: a document written (the
    document as stored after the write) or a call sent out. *)
Inductive Event :=
| OrderWritten (o : Order)
| ProductWritten (p : Product)
| CollectionWritten (c : Collection)
| Outbound (c : Call).

Record World := {
  orders : list Order;
  products : list Product;
  collections : list Collection;
  log : list Event
}.

Definition emit (e : Event) (w : World) : World :=
  {| orders := orders w; products := products w;
     collections := collections w; log := log w ++ [e] |}.

Definition put_orders (os : list Order) (written : Order) (w : World) : World :=
  {| orders := os; products := products w;
     collections := collections w; log := log w ++ [OrderWritten written] |}.

Definition put_products (ps : list Product) (written : Product) (w : World) : World :=
  {| orders := orders w; products := ps;
     collections := collections w; log := log w ++ [ProductWritten written] |}.

Definition put_collections (cs : list Collection) (written : Collection) (w : World) : World :=
  {| orders := orders w; products := products w;
     collections := cs; log := log w ++ [CollectionWritten written] |}.

(** The JSON bodies the handlers send. *)
Inductive Body :=
| BError (error : string)
| BOrder (order : Order)
| BMessage (message : string)
| BPaymentVerified (order : Order)
| BOrderCreated (orderId razorpayOrderId : string) (amount : JS.number)
                (currency : string) (key : option string)
| BCheckoutCreated (orderId : string) (checkoutId checkoutUrl : option string)
                   (amount : JS.number)
| BCheckoutVerified (order : Order) (paymentStatus trackingUrl : option string)
| BShipmentCreated (shiprocketOrderId shiprocketShipmentId : option N) (order : Order)
| BToken (token : string)
| BProductUpdated (productId : string)
| BCollectionUpdated (collectionId : string).

Record Response := {
  code : N;
  body : Body
}.

Definition json (b : Body) : Response := {| code := 200; body := b |}.
Definition error_json (c : N) (msg : string) : Response := {| code := c; body := BError msg |}.

(** What a middleware decides. *)
Inductive Gate :=
| Next
| Reject (r : Response).

(* ------------------------------------------------------------------ *)
(** ** Writing orders *)

(** A plain update object over the order's mutable paths.  Mongoose sends
    it as [$set] of the keys that are not undefined. *)
Record OrderUpdate := {
  u_status : option Status;
  u_razorpayPaymentId : option string;
  u_razorpaySignature : option string;
  u_shiprocketOrderId : option string;
  u_shiprocketShipmentId : option string;
  u_trackingUrl : option string
}.

Definition applyUpdate (u : OrderUpdate) (o : Order) : Order :=
  {| orderId := orderId o;
     razorpayOrderId := razorpayOrderId o;
     razorpayPaymentId := Db.set_opt (u_razorpayPaymentId u) (razorpayPaymentId o);
     razorpaySignature := Db.set_opt (u_razorpaySignature u) (razorpaySignature o);
     amount := amount o;
     currency := currency o;
     status := match u_status u with Some s => s | None => status o end;
     customer := customer o;
     items := items o;
     shiprocketOrderId := Db.set_opt (u_shiprocketOrderId u) (shiprocketOrderId o);
     shiprocketShipmentId := Db.set_opt (u_shiprocketShipmentId u) (shiprocketShipmentId o);
     trackingUrl := Db.set_opt (u_trackingUrl u) (trackingUrl o) |}.

Definition only_status (s : option Status) : OrderUpdate :=
  {| u_status := s; u_razorpayPaymentId := None; u_razorpaySignature := None;
     u_shiprocketOrderId := None; u_shiprocketShipmentId := None;
     u_trackingUrl := None |}.

(** [Order.findOneAndUpdate({orderId}, update, {new: true})] on the world. *)
Definition updateOrder (i : string) (u : OrderUpdate) (w : World)
  : option Order * World :=
  match Db.findOneAndUpdate (byOrderId i) (applyUpdate u) (orders w) with
  | (Some o, os) => (Some o, put_orders os o w)
  | (None, _) => (None, w)
  end.

Definition not_nan (x : JS.number) : bool := negb (PrimFloat.is_nan x).

(** The validation [save()] runs: the [required] paths of [OrderSchema].
    A required string fails when empty, a number when it does not cast. *)
Definition validItem (it : OrderItem) : bool :=
  JS.truthy_str (item_productId it) && JS.truthy_str (item_variantId it) &&
  JS.truthy_str (item_name it) && not_nan (item_quantity it) &&
  not_nan (item_price it).

Definition validate (o : Order) : bool :=
  JS.truthy_str (orderId o) && JS.truthy_str (razorpayOrderId o) &&
  not_nan (amount o) &&
  JS.truthy_str (cust_name (customer o)) &&
  JS.truthy_str (cust_email (customer o)) &&
  JS.truthy_str (cust_phone (customer o)) &&
  forallb validItem (items o).

(** [new Order(o).save()]: the document is validated and inserted, unless
    the unique index on [orderId] refuses it; [None] when [save] throws. *)
Definition saveNew (o : Order) (w : World) : option World :=
  if validate o && negb (existsb (byOrderId (orderId o)) (orders w))
  then Some (put_orders (orders w ++ [o]) o w)
  else None.

(** [order.save()] on a document found earlier in the same request and
    modified since: the stored document is replaced by it.  Every stored
    order passed the validation of [save()] when it was inserted, and no
    update touches a required path, so the validation that [save()] runs
    again passes. *)
Definition saveFound (o : Order) (w : World) : World :=
  put_orders (Db.updateFirst (byOrderId (orderId o)) (fun _ => o) (orders w)) o w.

(** [new Order({orderId, razorpayOrderId, amount, currency,
    status: 'created', customer, items})]. *)
Definition newOrder (i rzp : string) (amt : JS.number) (cur : string)
           (c : Customer) (its : list OrderItem) : Order :=
  {| orderId := i; razorpayOrderId := rzp;
     razorpayPaymentId := None; razorpaySignature := None;
     amount := amt; currency := cur; status := created;
     customer := c; items := its;
     shiprocketOrderId := None; shiprocketShipmentId := None;
     trackingUrl := None |}.

(* ------------------------------------------------------------------ *)
(** ** middleware/auth.ts *)

Record AdminHeaders := {
  authorization : option string;
  x_admin_password : option string
}.

Section Handlers.

Variable rt : Runtime.
Variable env : Env.

Definition authenticateAdmin (h : AdminHeaders) : Gate :=
  let token := option_map (JS.replace_first "Bearer " "") (authorization h) in
  if JS.strict_eq (x_admin_password h) (ADMIN_PASSWORD env) then Next
  else if negb (JS.truthy_ostr token) then
    Reject (error_json 401 "Authentication required")
  else if jwt_verify rt (JS.or_ostr token "") (JS.or_ostr (JWT_SECRET env) "secret")
  then Next
  else Reject (error_json 401 "Invalid authentication token").

(* ------------------------------------------------------------------ *)
(** ** routes/orders.ts *)

(** [PATCH /:orderId/status] (admin only).  The body is untyped; its
    [status] is taken among the values of the schema's enum, or absent. *)
Definition patchStatus (h : AdminHeaders) (i : string) (st : option Status)
           (w : World) : Response * World :=
  match authenticateAdmin h with
  | Reject r => (r, w)
  | Next =>
      match updateOrder i (only_status st) w with
      | (None, w') => (error_json 404 "Order not found", w')
      | (Some o, w') => (json (BOrder o), w')
      end
  end.

Record PaymentPatch := {
  pay_razorpayPaymentId : option string;
  pay_razorpaySignature : option string;
  pay_status : option Status
}.

(** [PATCH /:orderId/payment]. *)
Definition patchPayment (i : string) (b : PaymentPatch) (w : World)
  : Response * World :=
  let u := {| u_status := Some (match pay_status b with Some s => s | None => paid end);
              u_razorpayPaymentId := pay_razorpayPaymentId b;
              u_razorpaySignature := pay_razorpaySignature b;
              u_shiprocketOrderId := None; u_shiprocketShipmentId := None;
              u_trackingUrl := None |} in
  match updateOrder i u w with
  | (None, w') => (error_json 404 "Order not found", w')
  | (Some o, w') => (json (BOrder o), w')
  end.

Record ShipmentPatch := {
  shp_shiprocketOrderId : option string;
  shp_shiprocketShipmentId : option string;
  shp_trackingUrl : option string
}.

(** [PATCH /:orderId/shipment] (admin only). *)
Definition patchShipment (h : AdminHeaders) (i : string) (b : ShipmentPatch)
           (w : World) : Response * World :=
  match authenticateAdmin h with
  | Reject r => (r, w)
  | Next =>
      let u := {| u_status := Some shipped;
                  u_razorpayPaymentId := None; u_razorpaySignature := None;
                  u_shiprocketOrderId := shp_shiprocketOrderId b;
                  u_shiprocketShipmentId := shp_shiprocketShipmentId b;
                  u_trackingUrl := shp_trackingUrl b |} in
      match updateOrder i u w with
      | (None, w') => (error_json 404 "Order not found", w')
      | (Some o, w') => (json (BOrder o), w')
      end
  end.

(** The result of a loop over line items that can answer early. *)
Inductive Checked (A : Type) :=
| Ok (a : A)
| Stop (r : Response).
Arguments Stop {A} r.

(* ------------------------------------------------------------------ *)
(** ** services/razorpay.ts *)

(** [createRazorpayOrder]: the conversion of the amount to paise is part
    of [razorpay_orders_create]. *)
Definition createRazorpayOrder (params : CreateOrderParams) : Result RazorpayOrder :=
  match razorpay_orders_create rt params with
  | Some order => Success order
  | None => Failure "Failed to create Razorpay order"
  end.

(** [verifyRazorpayPayment]: [createHmac] throws on an undefined key, and
    the [catch] answers [false]. *)
Definition verifyRazorpayPayment (razorpayOrderId razorpayPaymentId
                                  razorpaySignature : string) : bool :=
  match RAZORPAY_KEY_SECRET env with
  | None => false
  | Some secret =>
      let body := razorpayOrderId ++ "|" ++ razorpayPaymentId in
      let expectedSignature := hmac_sha256_hex rt secret body in
      String.eqb expectedSignature razorpaySignature
  end.

(* ------------------------------------------------------------------ *)
(** ** routes/payment.ts *)

(** The body of [POST /create-order].  Bodies are untyped in the source;
    here a field the handler tests for presence is optional, and the
    items and the customer have the shapes [OrderSchema] gives them. *)
Record CreateOrderBody := {
  co_amount : option JS.number;
  co_currency : option string;
  co_items : option (list OrderItem);
  co_customer : option Customer
}.

(** The loop of [POST /create-order]. *)
Fixpoint calculateTotal (ps : list Product) (its : list OrderItem)
         (calculatedTotal : JS.number) : Checked JS.number :=
  match its with
  | [] => Ok calculatedTotal
  | item :: rest =>
      match Db.findOne (byProductId (item_productId item)) ps with
      | None =>
          Stop (error_json 404 ("Product " ++ item_productId item ++ " not found"))
      | Some product =>
          if negb (prod_availableForSale product) then
            Stop (error_json 400 ("Product " ++ prod_name product ++ " is not available"))
          else
            calculateTotal ps rest
              (calculatedTotal + JS.to_number (prod_price product) * item_quantity item)%float
      end
  end.

(** [POST /create-order]; [now] is the reading of [Date.now()]. *)
Definition createOrder (now : N) (b : CreateOrderBody) (w : World)
  : Response * World :=
  match co_amount b, co_items b, co_customer b with
  | Some amt, Some its, Some cust =>
      if negb (JS.truthy_num amt) then (error_json 400 "Missing required fields", w)
      else
        match calculateTotal (products w) its 0%float with
        | Stop r => (r, w)
        | Ok calculatedTotal =>
            let orderId := "ORD_" ++ JS.toString now in
            let params :=
              {| cop_amount := calculatedTotal;
                 cop_currency := JS.or_ostr (co_currency b) "INR";
                 cop_receipt := orderId;
                 cop_notes := (orderId, cust_email cust) |} in
            let w1 := emit (Outbound (CallRazorpayCreate params)) w in
            match createRazorpayOrder params with
            | Failure e => (error_json 500 e, w1)
            | Success rzp =>
                let order :=
                  newOrder orderId (rzp_id rzp) calculatedTotal
                           (JS.or_ostr (co_currency b) "INR") cust its in
                match saveNew order w1 with
                | None => (error_json 500 "Failed to create order", w1)
                | Some w2 =>
                    (json (BOrderCreated orderId (rzp_id rzp) calculatedTotal
                                         (rzp_currency rzp) (RAZORPAY_KEY_ID env)), w2)
                end
            end
        end
  | _, _, _ => (error_json 400 "Missing required fields", w)
  end.

Record VerifyPaymentBody := {
  vp_razorpayOrderId : option string;
  vp_razorpayPaymentId : option string;
  vp_razorpaySignature : option string;
  vp_orderId : option string
}.

(** [POST /verify-payment]. *)
Definition verifyPayment (b : VerifyPaymentBody) (w : World) : Response * World :=
  if negb (JS.truthy_ostr (vp_razorpayOrderId b)) ||
     negb (JS.truthy_ostr (vp_razorpayPaymentId b)) ||
     negb (JS.truthy_ostr (vp_razorpaySignature b))
  then (error_json 400 "Missing payment verification data", w)
  else
    let razorpayOrderId := JS.or_ostr (vp_razorpayOrderId b) "" in
    let razorpayPaymentId := JS.or_ostr (vp_razorpayPaymentId b) "" in
    let razorpaySignature := JS.or_ostr (vp_razorpaySignature b) "" in
    let isValid :=
      verifyRazorpayPayment razorpayOrderId razorpayPaymentId razorpaySignature in
    if negb isValid then (error_json 400 "Invalid payment signature", w)
    else
      let u := {| u_status := Some paid;
                  u_razorpayPaymentId := Some razorpayPaymentId;
                  u_razorpaySignature := Some razorpaySignature;
                  u_shiprocketOrderId := None; u_shiprocketShipmentId := None;
                  u_trackingUrl := None |} in
      match updateOrder (JS.or_ostr (vp_orderId b) razorpayOrderId) u w with
      | (None, w') => (error_json 404 "Order not found", w')
      | (Some o, w') => (json (BPaymentVerified o), w')
      end.

(* ------------------------------------------------------------------ *)
(** ** services/shiprocket-faster.ts *)

Definition createFasterCheckout (params : FasterCheckoutParams)
  : Result FasterCheckoutResponse :=
  match post_faster_checkout_create rt params with
  | HttpOk d => Success d
  | HttpFail m _ => Failure (JS.or_ostr m "Failed to create Faster Checkout session")
  end.

Definition verifyFasterCheckout (checkoutId : string) : Result FasterCheckoutVerified :=
  match get_faster_checkout rt checkoutId with
  | HttpOk d => Success d
  | HttpFail m _ => Failure (JS.or_ostr m "Failed to verify Faster Checkout")
  end.

Definition cancelFasterCheckout (orderId : string) : Result unit :=
  match post_faster_orders_cancel rt orderId with
  | HttpOk d => Success d
  | HttpFail m _ => Failure (JS.or_ostr m "Failed to cancel order")
  end.

(* ------------------------------------------------------------------ *)
(** ** routes/faster-checkout.ts *)

Record FasterCreateBody := {
  fb_items : option (list OrderItem);
  fb_customer : option Customer;
  fb_pickupPincode : option string
}.

(** The loop of [POST /create]: the running total and the collaborator's
    product lines. *)
Fixpoint priceItems (ps : list Product) (its : list OrderItem)
         (totalAmount : JS.number) (lines : list FasterCheckoutProduct)
  : Checked (JS.number * list FasterCheckoutProduct) :=
  match its with
  | [] => Ok (totalAmount, lines)
  | item :: rest =>
      match Db.findOne (byProductId (item_productId item)) ps with
      | None =>
          Stop (error_json 404 ("Product " ++ item_productId item ++ " not found"))
      | Some product =>
          if negb (prod_availableForSale product) then
            Stop (error_json 400 ("Product " ++ prod_name product ++ " is not available"))
          else
            let itemTotal := (JS.to_number (prod_price product) * item_quantity item)%float in
            priceItems ps rest (totalAmount + itemTotal)%float
              (lines ++ [ {| fcp_name := prod_name product;
                             fcp_sku := JS.or_str (item_variantId item) (prod_id product);
                             fcp_units := item_quantity item;
                             fcp_selling_price := prod_price product;
                             fcp_discount := 0%float |} ])
      end
  end.

Definition set_razorpayOrderId (r : string) (o : Order) : Order :=
  {| orderId := orderId o; razorpayOrderId := r;
     razorpayPaymentId := razorpayPaymentId o;
     razorpaySignature := razorpaySignature o;
     amount := amount o; currency := currency o; status := status o;
     customer := customer o; items := items o;
     shiprocketOrderId := shiprocketOrderId o;
     shiprocketShipmentId := shiprocketShipmentId o;
     trackingUrl := trackingUrl o |}.

(** [POST /create]. *)
Definition fasterCreate (now : N) (b : FasterCreateBody) (w : World)
  : Response * World :=
  match fb_items b, fb_customer b, fb_pickupPincode b with
  | Some its, Some cust, Some pickupPincode =>
      if negb (JS.truthy_str pickupPincode) then
        (error_json 400 "Missing required fields", w)
      else
        match priceItems (products w) its 0%float [] with
        | Stop r => (r, w)
        | Ok (totalAmount, lines) =>
            let orderId := "BREWY_" ++ JS.toString now in
            let order := newOrder orderId orderId totalAmount "INR" cust its in
            match saveNew order w with
            | None => (error_json 500 "Failed to create checkout session", w)
            | Some w1 =>
                let params :=
                  {| fc_order_id := orderId;
                     fc_order_amount := totalAmount;
                     fc_order_currency := "INR";
                     fc_customer_email := cust_email cust;
                     fc_customer_phone := cust_phone cust;
                     fc_customer_name := cust_name cust;
                     fc_products := lines;
                     fc_pickup_postcode := pickupPincode;
                     fc_callback_url := interpolate (FRONTEND_URL env) ++ "/checkout/callback";
                     fc_redirect_url := interpolate (FRONTEND_URL env) ++ "/checkout/success";
                     fc_webhook_url :=
                       JS.or_ostr (BACKEND_URL env) "http://localhost:5000"
                       ++ "/api/faster-checkout/webhook" |} in
                let w2 := emit (Outbound (CallFasterCreate params)) w1 in
                match createFasterCheckout params with
                | Failure e => (error_json 500 e, w2)
                | Success checkoutResult =>
                    let order' :=
                      set_razorpayOrderId
                        (JS.or_ostr (fcr_checkout_id checkoutResult) orderId) order in
                    (json (BCheckoutCreated orderId (fcr_checkout_id checkoutResult)
                                            (fcr_checkout_url checkoutResult) totalAmount),
                     saveFound order' w2)
                end
            end
        end
  | _, _, _ => (error_json 400 "Missing required fields", w)
  end.

(** [x || y] on possibly undefined strings, the result possibly undefined. *)
Definition or_else (a b : option string) : option string :=
  if JS.truthy_ostr a then a else b.

(** An update whose filter value is undefined matches no order. *)
Definition updateOrderBy (i : option string) (u : OrderUpdate) (w : World)
  : option Order * World :=
  match i with
  | Some k => updateOrder k u w
  | None => (None, w)
  end.

Record FasterVerifyBody := {
  fv_checkoutId : option string;
  fv_orderId : option string
}.

(** [POST /verify]. *)
Definition fasterVerify (b : FasterVerifyBody) (w : World) : Response * World :=
  match fv_checkoutId b with
  | None => (error_json 400 "Checkout ID is required", w)
  | Some checkoutId =>
      if negb (JS.truthy_str checkoutId) then
        (error_json 400 "Checkout ID is required", w)
      else
        let w1 := emit (Outbound (CallFasterVerify checkoutId)) w in
        match verifyFasterCheckout checkoutId with
        | Failure e => (error_json 500 e, w1)
        | Success result =>
            let u :=
              {| u_status :=
                   Some (if JS.strict_eq (fcv_payment_status result) (Some "paid")
                         then paid else created);
                 u_razorpayPaymentId := None; u_razorpaySignature := None;
                 u_shiprocketOrderId := fcv_order_id result;
                 u_shiprocketShipmentId := fcv_shipment_id result;
                 u_trackingUrl := fcv_tracking_url result |} in
            match updateOrderBy (or_else (fv_orderId b) (fcv_order_id result)) u w1 with
            | (None, w') => (error_json 404 "Order not found", w')
            | (Some o, w') =>
                (json (BCheckoutVerified o (fcv_payment_status result)
                                         (fcv_tracking_url result)), w')
            end
        end
  end.

(** [POST /cancel] (admin only). *)
Definition fasterCancel (h : AdminHeaders) (orderId : option string) (w : World)
  : Response * World :=
  match authenticateAdmin h with
  | Reject r => (r, w)
  | Next =>
      match orderId with
      | None => (error_json 400 "Order ID is required", w)
      | Some i =>
          if negb (JS.truthy_str i) then (error_json 400 "Order ID is required", w)
          else
            let w1 := emit (Outbound (CallFasterCancel i)) w in
            match cancelFasterCheckout i with
            | Failure e => (error_json 500 e, w1)
            | Success _ =>
                (json (BMessage "Order cancelled successfully"),
                 snd (updateOrder i (only_status (Some failed)) w1))
            end
      end
  end.

Record FasterWebhookBody := {
  wh_order_id : option string;
  wh_payment_status : option string;
  wh_shipment_status : option string;
  wh_tracking_url : option string
}.

(** The [updateData] of [POST /webhook]. *)
Definition webhookUpdate (b : FasterWebhookBody) : OrderUpdate :=
  let st1 :=
    if JS.truthy_ostr (wh_payment_status b) then
      Some (if JS.strict_eq (wh_payment_status b) (Some "paid") then paid else failed)
    else None in
  let st2 :=
    if JS.strict_eq (wh_shipment_status b) (Some "shipped") then Some shipped
    else if JS.strict_eq (wh_shipment_status b) (Some "delivered") then Some delivered
    else st1 in
  {| u_status := st2;
     u_razorpayPaymentId := None; u_razorpaySignature := None;
     u_shiprocketOrderId := None; u_shiprocketShipmentId := None;
     u_trackingUrl :=
       if JS.truthy_ostr (wh_tracking_url b) then wh_tracking_url b else None |}.

(** [POST /webhook]. *)
Definition fasterWebhook (b : FasterWebhookBody) (w : World) : Response * World :=
  match wh_order_id b with
  | None => (error_json 400 "Invalid webhook data", w)
  | Some order_id =>
      if negb (JS.truthy_str order_id) then (error_json 400 "Invalid webhook data", w)
      else
        match updateOrder order_id (webhookUpdate b) w with
        | (None, w') => (error_json 404 "Order not found", w')
        | (Some _, w') => (json (BMessage "Webhook processed successfully"), w')
        end
  end.

(* ------------------------------------------------------------------ *)
(** ** services/shiprocket.ts *)

Definition createShiprocketOrder (orderData : ShiprocketOrderParams)
  : Result ShiprocketCreated :=
  match post_orders_create_adhoc rt orderData with
  | HttpOk d => Success d
  | HttpFail m _ => Failure (JS.or_ostr m "Failed to create Shiprocket order")
  end.

Definition cancelShipment (orderId : string) : Result unit :=
  match post_orders_cancel rt orderId with
  | HttpOk d => Success d
  | HttpFail m _ => Failure (JS.or_ostr m "Failed to cancel shipment")
  end.

(* ------------------------------------------------------------------ *)
(** ** routes/shipment.ts *)

(** The variables of the loop of [POST /create]. *)
Record Package := {
  orderItems : list ShiprocketOrderItem;
  totalWeight : JS.number;
  maxLength : JS.number;
  maxBreadth : JS.number;
  maxHeight : JS.number
}.

Definition emptyPackage : Package :=
  {| orderItems := []; totalWeight := 0%float;
     maxLength := 10%float; maxBreadth := 10%float; maxHeight := 10%float |}.

Definition shiprocketItem (item : OrderItem) : ShiprocketOrderItem :=
  {| soi_name := item_name item;
     soi_sku := JS.or_str (item_variantId item) (item_productId item);
     soi_units := item_quantity item;
     soi_selling_price := item_price item;
     soi_discount := 0%float |}.

(** One turn of the loop. *)
Definition packItem (ps : list Product) (acc : Package) (item : OrderItem) : Package :=
  match Db.findOne (byProductId (item_productId item)) ps with
  | None => acc
  | Some product =>
      match prod_dimensions product with
      | Some d =>
          {| orderItems := orderItems acc ++ [shiprocketItem item];
             totalWeight :=
               (totalWeight acc + JS.or_num (dim_weight d) 0.5 * item_quantity item)%float;
             maxLength := JS.Math_max (maxLength acc) (JS.or_num (dim_length d) 10%float);
             maxBreadth := JS.Math_max (maxBreadth acc) (JS.or_num (dim_breadth d) 10%float);
             maxHeight := JS.Math_max (maxHeight acc) (JS.or_num (dim_height d) 10%float) |}
      | None =>
          {| orderItems := orderItems acc ++ [shiprocketItem item];
             totalWeight := (totalWeight acc + 0.5 * item_quantity item)%float;
             maxLength := maxLength acc;
             maxBreadth := maxBreadth acc;
             maxHeight := maxHeight acc |}
      end
  end.

Definition pack (ps : list Product) (its : list OrderItem) : Package :=
  fold_left (packItem ps) its emptyPackage.

Definition shiprocketData (orderId : string) (pickupLocation : option string)
           (order : Order) (p : Package) : ShiprocketOrderParams :=
  {| sop_order_id := orderId;
     sop_pickup_location := JS.or_ostr pickupLocation "Primary";
     sop_billing := customer order;
     sop_order_items := orderItems p;
     sop_sub_total := amount order;
     sop_length := maxLength p;
     sop_breadth := maxBreadth p;
     sop_height := maxHeight p;
     sop_weight := totalWeight p |}.

(** The assignments before [order.save()] in [POST /create]. *)
Definition markShipped (r : ShiprocketCreated) (o : Order) : Order :=
  {| orderId := orderId o; razorpayOrderId := razorpayOrderId o;
     razorpayPaymentId := razorpayPaymentId o;
     razorpaySignature := razorpaySignature o;
     amount := amount o; currency := currency o;
     status := shipped;
     customer := customer o; items := items o;
     shiprocketOrderId := option_map JS.toString (sc_order_id r);
     shiprocketShipmentId := option_map JS.toString (sc_shipment_id r);
     trackingUrl := trackingUrl o |}.

Record ShipmentCreateBody := {
  sb_orderId : option string;
  sb_pickupLocation : option string
}.

(** [POST /create] (admin only). *)
Definition shipmentCreate (h : AdminHeaders) (b : ShipmentCreateBody) (w : World)
  : Response * World :=
  match authenticateAdmin h with
  | Reject r => (r, w)
  | Next =>
      if negb (JS.truthy_ostr (sb_orderId b)) then
        (error_json 400 "Order ID is required", w)
      else
        let orderId := JS.or_ostr (sb_orderId b) "" in
        match Db.findOne (byOrderId orderId) (orders w) with
        | None => (error_json 404 "Order not found", w)
        | Some order =>
            if negb (Status_eqb (status order) paid) then
              (error_json 400 "Order must be paid before creating shipment", w)
            else
              let data :=
                shiprocketData orderId (sb_pickupLocation b) order
                               (pack (products w) (items order)) in
              let w1 := emit (Outbound (CallShiprocketCreate data)) w in
              match createShiprocketOrder data with
              | Failure e => (error_json 500 e, w1)
              | Success result =>
                  let order' := markShipped result order in
                  (json (BShipmentCreated (sc_order_id result) (sc_shipment_id result)
                                          order'),
                   saveFound order' w1)
              end
        end
  end.

(** [POST /cancel] (admin only). *)
Definition shipmentCancel (h : AdminHeaders) (orderId : option string) (w : World)
  : Response * World :=
  match authenticateAdmin h with
  | Reject r => (r, w)
  | Next =>
      match orderId with
      | None => (error_json 400 "Order ID is required", w)
      | Some i =>
          if negb (JS.truthy_str i) then (error_json 400 "Order ID is required", w)
          else
            let w1 := emit (Outbound (CallShiprocketCancel i)) w in
            match cancelShipment i with
            | Failure e => (error_json 500 e, w1)
            | Success _ =>
                (json (BMessage "Shipment cancelled successfully"),
                 snd (updateOrder i (only_status (Some failed)) w1))
            end
      end
  end.

(* ------------------------------------------------------------------ *)
(** ** routes/shiprocket-webhooks.ts *)

Record WebhookHeaders := {
  X_Api_HMAC_SHA256 : option string;
  X_Api_Key : option string
}.

(** The middleware [verifyHMAC]; [stringify] is [JSON.stringify] on the
    route's body. *)
Definition verifyHMAC {B : Type} (stringify : B -> string)
           (h : WebhookHeaders) (reqBody : B) : Gate :=
  let signature := X_Api_HMAC_SHA256 h in
  let apiKey := X_Api_Key h in
  if negb (JS.truthy_ostr signature) || negb (JS.truthy_ostr apiKey) then
    Reject (error_json 401 "Missing authentication headers")
  else if negb (JS.strict_eq apiKey (SHIPROCKET_API_KEY env)) then
    Reject (error_json 401 "Invalid API key")
  else
    let payload := stringify reqBody in
    let calculatedHMAC :=
      hmac_sha256_hex rt (JS.or_ostr (SHIPROCKET_API_SECRET env) "") payload in
    if negb (JS.strict_eq (Some calculatedHMAC) signature) then
      Reject (error_json 401 "Invalid HMAC signature")
    else Next.

(** [name.toLowerCase().replace(/\s+/g, '-')]. *)
Definition handleOf (name : string) : string :=
  JS.replace_ws "-" (JS.toLowerCase name).

(** The [updateData] of the product webhook: a key is set or absent. *)
Record ProductUpdate := {
  up_id : string;
  up_name : string;
  up_description : string;
  up_flavor : string;
  up_updatedAt : string;
  up_availableForSale : bool;
  up_price : option JS.number;
  up_stock : option JS.number;
  up_variants : option (list Variant);
  up_dimensions : option Dimensions;
  up_images : option (list string);
  up_handle : option string
}.

Definition variantOf (availableForSale : bool) (variant : PartnerVariant) : Variant :=
  {| var_id := JS.toString (pv_id variant);
     var_title := pv_title variant;
     var_price := JS.or_num (parseFloat rt (pv_price variant)) 0%float;
     var_availableForSale := availableForSale;
     var_sku := Some (JS.or_ostr (pv_sku variant) (JS.toString (pv_id variant))) |}.

(** The transformation of [POST /product], statement by statement. *)
Definition productUpdateData (productData : PartnerProduct) : ProductUpdate :=
  let availableForSale := String.eqb (pp_status productData) "active" in
  let primary :=
    match pp_variants productData with
    | Some (primaryVariant :: _) => Some primaryVariant
    | _ => None
    end in
  let price :=
    option_map (fun pv => JS.or_num (parseFloat rt (pv_price pv)) 0%float) primary in
  let stock := option_map (fun pv => JS.or_num (pv_quantity pv) 0%float) primary in
  let variants :=
    match primary, pp_variants productData with
    | Some _, Some vs => Some (map (variantOf availableForSale) vs)
    | _, _ => None
    end in
  let dimensions :=
    match primary with
    | Some pv =>
        if JS.truthy_ostr (pv_weight pv) then
          Some {| dim_length := 10%float; dim_breadth := 10%float;
                  dim_height := 10%float;
                  dim_weight :=
                    JS.or_num (parseFloat rt (JS.or_ostr (pv_weight pv) "")) 0.5%float |}
        else None
    | None => None
    end in
  let images1 :=
    match primary with
    | Some pv =>
        if JS.truthy_ostr (pv_image_src pv)
        then Some [JS.or_ostr (pv_image_src pv) ""] else None
    | None => None
    end in
  let images2 :=
    match images1 with
    | Some i => Some i
    | None =>
        if JS.truthy_ostr (pp_image_src productData)
        then Some [JS.or_ostr (pp_image_src productData) ""] else None
    end in
  let name := pp_title productData in
  (* [updateData.handle] has not been assigned when it is tested. *)
  let handle0 : option string := None in
  let handle :=
    if negb (JS.truthy_ostr handle0) && JS.truthy_str name
    then Some (handleOf name) else handle0 in
  {| up_id := JS.toString (pp_id productData);
     up_name := name;
     up_description := JS.or_ostr (pp_body_html productData) "";
     up_flavor := JS.or_ostr (pp_product_type productData) "Beverages";
     up_updatedAt := pp_updated_at productData;
     up_availableForSale := availableForSale;
     up_price := price;
     up_stock := stock;
     up_variants := variants;
     up_dimensions := dimensions;
     up_images := images2;
     up_handle := handle |}.

Definition or_default {A} (x : option A) (d : A) : A :=
  match x with Some v => v | None => d end.

(** [$set] of the update's keys on a stored product.  The schema has
    [timestamps: true]: Mongoose drops the [updatedAt] of the update and
    stores [now], its own reading of the clock, in its place. *)
Definition setProduct (now : string) (u : ProductUpdate) (p : Product) : Product :=
  {| prod_id := up_id u;
     prod_name := up_name u;
     prod_flavor := up_flavor u;
     prod_price := Db.set_opt (up_price u) (prod_price p);
     prod_description := up_description u;
     prod_handle := Db.set_opt (up_handle u) (prod_handle p);
     prod_images := or_default (up_images u) (prod_images p);
     prod_stock := or_default (up_stock u) (prod_stock p);
     prod_availableForSale := up_availableForSale u;
     prod_variants := or_default (up_variants u) (prod_variants p);
     prod_dimensions := Db.set_opt (up_dimensions u) (prod_dimensions p);
     prod_updatedAt := now |}.

(** The defaults of [ProductSchema.dimensions]. *)
Definition defaultDimensions : Dimensions :=
  {| dim_length := 10%float; dim_breadth := 10%float;
     dim_height := 10%float; dim_weight := 0.5%float |}.

(** The document an upsert inserts: the update's keys over the schema's
    defaults (no stock, the default dimensions, empty arrays), with
    [updatedAt] read from Mongoose's clock. *)
Definition insertedProduct (now : string) (u : ProductUpdate) : Product :=
  {| prod_id := up_id u;
     prod_name := up_name u;
     prod_flavor := up_flavor u;
     prod_price := up_price u;
     prod_description := up_description u;
     prod_handle := up_handle u;
     prod_images := or_default (up_images u) [];
     prod_stock := or_default (up_stock u) 0%float;
     prod_availableForSale := up_availableForSale u;
     prod_variants := or_default (up_variants u) [];
     prod_dimensions := Some (or_default (up_dimensions u) defaultDimensions);
     prod_updatedAt := now |}.

Definition ostr_eqb (a b : option string) : bool := JS.strict_eq a b.

(** The unique index on [handle]: another product already has it. *)
Definition productHandleTaken (i : string) (h : option string) (ps : list Product) : bool :=
  existsb (fun p => negb (byProductId i p) && ostr_eqb (prod_handle p) h) ps.

(** [Product.findOneAndUpdate({id}, updateData, {upsert: true, new: true,
    runValidators: false})]; [None] when the unique index refuses the
    write and the call throws. *)
Definition upsertProduct (now : string) (i : string) (u : ProductUpdate) (w : World)
  : option (Product * World) :=
  match Db.findOne (byProductId i) (products w) with
  | Some p =>
      let p' := setProduct now u p in
      if productHandleTaken i (prod_handle p') (products w) then None
      else Some (p', put_products
                       (Db.updateFirst (byProductId i) (setProduct now u) (products w))
                       p' w)
  | None =>
      let p' := insertedProduct now u in
      if productHandleTaken i (prod_handle p') (products w) then None
      else Some (p', put_products (products w ++ [p']) p' w)
  end.

(** [POST /product]; [now] is the clock reading Mongoose takes for the
    timestamps of the write. *)
Definition productWebhook (now : string) (h : WebhookHeaders)
           (productData : PartnerProduct) (w : World) : Response * World :=
  match verifyHMAC (stringify_product rt) h productData with
  | Reject r => (r, w)
  | Next =>
      let updateData := productUpdateData productData in
      match upsertProduct now (JS.toString (pp_id productData)) updateData w with
      | None => (error_json 500 "Failed to process product webhook", w)
      | Some (product, w') => (json (BProductUpdated (prod_id product)), w')
      end
  end.

(** The [updateData] of the collection webhook. *)
Record CollectionUpdate := {
  uc_id : string;
  uc_name : string;
  uc_description : string;
  uc_updatedAt : string;
  uc_image : option string;
  uc_handle : option string
}.

(** The transformation of [POST /collection]. *)
Definition collectionUpdateData (collectionData : PartnerCollection) : CollectionUpdate :=
  let name := pc_title collectionData in
  let handle0 : option string := None in
  let handle :=
    if negb (JS.truthy_ostr handle0) && JS.truthy_str name
    then Some (handleOf name) else handle0 in
  {| uc_id := JS.toString (pc_id collectionData);
     uc_name := name;
     uc_description := JS.or_ostr (pc_body_html collectionData) "";
     uc_updatedAt := pc_updated_at collectionData;
     uc_image :=
       if JS.truthy_ostr (pc_image_src collectionData)
       then pc_image_src collectionData else None;
     uc_handle := handle |}.

(** [$set] of the update's keys on a stored collection; [updatedAt] is
    Mongoose's clock reading, as for products. *)
Definition setCollection (now : string) (u : CollectionUpdate) (c : Collection)
  : Collection :=
  {| coll_id := uc_id u;
     coll_name := uc_name u;
     coll_handle := Db.set_opt (uc_handle u) (coll_handle c);
     coll_description := uc_description u;
     coll_productIds := coll_productIds c;
     coll_image := Db.set_opt (uc_image u) (coll_image c);
     coll_updatedAt := now |}.

Definition insertedCollection (now : string) (u : CollectionUpdate) : Collection :=
  {| coll_id := uc_id u;
     coll_name := uc_name u;
     coll_handle := uc_handle u;
     coll_description := uc_description u;
     coll_productIds := [];
     coll_image := uc_image u;
     coll_updatedAt := now |}.

Definition collectionHandleTaken (i : string) (h : option string)
           (cs : list Collection) : bool :=
  existsb (fun c => negb (byCollectionId i c) && ostr_eqb (coll_handle c) h) cs.

Definition upsertCollection (now : string) (i : string) (u : CollectionUpdate)
           (w : World) : option (Collection * World) :=
  match Db.findOne (byCollectionId i) (collections w) with
  | Some c =>
      let c' := setCollection now u c in
      if collectionHandleTaken i (coll_handle c') (collections w) then None
      else Some (c', put_collections
                       (Db.updateFirst (byCollectionId i) (setCollection now u)
                                       (collections w))
                       c' w)
  | None =>
      let c' := insertedCollection now u in
      if collectionHandleTaken i (coll_handle c') (collections w) then None
      else Some (c', put_collections (collections w ++ [c']) c' w)
  end.

(** [POST /collection]; [now] as for [productWebhook]. *)
Definition collectionWebhook (now : string) (h : WebhookHeaders)
           (collectionData : PartnerCollection) (w : World) : Response * World :=
  match verifyHMAC (stringify_collection rt) h collectionData with
  | Reject r => (r, w)
  | Next =>
      let updateData := collectionUpdateData collectionData in
      match upsertCollection now (JS.toString (pc_id collectionData)) updateData w with
      | None => (error_json 500 "Failed to process collection webhook", w)
      | Some (collection, w') => (json (BCollectionUpdated (coll_id collection)), w')
      end
  end.

(* ------------------------------------------------------------------ *)
(** ** services/shiprocketCheckout.ts *)

Definition generateHMAC (payload : AccessTokenPayload) (secret : string) : string :=
  hmac_sha256_base64 rt secret (stringify_token_payload rt payload).

Record AccessTokenParams := {
  at_cart_items : list CheckoutCartItem;
  at_redirect_url : string;
  at_timestamp : option string
}.

(** [generateAccessToken]; [clock] is the reading of
    [new Date().toISOString()].  The result and, when the request is
    sent, the payload posted. *)
Definition generateAccessToken (clock : string) (params : AccessTokenParams)
  : Result string * option AccessTokenPayload :=
  match SHIPROCKET_API_KEY env, SHIPROCKET_API_SECRET env with
  | Some apiKey, Some apiSecret =>
      if negb (JS.truthy_str apiKey) || negb (JS.truthy_str apiSecret) then
        (Failure "Shiprocket API credentials not configured", None)
      else
        let timestamp := JS.or_ostr (at_timestamp params) clock in
        let payload :=
          {| atp_cart_items := at_cart_items params;
             atp_redirect_url := at_redirect_url params;
             atp_timestamp := timestamp |} in
        let hmacSignature := generateHMAC payload apiSecret in
        match post_access_token rt payload apiKey hmacSignature with
        | HttpOk token =>
            if JS.truthy_ostr token then (Success (JS.or_ostr token ""), Some payload)
            else (Failure "Token not found in response", Some payload)
        | HttpFail m e =>
            (Failure (JS.or_str (JS.or_ostr m e) "Failed to generate checkout token"),
             Some payload)
        end
  | _, _ => (Failure "Shiprocket API credentials not configured", None)
  end.

(* ------------------------------------------------------------------ *)
(** ** routes/checkout.ts *)

Record CartData := {
  cd_items : option (list CheckoutCartItem)
}.

Record GenerateTokenBody := {
  gt_cart_data : option CartData;
  gt_redirect_url : option string
}.

(** The filter [{$or: [{id: v}, {'variants.id': v}]}]. *)
Definition byIdOrVariant (v : string) (p : Product) : bool :=
  String.eqb (prod_id p) v ||
  existsb (fun x => String.eqb (var_id x) v) (prod_variants p).

(** The loop of [POST /generate-token]: [None] when every item passes. *)
Fixpoint validateCart (ps : list Product) (its : list CheckoutCartItem)
  : option Response :=
  match its with
  | [] => None
  | item :: rest =>
      match Db.findOne (byIdOrVariant (cart_variant_id item)) ps with
      | None =>
          Some (error_json 404 ("Product with variant ID " ++ cart_variant_id item
                                ++ " not found"))
      | Some product =>
          if negb (prod_availableForSale product) then
            Some (error_json 400 ("Product " ++ prod_name product
                                  ++ " is not available for sale"))
          else validateCart ps rest
      end
  end.

(** [POST /generate-token]; [clock1] and [clock2] are the two readings of
    the clock, the route's and the service's. *)
Definition generateToken (clock1 clock2 : string) (b : GenerateTokenBody) (w : World)
  : Response * World :=
  match gt_cart_data b with
  | Some cart_data =>
      match cd_items cart_data with
      | Some its =>
          if negb (JS.truthy_ostr (gt_redirect_url b)) then
            (error_json 400 "Missing required fields: cart_data and redirect_url", w)
          else
            match validateCart (products w) its with
            | Some r => (r, w)
            | None =>
                let params :=
                  {| at_cart_items := its;
                     at_redirect_url := JS.or_ostr (gt_redirect_url b) "";
                     at_timestamp := Some clock1 |} in
                let (result, sent) := generateAccessToken clock2 params in
                let w1 :=
                  match sent with
                  | Some payload => emit (Outbound (CallAccessToken payload)) w
                  | None => w
                  end in
                match result with
                | Failure e =>
                    (error_json 500 (JS.or_str e "Failed to generate checkout token"), w1)
                | Success token => (json (BToken token), w1)
                end
            end
      | None => (error_json 400 "Missing required fields: cart_data and redirect_url", w)
      end
  | None => (error_json 400 "Missing required fields: cart_data and redirect_url", w)
  end.

End Handlers.

(* ------------------------------------------------------------------ *)
(** ** The public mutations of an order *)

(** The requests that write to an existing order. *)
Inductive Mutation :=
| VerifyPayment (b : VerifyPaymentBody)
| PatchStatus (h : AdminHeaders) (i : string) (st : option Status)
| PatchPayment (i : string) (b : PaymentPatch)
| PatchShipment (h : AdminHeaders) (i : string) (b : ShipmentPatch)
| FasterVerify (b : FasterVerifyBody)
| FasterCancel (h : AdminHeaders) (orderId : option string)
| FasterWebhook (b : FasterWebhookBody)
| ShipmentCreate (h : AdminHeaders) (b : ShipmentCreateBody)
| ShipmentCancel (h : AdminHeaders) (orderId : option string).

Definition perform (rt : Runtime) (env : Env) (m : Mutation) (w : World)
  : Response * World :=
  match m with
  | VerifyPayment b => verifyPayment rt env b w
  | PatchStatus h i st => patchStatus rt env h i st w
  | PatchPayment i b => patchPayment i b w
  | PatchShipment h i b => patchShipment rt env h i b w
  | FasterVerify b => fasterVerify rt b w
  | FasterCancel h i => fasterCancel rt env h i w
  | FasterWebhook b => fasterWebhook b w
  | ShipmentCreate h b => shipmentCreate rt env h b w
  | ShipmentCancel h i => shipmentCancel rt env h i w
  end.

(** The requests of a sequence, handled one after the other. *)
Definition run (rt : Runtime) (env : Env) (ms : list Mutation) (w : World) : World :=
  fold_left (fun w m => snd (perform rt env m w)) ms w.

(** The statuses a request can write, read off the request alone. *)
Definition named (m : Mutation) : list Status :=
  match m with
  | VerifyPayment _ => [paid]
  | PatchStatus _ _ st => match st with Some s => [s] | None => [] end
  | PatchPayment _ b => [match pay_status b with Some s => s | None => paid end]
  | PatchShipment _ _ _ => [shipped]
  | FasterVerify _ => [paid; created]
  | FasterCancel _ _ => [failed]
  | FasterWebhook b =>
      match u_status (webhookUpdate b) with Some s => [s] | None => [] end
  | ShipmentCreate _ _ => [shipped]
  | ShipmentCancel _ _ => [failed]
  end.

(** The order id and the status a request writes once it reaches the
    ledger, read off the request, the configuration and the
    collaborators' answers: the ledger is no argument.  [None] when the
    request is refused before its update, or the update carries no
    status.  Shipment creation is left out: whether it writes depends on
    the stored order. *)
Definition requested (rt : Runtime) (env : Env) (m : Mutation)
  : option (string * Status) :=
  match m with
  | VerifyPayment b =>
      match vp_razorpayOrderId b, vp_razorpayPaymentId b, vp_razorpaySignature b with
      | Some orderRef, Some paymentRef, Some signature =>
          if JS.truthy_str orderRef && JS.truthy_str paymentRef &&
             JS.truthy_str signature &&
             verifyRazorpayPayment rt env orderRef paymentRef signature
          then Some (JS.or_ostr (vp_orderId b) orderRef, paid)
          else None
      | _, _, _ => None
      end
  | PatchStatus h i st =>
      match authenticateAdmin rt env h, st with
      | Next, Some s => Some (i, s)
      | _, _ => None
      end
  | PatchPayment i b =>
      Some (i, match pay_status b with Some s => s | None => paid end)
  | PatchShipment h i _ =>
      match authenticateAdmin rt env h with
      | Next => Some (i, shipped)
      | Reject _ => None
      end
  | FasterVerify b =>
      match fv_checkoutId b with
      | Some checkoutId =>
          if JS.truthy_str checkoutId then
            match verifyFasterCheckout rt checkoutId with
            | Success result =>
                match or_else (fv_orderId b) (fcv_order_id result) with
                | Some k =>
                    Some (k, if JS.strict_eq (fcv_payment_status result) (Some "paid")
                             then paid else created)
                | None => None
                end
            | Failure _ => None
            end
          else None
      | None => None
      end
  | FasterCancel h orderId =>
      match authenticateAdmin rt env h, orderId with
      | Next, Some i =>
          if JS.truthy_str i then
            match cancelFasterCheckout rt i with
            | Success _ => Some (i, failed)
            | Failure _ => None
            end
          else None
      | _, _ => None
      end
  | FasterWebhook b =>
      match wh_order_id b, u_status (webhookUpdate b) with
      | Some i, Some s => if JS.truthy_str i then Some (i, s) else None
      | _, _ => None
      end
  | ShipmentCreate _ _ => None
  | ShipmentCancel h orderId =>
      match authenticateAdmin rt env h, orderId with
      | Next, Some i =>
          if JS.truthy_str i then
            match cancelShipment rt i with
            | Success _ => Some (i, failed)
            | Failure _ => None
            end
          else None
      | _, _ => None
      end
  end.

(** The status of an order after a request that writes [r]. *)
Definition statusAfter (r : option (string * Status)) (i : string) (s : Status)
  : Status :=
  match r with
  | Some (j, s') => if String.eqb i j then s' else s
  | None => s
  end.

(** The transition table of the order ledger, as the specification
    gives it. *)
Definition spec_transition (from to : Status) : bool :=
  match from, to with
  | created, paid | created, failed
  | paid, shipped | paid, failed
  | shipped, delivered => true
  | _, _ => false
  end.

Definition statusOf (i : string) (w : World) : option Status :=
  option_map status (Db.findOne (byOrderId i) (orders w)).

(* ------------------------------------------------------------------ *)
(** ** Sums, maxima and line items, as the properties state them *)

(** The sum of a list of numbers, accumulated from [0] in list order
    (addition of binary64 numbers is not associative). *)
Definition sum (l : list JS.number) : JS.number :=
  fold_left PrimFloat.add l 0%float.

(** The maximum of [start] and the numbers of a list. *)
Definition maxFrom (start : JS.number) (l : list JS.number) : JS.number :=
  fold_left JS.Math_max l start.

(** The maximum of a non-empty list of numbers. *)
Definition axisMax (l : list JS.number) : option JS.number :=
  match l with
  | [] => None
  | x :: rest => Some (maxFrom x rest)
  end.

Definition productOf (ps : list Product) (it : OrderItem) : option Product :=
  Db.findOne (byProductId (item_productId it)) ps.

(** The product of a line item is stored. *)
Definition resolves (ps : list Product) (it : OrderItem) : bool :=
  match productOf ps it with Some _ => true | None => false end.

(** The product of a line item is stored and available for sale. *)
Definition available (ps : list Product) (it : OrderItem) : bool :=
  match productOf ps it with
  | Some p => prod_availableForSale p
  | None => false
  end.

(** The stored price of a line item's product, times the quantity. *)
Definition lineTotal (ps : list Product) (it : OrderItem) : JS.number :=
  match productOf ps it with
  | Some p => (JS.to_number (prod_price p) * item_quantity it)%float
  | None => nan
  end.

Definition itemsTotal (ps : list Product) (its : list OrderItem) : JS.number :=
  sum (map (lineTotal ps) its).

(** The weight of a line: the product's stored weight (0.5 when the
    product has no dimensions, or a weight of zero) times the quantity. *)
Definition lineWeight (ps : list Product) (it : OrderItem) : JS.number :=
  match productOf ps it with
  | Some p =>
      match prod_dimensions p with
      | Some d => (JS.or_num (dim_weight d) 0.5 * item_quantity it)%float
      | None => (0.5 * item_quantity it)%float
      end
  | None => 0%float
  end.

(** What a line contributes to an axis: the stored dimension of its
    product (10 when it is zero), nothing without stored dimensions. *)
Definition lineAxis (axis : Dimensions -> JS.number) (ps : list Product)
           (it : OrderItem) : list JS.number :=
  match productOf ps it with
  | Some p =>
      match prod_dimensions p with
      | Some d => [JS.or_num (axis d) 10%float]
      | None => []
      end
  | None => []
  end.

(** The dimension a product stores on an axis. *)
Definition storedAxis (axis : Dimensions -> JS.number) (ps : list Product)
           (it : OrderItem) : list JS.number :=
  match productOf ps it with
  | Some p =>
      match prod_dimensions p with
      | Some d => [axis d]
      | None => [10%float]
      end
  | None => []
  end.

(* ------------------------------------------------------------------ *)
(** ** The catalog webhooks as one entry point *)

(** A request to [/api/shiprocket-webhooks]: the route and its body. *)
Inductive CatalogRequest :=
| ProductHook (productData : PartnerProduct)
| CollectionHook (collectionData : PartnerCollection).

Definition catalogWebhook (rt : Runtime) (env : Env) (now : string)
           (h : WebhookHeaders) (req : CatalogRequest) (w : World)
  : Response * World :=
  match req with
  | ProductHook d => productWebhook rt env now h d w
  | CollectionHook d => collectionWebhook rt env now h d w
  end.

(** A stored record with a later [updatedAt], and nothing else changed. *)
Definition touchProduct (now : string) (p : Product) : Product :=
  {| prod_id := prod_id p; prod_name := prod_name p; prod_flavor := prod_flavor p;
     prod_price := prod_price p; prod_description := prod_description p;
     prod_handle := prod_handle p; prod_images := prod_images p;
     prod_stock := prod_stock p; prod_availableForSale := prod_availableForSale p;
     prod_variants := prod_variants p; prod_dimensions := prod_dimensions p;
     prod_updatedAt := now |}.

Definition touchCollection (now : string) (c : Collection) : Collection :=
  {| coll_id := coll_id c; coll_name := coll_name c; coll_handle := coll_handle c;
     coll_description := coll_description c; coll_productIds := coll_productIds c;
     coll_image := coll_image c; coll_updatedAt := now |}.

(** [JSON.stringify(req.body)]. *)
Definition serialized (rt : Runtime) (req : CatalogRequest) : string :=
  match req with
  | ProductHook d => stringify_product rt d
  | CollectionHook d => stringify_collection rt d
  end.

(** The hex digest the server computes for a request. *)
Definition expectedHMAC (rt : Runtime) (env : Env) (req : CatalogRequest) : string :=
  hmac_sha256_hex rt (JS.or_ostr (SHIPROCKET_API_SECRET env) "") (serialized rt req).

(** A header is absent, the key is not the server's, or the signature
    is not the digest of the body. *)
Definition unauthentic (rt : Runtime) (env : Env) (h : WebhookHeaders)
           (req : CatalogRequest) : Prop :=
  X_Api_Key h = None \/
  X_Api_HMAC_SHA256 h = None \/
  X_Api_Key h <> SHIPROCKET_API_KEY env \/
  X_Api_HMAC_SHA256 h <> Some (expectedHMAC rt env req).

(* ------------------------------------------------------------------ *)
(** ** A small shop to evaluate the handlers on *)

Module Sample.

(** Stand-ins for the libraries: the digest of [d] under [k] is the
    two written next to each other, and the collaborators accept. *)
Definition rt : Runtime :=
  {| hmac_sha256_hex := fun k d => "hex:" ++ k ++ ":" ++ d;
     hmac_sha256_base64 := fun k d => "b64:" ++ k ++ ":" ++ d;
     jwt_verify := fun _ _ => false;
     parseFloat := fun _ => nan;
     stringify_product := fun p => JS.toString (pp_id p) ++ "/" ++ pp_title p;
     stringify_collection := fun c => JS.toString (pc_id c) ++ "/" ++ pc_title c;
     stringify_token_payload := fun p => atp_redirect_url p ++ "@" ++ atp_timestamp p;
     razorpay_orders_create :=
       fun p => Some {| rzp_id := "order_rzp_1"; rzp_currency := cop_currency p |};
     post_faster_checkout_create :=
       fun p => HttpOk {| fcr_checkout_url := Some "https://checkout/1";
                          fcr_checkout_id := Some "chk_1";
                          fcr_order_id := Some (fc_order_id p) |};
     get_faster_checkout :=
       fun _ => HttpOk {| fcv_payment_status := Some "paid";
                          fcv_order_id := None; fcv_shipment_id := None;
                          fcv_tracking_url := None |};
     post_faster_orders_cancel := fun _ => HttpOk tt;
     post_orders_create_adhoc :=
       fun _ => HttpOk {| sc_order_id := Some 501%N; sc_shipment_id := Some 902%N |};
     post_orders_cancel := fun _ => HttpOk tt;
     post_access_token := fun _ _ _ => HttpOk (Some "tok_1") |}.

(** The same with every collaborator unreachable. *)
Definition offline : Runtime :=
  {| hmac_sha256_hex := hmac_sha256_hex rt;
     hmac_sha256_base64 := hmac_sha256_base64 rt;
     jwt_verify := jwt_verify rt;
     parseFloat := parseFloat rt;
     stringify_product := stringify_product rt;
     stringify_collection := stringify_collection rt;
     stringify_token_payload := stringify_token_payload rt;
     razorpay_orders_create := fun _ => None;
     post_faster_checkout_create := fun _ => HttpFail None "timeout";
     get_faster_checkout := fun _ => HttpFail None "timeout";
     post_faster_orders_cancel := fun _ => HttpFail None "timeout";
     post_orders_create_adhoc := fun _ => HttpFail None "timeout";
     post_orders_cancel := fun _ => HttpFail None "timeout";
     post_access_token := fun _ _ _ => HttpFail None "timeout" |}.

Definition env : Env :=
  {| ADMIN_PASSWORD := Some "letmein";
     JWT_SECRET := Some "jwt";
     SHIPROCKET_API_KEY := Some "sr_key";
     SHIPROCKET_API_SECRET := Some "sr_secret";
     RAZORPAY_KEY_ID := Some "rzp_key";
     RAZORPAY_KEY_SECRET := Some "rzp_secret";
     FRONTEND_URL := Some "https://shop";
     BACKEND_URL := None |}.

Definition admin : AdminHeaders :=
  {| authorization := None; x_admin_password := Some "letmein" |}.

Definition buyer : Customer :=
  {| cust_name := "Asha Rao"; cust_email := "asha@example.com";
     cust_phone := "9000000000";
     cust_address :=
       {| line1 := "1 Lake Road"; line2 := None; city := "Pune";
          state := "MH"; pincode := "411001"; country := "India" |} |}.

Definition can (id name handle : string) (d : option Dimensions) : Product :=
  {| prod_id := id; prod_name := name; prod_flavor := "Grape";
     prod_price := Some 49%float; prod_description := "A can";
     prod_handle := Some handle; prod_images := []; prod_stock := 100%float;
     prod_availableForSale := true; prod_variants := [];
     prod_dimensions := d; prod_updatedAt := "2025-01-01T00:00:00Z" |}.

Definition slim : Dimensions :=
  {| dim_length := 6%float; dim_breadth := 6%float;
     dim_height := 12%float; dim_weight := 0.35%float |}.

Definition cube : Dimensions :=
  {| dim_length := 10%float; dim_breadth := 10%float;
     dim_height := 10%float; dim_weight := 0.5%float |}.

Definition grape : Product := can "prod_grape" "Grape Brewy" "grape-brewy" (Some slim).
Definition lemon : Product := can "prod_lemon_lime" "Lemon Lime" "lemon-lime" (Some cube).

Definition line (id : string) (q : JS.number) : OrderItem :=
  {| item_productId := id; item_variantId := id; item_name := id;
     item_quantity := q; item_price := 49%float |}.

Definition order (id : string) (st : Status) (its : list OrderItem) : Order :=
  {| orderId := id; razorpayOrderId := id;
     razorpayPaymentId := None; razorpaySignature := None;
     amount := 98%float; currency := "INR"; status := st;
     customer := buyer; items := its;
     shiprocketOrderId := None; shiprocketShipmentId := None;
     trackingUrl := None |}.

Definition shop (os : list Order) : World :=
  {| orders := os; products := [grape; lemon]; collections := []; log := [] |}.

(** A partner record for the grape can, and the headers of a request
    that carries it with the right key and signature. *)
Definition partnerGrape (title : string) : PartnerProduct :=
  {| pp_id := 632910392%N; pp_title := title; pp_body_html := None;
     pp_product_type := None; pp_updated_at := "2025-06-01T00:00:00Z";
     pp_status := "active"; pp_variants := None; pp_image_src := None |}.

Definition signed (req : CatalogRequest) : WebhookHeaders :=
  {| X_Api_HMAC_SHA256 := Some (expectedHMAC rt env req);
     X_Api_Key := Some "sr_key" |}.

(** A payment confirmation with a signature that is not the digest. *)
Definition forged : VerifyPaymentBody :=
  {| vp_razorpayOrderId := Some "order_rzp_1";
     vp_razorpayPaymentId := Some "pay_1";
     vp_razorpaySignature := Some "0000";
     vp_orderId := Some "BREWY_1" |}.

Definition ship (id : string) : ShipmentCreateBody :=
  {| sb_orderId := Some id; sb_pickupLocation := None |}.

Definition shipmentInfo : ShipmentPatch :=
  {| shp_shiprocketOrderId := Some "501";
     shp_shiprocketShipmentId := Some "902";
     shp_trackingUrl := Some "https://track/902" |}.

Definition paidCallback (id : string) : FasterWebhookBody :=
  {| wh_order_id := Some id; wh_payment_status := Some "paid";
     wh_shipment_status := None; wh_tracking_url := None |}.

(** The cart of the specification's end-to-end example: two grape cans,
      with a price the client made up. *)
Definition cart : list OrderItem :=
    [ {| item_productId := "prod_grape"; item_variantId := "prod_grape";
         item_name := "Grape Brewy"; item_quantity := 2%float;
         item_price := 1%float |} ].

(** The body of the repository's token test (test-checkout-token.js). *)
Definition tokenRequest : GenerateTokenBody :=
    {| gt_cart_data :=
         Some {| cd_items :=
                   Some [ {| cart_variant_id := "prod_grape"; cart_quantity := 2%float |};
                          {| cart_variant_id := "prod_lemon_lime";
                             cart_quantity := 1%float |} ] |};
       gt_redirect_url := Some "http://localhost:3000/checkout/success" |}.

(** A caller with a bearer token that does not verify. *)
Definition stranger : AdminHeaders :=
  {| authorization := Some "Bearer forged.jwt.token"; x_admin_password := None |}.

(** The environment with no admin password configured. *)
Definition envNoPassword : Env :=
  {| ADMIN_PASSWORD := None;
     JWT_SECRET := JWT_SECRET env;
     SHIPROCKET_API_KEY := SHIPROCKET_API_KEY env;
     SHIPROCKET_API_SECRET := SHIPROCKET_API_SECRET env;
     RAZORPAY_KEY_ID := RAZORPAY_KEY_ID env;
     RAZORPAY_KEY_SECRET := RAZORPAY_KEY_SECRET env;
     FRONTEND_URL := FRONTEND_URL env;
     BACKEND_URL := BACKEND_URL env |}.

(** A payment confirmation signed with the payment secret. *)
Definition genuine : VerifyPaymentBody :=
  {| vp_razorpayOrderId := Some "order_rzp_1";
     vp_razorpayPaymentId := Some "pay_1";
     vp_razorpaySignature :=
       Some (hmac_sha256_hex rt "rzp_secret" "order_rzp_1|pay_1");
     vp_orderId := Some "BREWY_1" |}.

(** The environment with the Shiprocket secret left empty. *)
Definition envNoSecret : Env :=
  {| ADMIN_PASSWORD := ADMIN_PASSWORD env;
     JWT_SECRET := JWT_SECRET env;
     SHIPROCKET_API_KEY := SHIPROCKET_API_KEY env;
     SHIPROCKET_API_SECRET := Some "";
     RAZORPAY_KEY_ID := RAZORPAY_KEY_ID env;
     RAZORPAY_KEY_SECRET := RAZORPAY_KEY_SECRET env;
     FRONTEND_URL := FRONTEND_URL env;
     BACKEND_URL := BACKEND_URL env |}.

End Sample.

(** The cart of a token request: every variant resolves, by the filter
    of the route, to a product that is available for sale. *)
Definition cartAvailable (ps : list Product) (its : list CheckoutCartItem) : bool :=
  forallb (fun item =>
             match Db.findOne (byIdOrVariant (cart_variant_id item)) ps with
             | Some p => prod_availableForSale p
             | None => false
             end) its.

(** The orders written, in the order of the writes. *)
Definition orderWrites (l : list Event) : list Order :=
  flat_map (fun e => match e with OrderWritten o => [o] | _ => [] end) l.

(** What a request may do to the ledger: nothing, or one update whose
    status, if any, is among [names]. *)
Definition touches (names : list Status) (w w' : World) : Prop :=
  orders w' = orders w \/
  exists j u w1,
    orders w1 = orders w /\
    orders w' = orders (snd (updateOrder j u w1)) /\
    match u_status u with Some s => In s names | None => True end.

(* ------------------------------------------------------------------ *)
(** ** More of the services and routes *)

(** services/shiprocketCheckout.ts, [verifyWebhookHMAC]. *)
Definition verifyWebhookHMAC (rt : Runtime) (payload signature secret : string) : bool :=
  let calculatedHMAC := hmac_sha256_hex rt secret payload in
  String.eqb calculatedHMAC signature.

(** The module variables [authToken] and [tokenExpiry] of
    services/shiprocket.ts (and of services/shiprocket-faster.ts, which
    has the same function). *)
Record TokenCache := {
  authToken : option string;
  tokenExpiry : N
}.

(** 9 * 24 * 60 * 60 * 1000 *)
Definition nineDays : N := 9 * 24 * 60 * 60 * 1000.

(** What a call of [getShiprocketToken] did. *)
Record TokenCall := {
  tc_result : Result (option string);
  tc_cache : TokenCache;
  tc_loggedIn : bool
}.

(** [getShiprocketToken].  [login] is the outcome of the POST to
    [/auth/login], with [response.data.token]; [now1] and [now2] are the
    readings of [Date.now()] in the test and in the assignment.  A thrown
    error is a [Failure] with its message. *)
Definition getShiprocketToken (login : Http (option string)) (now1 now2 : N)
           (c : TokenCache) : TokenCall :=
  if JS.truthy_ostr (authToken c) && (now1 <? tokenExpiry c)%N then
    {| tc_result := Success (authToken c); tc_cache := c; tc_loggedIn := false |}
  else
    match login with
    | HttpOk token =>
        {| tc_result := Success token;
           tc_cache := {| authToken := token; tokenExpiry := now2 + nineDays |};
           tc_loggedIn := true |}
    | HttpFail _ _ =>
        {| tc_result := Failure "Failed to authenticate with Shiprocket";
           tc_cache := c; tc_loggedIn := true |}
    end.

(** The body of [POST /] of routes/orders.ts, at the paths of
    [OrderSchema]; [currency] and [status] have schema defaults. *)
Record OrderData := {
  od_orderId : string;
  od_razorpayOrderId : string;
  od_razorpayPaymentId : option string;
  od_razorpaySignature : option string;
  od_amount : JS.number;
  od_currency : option string;
  od_status : option Status;
  od_customer : Customer;
  od_items : list OrderItem;
  od_shiprocketOrderId : option string;
  od_shiprocketShipmentId : option string;
  od_trackingUrl : option string
}.

(** [new Order(orderData)]. *)
Definition orderOfData (d : OrderData) : Order :=
  {| orderId := od_orderId d;
     razorpayOrderId := od_razorpayOrderId d;
     razorpayPaymentId := od_razorpayPaymentId d;
     razorpaySignature := od_razorpaySignature d;
     amount := od_amount d;
     currency := match od_currency d with Some c => c | None => "INR" end;
     status := match od_status d with Some s => s | None => created end;
     customer := od_customer d;
     items := od_items d;
     shiprocketOrderId := od_shiprocketOrderId d;
     shiprocketShipmentId := od_shiprocketShipmentId d;
     trackingUrl := od_trackingUrl d |}.

(** [POST /] of routes/orders.ts. *)
Definition postOrder (orderData : OrderData) (w : World) : Response * World :=
  let order := orderOfData orderData in
  match saveNew order w with
  | Some w' => ({| code := 201; body := BOrder order |}, w')
  | None => (error_json 500 "Failed to create order", w)
  end.

(** [GET /:orderId] of routes/orders.ts. *)
Definition getOrder (i : string) (w : World) : Response * World :=
  match Db.findOne (byOrderId i) (orders w) with
  | None => (error_json 404 "Order not found", w)
  | Some order => (json (BOrder order), w)
  end.

(** The five routes behind [authenticateAdmin] that write to orders. *)
Inductive AdminRequest :=
| AdminPatchStatus (i : string) (st : option Status)
| AdminPatchShipment (i : string) (b : ShipmentPatch)
| AdminFasterCancel (orderId : option string)
| AdminShipmentCreate (b : ShipmentCreateBody)
| AdminShipmentCancel (orderId : option string).

Definition asMutation (h : AdminHeaders) (r : AdminRequest) : Mutation :=
  match r with
  | AdminPatchStatus i st => PatchStatus h i st
  | AdminPatchShipment i b => PatchShipment h i b
  | AdminFasterCancel i => FasterCancel h i
  | AdminShipmentCreate b => ShipmentCreate h b
  | AdminShipmentCancel i => ShipmentCancel h i
  end.

(** A predicate holds of every character of a string. *)
Fixpoint all_chars (p : ascii -> bool) (s : string) : bool :=
  match s with
  | EmptyString => true
  | String c r => p c && all_chars p r
  end.

(** Neither white space nor an upper-case letter. *)
Definition slug_char (c : ascii) : bool :=
  negb (JS.is_space c) && negb (JS.is_upper c).

(** The answer of the session loops for a line item that cannot be sold:
    404 with the product id when the product is not stored, 400 with its
    name when it is not available for sale. *)
Definition itemRefusal (ps : list Product) (it : OrderItem) : Response :=
  match productOf ps it with
  | None => error_json 404 ("Product " ++ item_productId it ++ " not found")
  | Some p => error_json 400 ("Product " ++ prod_name p ++ " is not available")
  end.

(** The requests that write to the order collection. *)
Inductive OrderRequest :=
| Mutate (m : Mutation)
| CreateOrder (now : N) (b : CreateOrderBody)
| FasterCreate (now : N) (b : FasterCreateBody)
| PostOrder (d : OrderData).

Definition handle (rt : Runtime) (env : Env) (r : OrderRequest) (w : World)
  : Response * World :=
  match r with
  | Mutate m => perform rt env m w
  | CreateOrder now b => createOrder rt env now b w
  | FasterCreate now b => fasterCreate rt env now b w
  | PostOrder d => postOrder d w
  end.

Definition serve (rt : Runtime) (env : Env) (rs : list OrderRequest) (w : World) : World :=
  fold_left (fun w r => snd (handle rt env r w)) rs w.

Module SampleOrders.

(** An order as a client posts it to [/api/orders], already delivered. *)
Definition posted : OrderData :=
  {| od_orderId := "MANUAL_1"; od_razorpayOrderId := "none";
     od_razorpayPaymentId := None; od_razorpaySignature := None;
     od_amount := 1%float; od_currency := None; od_status := Some delivered;
     od_customer := Sample.buyer; od_items := Sample.cart;
     od_shiprocketOrderId := None; od_shiprocketShipmentId := None;
     od_trackingUrl := None |}.

End SampleOrders.

(* ================================================================== *)
(** * Properties *)

(** ** Strings and options *)

Lemma strict_eq_true (a b : option string) :
  JS.strict_eq a b = true <-> a = b.
Proof.
  destruct a as [x|], b as [y|]; simpl; split; intro H;
    try discriminate; try reflexivity.
  - apply String.eqb_eq in H. now subst.
  - injection H as ->. apply String.eqb_refl.
Qed.

(** ** Webhook authentication *)

Lemma verifyHMAC_reject_401 (rt : Runtime) (env : Env) (B : Type)
      (stringify : B -> string) (h : WebhookHeaders) (reqBody : B) (r : Response) :
  verifyHMAC rt env stringify h reqBody = Reject r ->
  exists msg, r = error_json 401 msg.
Proof.
  unfold verifyHMAC.
  destruct (negb (JS.truthy_ostr (X_Api_HMAC_SHA256 h))
            || negb (JS.truthy_ostr (X_Api_Key h))).
  { intro E. injection E as <-. eexists; reflexivity. }
  destruct (negb (JS.strict_eq (X_Api_Key h) (SHIPROCKET_API_KEY env))).
  { intro E. injection E as <-. eexists; reflexivity. }
  destruct (negb (JS.strict_eq _ (X_Api_HMAC_SHA256 h))).
  { intro E. injection E as <-. eexists; reflexivity. }
  discriminate.
Qed.

Lemma verifyHMAC_next (rt : Runtime) (env : Env) (B : Type)
      (stringify : B -> string) (h : WebhookHeaders) (reqBody : B) :
  verifyHMAC rt env stringify h reqBody = Next ->
  JS.truthy_ostr (X_Api_Key h) = true /\
  X_Api_Key h = SHIPROCKET_API_KEY env /\
  X_Api_HMAC_SHA256 h =
    Some (hmac_sha256_hex rt (JS.or_ostr (SHIPROCKET_API_SECRET env) "")
                          (stringify reqBody)).
Proof.
  unfold verifyHMAC.
  destruct (JS.truthy_ostr (X_Api_HMAC_SHA256 h)) eqn:Hs; cbn [negb orb];
    [|discriminate].
  destruct (JS.truthy_ostr (X_Api_Key h)) eqn:Hk; cbn [negb orb]; [|discriminate].
  destruct (JS.strict_eq (X_Api_Key h) (SHIPROCKET_API_KEY env)) eqn:Ek;
    cbn [negb]; [|discriminate].
  destruct (JS.strict_eq _ (X_Api_HMAC_SHA256 h)) eqn:Eh; cbn [negb];
    [|discriminate].
  intros _. apply strict_eq_true in Ek. apply strict_eq_true in Eh.
  auto.
Qed.

(** C3: a catalog webhook request that lacks the X-Api-Key or the
    X-Api-HMAC-SHA256 header, or whose key is not the server's, or whose
    signature is not the hex HMAC-SHA256 of the serialized body under the
    server's secret, is answered 401, and the world after it is the world
    before it: no product and no collection is created or modified. *)
Theorem catalogWebhook_unauthorized
        (rt : Runtime) (env : Env) (now : string) (h : WebhookHeaders)
        (req : CatalogRequest) (w : World) :
  unauthentic rt env h req ->
  exists msg, catalogWebhook rt env now h req w = (error_json 401 msg, w).
Proof.
  intro U.
  assert (G : exists msg,
             verifyHMAC rt env (fun _ : unit => serialized rt req) h tt
             = Reject (error_json 401 msg)).
  { destruct (verifyHMAC rt env (fun _ : unit => serialized rt req) h tt) eqn:E.
    - exfalso. apply verifyHMAC_next in E. destruct E as (Hk & Ek & Eh).
      destruct U as [U|[U|[U|U]]].
      + rewrite U in Hk. discriminate.
      + rewrite U in Eh. discriminate.
      + contradiction.
      + apply U. exact Eh.
    - destruct (verifyHMAC_reject_401 _ _ _ _ _ E) as [msg ->].
      exists msg. reflexivity. }
  destruct G as [msg G]. exists msg.
  destruct req as [d|d]; simpl in *.
  - unfold productWebhook.
    change (verifyHMAC rt env (stringify_product rt) h d)
      with (verifyHMAC rt env (fun _ : unit => stringify_product rt d) h tt).
    rewrite G. reflexivity.
  - unfold collectionWebhook.
    change (verifyHMAC rt env (stringify_collection rt) h d)
      with (verifyHMAC rt env (fun _ : unit => stringify_collection rt d) h tt).
    rewrite G. reflexivity.
Qed.

Lemma catalogWebhook_unauthorized_witness :
  exists msg,
    catalogWebhook Sample.rt Sample.env "2025-06-01T10:00:00.000Z"
      (Sample.signed (ProductHook (Sample.partnerGrape "Grape Brewy")))
      (ProductHook (Sample.partnerGrape "Free Brewy"))
      (Sample.shop [])
    = (error_json 401 msg, Sample.shop []).
Proof.
  apply (@catalogWebhook_unauthorized Sample.rt Sample.env
           "2025-06-01T10:00:00.000Z"
           (Sample.signed (ProductHook (Sample.partnerGrape "Grape Brewy")))
           (ProductHook (Sample.partnerGrape "Free Brewy"))
           (Sample.shop [])).
  right; right; right. vm_compute. discriminate.
Defined.

(** ** Payment confirmation *)

(** C4: the signature of a payment confirmation is valid exactly when it
    equals the hex HMAC-SHA256 of orderRef + "|" + paymentRef under the
    payment secret.  When the supplied signature differs, the request is
    answered 400 and the world is the one before the request, so the
    check comes before any write to an order; the answer is "Invalid
    payment signature" when the three references are present (an empty
    one is reported as missing instead). *)
Theorem verifyPayment_rejects_bad_signature
        (rt : Runtime) (env : Env) (b : VerifyPaymentBody) (w : World)
        (secret orderRef paymentRef signature : string) :
  RAZORPAY_KEY_SECRET env = Some secret ->
  vp_razorpayOrderId b = Some orderRef ->
  vp_razorpayPaymentId b = Some paymentRef ->
  vp_razorpaySignature b = Some signature ->
  let expected := hmac_sha256_hex rt secret (orderRef ++ "|" ++ paymentRef) in
  String.eqb expected signature = false ->
  (forall s, verifyRazorpayPayment rt env orderRef paymentRef s
             = String.eqb expected s) /\
  (exists msg, verifyPayment rt env b w = (error_json 400 msg, w)) /\
  (JS.truthy_str orderRef = true -> JS.truthy_str paymentRef = true ->
   JS.truthy_str signature = true ->
   verifyPayment rt env b w = (error_json 400 "Invalid payment signature", w)).
Proof.
  intros Hk Ho Hp Hs expected Bad.
  assert (V : forall s, verifyRazorpayPayment rt env orderRef paymentRef s
                        = String.eqb expected s).
  { intro s. unfold verifyRazorpayPayment. rewrite Hk. reflexivity. }
  split; [exact V|].
  unfold verifyPayment.
  rewrite Ho, Hp, Hs. cbn [JS.truthy_ostr JS.or_ostr].
  destruct (JS.truthy_str orderRef) eqn:To; cbn [negb orb].
  2:{ split; [eexists; reflexivity|]. discriminate. }
  destruct (JS.truthy_str paymentRef) eqn:Tp; cbn [negb orb].
  2:{ split; [eexists; reflexivity|]. discriminate. }
  destruct (JS.truthy_str signature) eqn:Ts; cbn [negb orb].
  2:{ split; [eexists; reflexivity|]. discriminate. }
  unfold JS.or_str. rewrite To, Tp, Ts. rewrite V, Bad. cbn [negb].
  split; [eexists; reflexivity|]. reflexivity.
Qed.

Lemma verifyPayment_rejects_bad_signature_witness :
  verifyPayment Sample.rt Sample.env Sample.forged
                (Sample.shop [Sample.order "BREWY_1" created []])
  = (error_json 400 "Invalid payment signature",
     Sample.shop [Sample.order "BREWY_1" created []]).
Proof.
  exact (proj2 (proj2 (@verifyPayment_rejects_bad_signature
                         Sample.rt Sample.env Sample.forged
                         (Sample.shop [Sample.order "BREWY_1" created []])
                         "rzp_secret" "order_rzp_1" "pay_1" "0000"
                         eq_refl eq_refl eq_refl eq_refl eq_refl))
               eq_refl eq_refl eq_refl).
Defined.

(** ** The order collection under updates *)

Lemma findOne_updateFirst (upd : Order -> Order) (i j : string) (l : list Order) :
  (forall o, orderId (upd o) = orderId o) ->
  Db.findOne (byOrderId i) (Db.updateFirst (byOrderId j) upd l)
  = if String.eqb i j then option_map upd (Db.findOne (byOrderId i) l)
    else Db.findOne (byOrderId i) l.
Proof.
  intro K. unfold Db.findOne.
  induction l as [|a l IH]; simpl.
  - destruct (i =? j); reflexivity.
  - destruct (byOrderId j a) eqn:Ej; simpl; unfold byOrderId in *.
    + rewrite K. apply String.eqb_eq in Ej. subst j.
      rewrite (String.eqb_sym i (orderId a)).
      destruct (orderId a =? i); reflexivity.
    + destruct (orderId a =? i) eqn:Ei.
      * apply String.eqb_eq in Ei. subst i. rewrite Ej. reflexivity.
      * exact IH.
Qed.

Lemma applyUpdate_orderId (u : OrderUpdate) (o : Order) :
  orderId (applyUpdate u o) = orderId o.
Proof. reflexivity. Qed.

Lemma updateOrder_orders (j : string) (u : OrderUpdate) (w : World) :
  orders (snd (updateOrder j u w))
  = Db.updateFirst (byOrderId j) (applyUpdate u) (orders w).
Proof.
  unfold updateOrder, Db.findOneAndUpdate, Db.findOne.
  destruct (find (byOrderId j) (orders w)) eqn:F; simpl; [reflexivity|].
  clear -F. induction (orders w) as [|a l IH]; simpl in *; [reflexivity|].
  destruct (byOrderId j a); [discriminate|]. f_equal. apply IH, F.
Qed.

(** An update keeps every order in the ledger, and gives the updated one
    the status of the update object, if it has one. *)
Lemma updateOrder_status (j : string) (u : OrderUpdate) (w : World)
      (i : string) (o : Order) :
  Db.findOne (byOrderId i) (orders w) = Some o ->
  exists o',
    Db.findOne (byOrderId i) (orders (snd (updateOrder j u w))) = Some o' /\
    (status o' = status o \/ u_status u = Some (status o')).
Proof.
  intro F. rewrite updateOrder_orders.
  rewrite (findOne_updateFirst _ i j (orders w) (applyUpdate_orderId u)).
  rewrite F. destruct (i =? j); simpl.
  - eexists; split; [reflexivity|]. simpl.
    destruct (u_status u); [right|left]; reflexivity.
  - eexists; split; [reflexivity|]. left; reflexivity.
Qed.

Lemma touches_status (names : list Status) (w w' : World) (i : string) (o : Order) :
  touches names w w' ->
  Db.findOne (byOrderId i) (orders w) = Some o ->
  exists o',
    Db.findOne (byOrderId i) (orders w') = Some o' /\
    (status o' = status o \/ In (status o') names).
Proof.
  intros [E|(j & u & w1 & E1 & E2 & Hn)] F.
  - rewrite E. exists o. auto.
  - rewrite <- E1 in F.
    destruct (updateOrder_status j u w1 i F) as (o' & F' & [S|S]).
    + exists o'. rewrite E2. auto.
    + exists o'. rewrite E2. split; [exact F'|]. right.
      rewrite S in Hn. exact Hn.
Qed.

Lemma touches_update (names : list Status) (j : string) (u : OrderUpdate)
      (w w1 : World) :
  orders w1 = orders w ->
  match u_status u with Some s => In s names | None => True end ->
  touches names w (snd (updateOrder j u w1)).
Proof. intros E H. right. exists j, u, w1. auto. Qed.

Lemma updateOrder_snd (j : string) (u : OrderUpdate) (w : World)
      (r : option Order) (w' : World) :
  updateOrder j u w = (r, w') -> w' = snd (updateOrder j u w).
Proof. intro E. rewrite E. reflexivity. Qed.

Lemma touches_refl (names : list Status) (w : World) : touches names w w.
Proof. left; reflexivity. Qed.

Lemma touches_emit (names : list Status) (e : Event) (w : World) :
  touches names w (emit e w).
Proof. left; reflexivity. Qed.

Create HintDb ledger.
#[local] Hint Resolve touches_refl touches_emit : ledger.

Ltac by_update E :=
  simpl; rewrite (updateOrder_snd _ _ _ E);
  apply touches_update; [reflexivity | simpl; auto].

Lemma verifyPayment_touches rt env b w :
  touches [paid] w (snd (verifyPayment rt env b w)).
Proof.
  unfold verifyPayment.
  destruct (_ || _); [auto with ledger|].
  destruct (negb _); [auto with ledger|].
  match goal with
  | |- context [updateOrder ?j ?u ?w] =>
      destruct (updateOrder j u w) as [[o|] w'] eqn:E
  end; by_update E.
Qed.

Lemma patchStatus_touches rt env h i st w :
  touches (named (PatchStatus h i st)) w (snd (patchStatus rt env h i st w)).
Proof.
  unfold patchStatus.
  destruct (authenticateAdmin rt env h); [|auto with ledger].
  destruct (updateOrder i (only_status st) w) as [[o|] w'] eqn:E;
    by_update E; destruct st; simpl; auto.
Qed.

Lemma patchPayment_touches i b w :
  touches (named (PatchPayment i b)) w (snd (patchPayment i b w)).
Proof.
  unfold patchPayment.
  match goal with
  | |- context [updateOrder ?j ?u ?w] =>
      destruct (updateOrder j u w) as [[o|] w'] eqn:E
  end; by_update E.
Qed.

Lemma patchShipment_touches rt env h i b w :
  touches [shipped] w (snd (patchShipment rt env h i b w)).
Proof.
  unfold patchShipment.
  destruct (authenticateAdmin rt env h); [|auto with ledger].
  match goal with
  | |- context [updateOrder ?j ?u ?w] =>
      destruct (updateOrder j u w) as [[o|] w'] eqn:E
  end; by_update E.
Qed.

Lemma fasterVerify_touches rt b w :
  touches [paid; created] w (snd (fasterVerify rt b w)).
Proof.
  unfold fasterVerify.
  destruct (fv_checkoutId b) as [c|]; [|auto with ledger].
  destruct (negb _); [auto with ledger|].
  destruct (verifyFasterCheckout rt c) as [result|e]; [|simpl; auto with ledger].
  unfold updateOrderBy.
  destruct (or_else (fv_orderId b) (fcv_order_id result)) as [k|];
    [|simpl; auto with ledger].
  match goal with
  | |- context [updateOrder ?j ?u ?w] =>
      destruct (updateOrder j u w) as [[o|] w'] eqn:E
  end; by_update E;
    destruct (JS.strict_eq _ _); simpl; auto.
Qed.

Lemma fasterCancel_touches rt env h i w :
  touches [failed] w (snd (fasterCancel rt env h i w)).
Proof.
  unfold fasterCancel.
  destruct (authenticateAdmin rt env h); [|auto with ledger].
  destruct i as [i|]; [|auto with ledger].
  destruct (negb _); [auto with ledger|].
  destruct (cancelFasterCheckout rt i); simpl; [|auto with ledger].
  apply touches_update; [reflexivity | simpl; auto].
Qed.

Lemma fasterWebhook_touches b w :
  touches (named (FasterWebhook b)) w (snd (fasterWebhook b w)).
Proof.
  unfold fasterWebhook, named. generalize (webhookUpdate b). intro u.
  destruct (wh_order_id b) as [i|]; [|auto with ledger].
  destruct (negb _); [auto with ledger|].
  destruct (updateOrder i u w) as [[o|] w'] eqn:E;
    simpl; rewrite (updateOrder_snd _ _ _ E);
    (apply touches_update; [reflexivity|]);
    destruct (u_status u); simpl; auto.
Qed.

Lemma shipmentCancel_touches rt env h i w :
  touches [failed] w (snd (shipmentCancel rt env h i w)).
Proof.
  unfold shipmentCancel.
  destruct (authenticateAdmin rt env h); [|auto with ledger].
  destruct i as [i|]; [|auto with ledger].
  destruct (negb _); [auto with ledger|].
  destruct (cancelShipment rt i); simpl; [|auto with ledger].
  apply touches_update; [reflexivity | simpl; auto].
Qed.

(** [order.save()] on the document [findOne] returned writes what an
    update of that document in place writes. *)
Lemma updateFirst_found {A} (f : A -> bool) (g : A -> A) (l : list A) (d : A) :
  Db.findOne f l = Some d ->
  Db.updateFirst f (fun _ => g d) l = Db.updateFirst f g l.
Proof.
  unfold Db.findOne. induction l as [|a l IH]; simpl; [reflexivity|].
  destruct (f a) eqn:E.
  - intro H. injection H as ->. reflexivity.
  - intro H. f_equal. apply IH, H.
Qed.

Lemma findOne_orderId (i : string) (l : list Order) (o : Order) :
  Db.findOne (byOrderId i) l = Some o -> orderId o = i.
Proof.
  intro F. apply find_some in F. destruct F as [_ F].
  apply String.eqb_eq. exact F.
Qed.

Lemma Status_eqb_eq (a b : Status) : Status_eqb a b = true <-> a = b.
Proof. destruct a, b; simpl; split; intro; try discriminate; reflexivity. Qed.

(** ** Shipment creation, case by case *)

Lemma shipmentCreate_unpaid rt env h b w i order :
  authenticateAdmin rt env h = Next ->
  sb_orderId b = Some i -> JS.truthy_str i = true ->
  Db.findOne (byOrderId i) (orders w) = Some order ->
  Status_eqb (status order) paid = false ->
  shipmentCreate rt env h b w
  = (error_json 400 "Order must be paid before creating shipment", w).
Proof.
  intros A Hi Ti F S. unfold shipmentCreate.
  rewrite A, Hi. cbn [JS.truthy_ostr JS.or_ostr]. unfold JS.or_str.
  rewrite Ti. cbn [negb]. rewrite F, S. reflexivity.
Qed.

Lemma shipmentCreate_paid rt env h b w i order :
  authenticateAdmin rt env h = Next ->
  sb_orderId b = Some i -> JS.truthy_str i = true ->
  Db.findOne (byOrderId i) (orders w) = Some order ->
  status order = paid ->
  shipmentCreate rt env h b w
  = let data := shiprocketData i (sb_pickupLocation b) order
                               (pack (products w) (items order)) in
    let w1 := emit (Outbound (CallShiprocketCreate data)) w in
    match createShiprocketOrder rt data with
    | Failure e => (error_json 500 e, w1)
    | Success result =>
        (json (BShipmentCreated (sc_order_id result) (sc_shipment_id result)
                                (markShipped result order)),
         saveFound (markShipped result order) w1)
    end.
Proof.
  intros A Hi Ti F S. unfold shipmentCreate.
  rewrite A, Hi. cbn [JS.truthy_ostr JS.or_ostr]. unfold JS.or_str.
  rewrite Ti. cbn [negb]. rewrite F, S. reflexivity.
Qed.

Lemma saveFound_lookup (r : ShiprocketCreated) (order : Order) (w : World)
      (j : string) (i : string) :
  Db.findOne (byOrderId j) (orders w) = Some order ->
  Db.findOne (byOrderId i) (orders (saveFound (markShipped r order) w))
  = if String.eqb i j then Some (markShipped r order)
    else Db.findOne (byOrderId i) (orders w).
Proof.
  intro F. unfold saveFound, put_orders. cbn [orders].
  change (orderId (markShipped r order)) with (orderId order).
  rewrite (findOne_orderId _ _ F).
  rewrite (updateFirst_found (byOrderId j) (markShipped r) (orders w) F).
  rewrite (findOne_updateFirst (markShipped r) i j (orders w));
    [|reflexivity].
  destruct (i =? j) eqn:E; [|reflexivity].
  apply String.eqb_eq in E. subst i. rewrite F. reflexivity.
Qed.

(** Shipment creation changes the status of an order only from paid, and
    only to shipped. *)
Lemma shipmentCreate_status rt env h b w i o :
  Db.findOne (byOrderId i) (orders w) = Some o ->
  exists o',
    Db.findOne (byOrderId i) (orders (snd (shipmentCreate rt env h b w))) = Some o' /\
    (status o' = status o \/ (status o = paid /\ status o' = shipped)).
Proof.
  intro F.
  assert (Same : forall r : Response, exists o',
             Db.findOne (byOrderId i) (orders (snd (r, w))) = Some o' /\
             (status o' = status o \/ (status o = paid /\ status o' = shipped))).
  { intro r. exists o. simpl. auto. }
  unfold shipmentCreate.
  destruct (authenticateAdmin rt env h); [|apply Same].
  destruct (negb _); [apply Same|].
  set (j := JS.or_ostr (sb_orderId b) "").
  destruct (Db.findOne (byOrderId j) (orders w)) as [order|] eqn:Fj; [|apply Same].
  destruct (Status_eqb (status order) paid) eqn:S; cbn [negb]; [|apply Same].
  apply Status_eqb_eq in S.
  match goal with
  | |- context [createShiprocketOrder rt ?d] =>
      destruct (createShiprocketOrder rt d) as [result|e]
  end.
  - cbn [snd].
    match goal with
    | |- context [saveFound _ ?w1] =>
        assert (Fj1 : Db.findOne (byOrderId j) (orders w1) = Some order)
          by exact Fj;
        rewrite (@saveFound_lookup result order w1 j i Fj1)
    end.
    destruct (i =? j) eqn:E.
    + apply String.eqb_eq in E. subst i.
      assert (o = order) by congruence. subst o.
      eexists; split; [reflexivity|]. right. split; [exact S|reflexivity].
    + exists o. split; [exact F|]. left; reflexivity.
  - exists o. cbn [snd]. split; [exact F|]. left; reflexivity.
Qed.

(** ** The status of an order along a sequence of requests *)

Lemma perform_status rt env m w i o :
  Db.findOne (byOrderId i) (orders w) = Some o ->
  exists o',
    Db.findOne (byOrderId i) (orders (snd (perform rt env m w))) = Some o' /\
    (status o' = status o \/ In (status o') (named m)).
Proof.
  intro F. destruct m; cbn [perform].
  - apply (@touches_status _ _ _ _ _ (verifyPayment_touches rt env b w) F).
  - apply (@touches_status _ _ _ _ _ (patchStatus_touches rt env h i0 st w) F).
  - apply (@touches_status _ _ _ _ _ (patchPayment_touches i0 b w) F).
  - apply (@touches_status _ _ _ _ _ (patchShipment_touches rt env h i0 b w) F).
  - apply (@touches_status _ _ _ _ _ (fasterVerify_touches rt b w) F).
  - apply (@touches_status _ _ _ _ _ (fasterCancel_touches rt env h orderId0 w) F).
  - apply (@touches_status _ _ _ _ _ (fasterWebhook_touches b w) F).
  - destruct (@shipmentCreate_status rt env h b w i o F) as (o' & F' & [S|[_ S]]).
    + exists o'. auto.
    + exists o'. split; [exact F'|]. right. rewrite S. simpl. auto.
  - apply (@touches_status _ _ _ _ _ (shipmentCancel_touches rt env h orderId0 w) F).
Qed.

Lemma run_status rt env ms : forall w i o,
  Db.findOne (byOrderId i) (orders w) = Some o ->
  exists o',
    Db.findOne (byOrderId i) (orders (run rt env ms w)) = Some o' /\
    (status o' = status o \/ In (status o') (flat_map named ms)).
Proof.
  induction ms as [|m ms IH]; intros w i o F.
  - exists o. simpl. auto.
  - destruct (@perform_status rt env m w i o F) as (o1 & F1 & S1).
    destruct (IH _ i o1 F1) as (o2 & F2 & S2).
    exists o2. split; [exact F2|].
    cbn [flat_map]. rewrite in_app_iff.
    destruct S2 as [S2|S2]; [|auto].
    rewrite S2. destruct S1 as [S1|S1]; auto.
Qed.

Lemma statusOf_Some (i : string) (w : World) (s : Status) :
  statusOf i w = Some s <->
  exists o, Db.findOne (byOrderId i) (orders w) = Some o /\ status o = s.
Proof.
  unfold statusOf. destruct (Db.findOne (byOrderId i) (orders w)) as [o|]; simpl.
  - split.
    + intro H. injection H as <-. exists o. auto.
    + intros (o' & H & <-). injection H as ->. reflexivity.
  - split; [discriminate|]. intros (o' & H & _). discriminate.
Qed.

(** *** The status a request writes *)

Lemma statusOf_updateOrder (j : string) (u : OrderUpdate) (w : World)
      (i : string) (s : Status) :
  statusOf i w = Some s ->
  statusOf i (snd (updateOrder j u w))
  = Some (if String.eqb i j
          then match u_status u with Some s' => s' | None => s end
          else s).
Proof.
  unfold statusOf. rewrite updateOrder_orders.
  rewrite (findOne_updateFirst _ i j (orders w) (applyUpdate_orderId u)).
  destruct (Db.findOne (byOrderId i) (orders w)) as [o|]; [|discriminate].
  cbn [option_map]. intro H. injection H as <-.
  destruct (i =? j); reflexivity.
Qed.

Lemma statusOf_emit (e : Event) (w : World) (i : string) :
  statusOf i (emit e w) = statusOf i w.
Proof. reflexivity. Qed.

Lemma statusAfter_update (j : string) (u : OrderUpdate) (w : World)
      (i : string) (s : Status) :
  statusOf i w = Some s ->
  statusOf i (snd (updateOrder j u w))
  = Some (statusAfter (option_map (pair j) (u_status u)) i s).
Proof.
  intro H. rewrite (statusOf_updateOrder j u w i H). unfold statusAfter.
  destruct (u_status u); cbn [option_map]; destruct (i =? j); reflexivity.
Qed.

Ltac status_by_update H :=
  match goal with
  | |- context [updateOrder ?j ?u ?w1] =>
      let L := fresh "L" in
      pose proof (@statusAfter_update j u w1 _ _ H) as L;
      destruct (updateOrder j u w1) as [[?|] ?]; exact L
  end.

Lemma perform_requested rt env m w i s :
  (forall h b, m <> ShipmentCreate h b) ->
  statusOf i w = Some s ->
  statusOf i (snd (perform rt env m w)) = Some (statusAfter (requested rt env m) i s).
Proof.
  intros N H. destruct m; cbn [perform requested].
  - unfold verifyPayment.
    destruct (vp_razorpayOrderId b) as [orderRef|],
             (vp_razorpayPaymentId b) as [paymentRef|],
             (vp_razorpaySignature b) as [signature|];
      cbn [JS.truthy_ostr negb orb andb]; try exact H;
      try (destruct (JS.truthy_str orderRef); exact H);
      try (destruct (JS.truthy_str orderRef), (JS.truthy_str paymentRef); exact H).
    destruct (JS.truthy_str orderRef) eqn:To, (JS.truthy_str paymentRef) eqn:Tp,
             (JS.truthy_str signature) eqn:Ts;
      cbn [negb orb andb]; try exact H.
    cbn [JS.or_ostr]. unfold JS.or_str at 1 2 3 4. rewrite To, Tp, Ts.
    destruct (verifyRazorpayPayment rt env orderRef paymentRef signature);
      cbn [negb]; [|exact H].
    status_by_update H.
  - unfold patchStatus.
    destruct (authenticateAdmin rt env h); [|exact H].
    status_by_update H.
  - unfold patchPayment. cbv zeta. status_by_update H.
  - unfold patchShipment.
    destruct (authenticateAdmin rt env h); [|exact H].
    cbv zeta. status_by_update H.
  - unfold fasterVerify.
    destruct (fv_checkoutId b) as [checkoutId|]; [|exact H].
    destruct (JS.truthy_str checkoutId); cbn [negb]; [|exact H].
    destruct (verifyFasterCheckout rt checkoutId) as [result|e]; [|exact H].
    cbv zeta.
    destruct (or_else (fv_orderId b) (fcv_order_id result)) as [k|];
      cbn [updateOrderBy]; [|exact H].
    status_by_update H.
  - unfold fasterCancel.
    destruct (authenticateAdmin rt env h); [|exact H].
    destruct orderId0 as [j|]; [|exact H].
    destruct (JS.truthy_str j); cbn [negb]; [|exact H].
    destruct (cancelFasterCheckout rt j) as [u|e]; [|exact H].
    cbn [snd].
    match goal with
    | |- context [updateOrder ?k ?v ?w1] => exact (@statusAfter_update k v w1 i s H)
    end.
  - unfold fasterWebhook.
    destruct (wh_order_id b) as [j|]; [|exact H].
    destruct (JS.truthy_str j); cbn [negb].
    + destruct (u_status (webhookUpdate b)) eqn:U.
      * match goal with
        | |- context [updateOrder ?j ?u ?w1] =>
            pose proof (@statusAfter_update j u w1 _ _ H) as L;
            rewrite U in L;
            destruct (updateOrder j u w1) as [[?|] ?]; exact L
        end.
      * match goal with
        | |- context [updateOrder ?j ?u ?w1] =>
            pose proof (@statusAfter_update j u w1 _ _ H) as L;
            rewrite U in L;
            destruct (updateOrder j u w1) as [[?|] ?]; exact L
        end.
    + destruct (u_status (webhookUpdate b)); exact H.
  - exfalso. exact (N h b eq_refl).
  - unfold shipmentCancel.
    destruct (authenticateAdmin rt env h); [|exact H].
    destruct orderId0 as [j|]; [|exact H].
    destruct (JS.truthy_str j); cbn [negb]; [|exact H].
    destruct (cancelShipment rt j) as [u|e]; [|exact H].
    cbn [snd].
    match goal with
    | |- context [updateOrder ?k ?v ?w1] => exact (@statusAfter_update k v w1 i s H)
    end.
Qed.

(** C1 (amended): an order stays in the ledger along every sequence of
    public mutations, and its status is then the one it had or one that a
    request of the sequence names.  Only shipment creation looks at the
    current status: it changes the status only from paid, and only to
    shipped.  Every other operation (verify-payment, the status, payment
    and shipment patches, the checkout verification, the webhook and the
    two cancellations) writes the status its request determines whatever
    the current status is: the status afterwards is the requested one if
    the request names this order and reaches the ledger with a status,
    and the old one otherwise. *)
Theorem status_follows_requests
        (rt : Runtime) (env : Env) (ms : list Mutation) (w : World)
        (i : string) (s : Status) :
  statusOf i w = Some s ->
  (exists s',
      statusOf i (run rt env ms w) = Some s' /\
      (s' = s \/ In s' (flat_map named ms))) /\
  (forall h b, exists s',
      statusOf i (snd (shipmentCreate rt env h b w)) = Some s' /\
      (s' = s \/ (s = paid /\ s' = shipped))) /\
  (forall m,
      (forall h b, m <> ShipmentCreate h b) ->
      statusOf i (snd (perform rt env m w))
      = Some (statusAfter (requested rt env m) i s)).
Proof.
  intro H. split; [|split].
  - apply statusOf_Some in H. destruct H as (o & F & <-).
    destruct (@run_status rt env ms w i o F) as (o' & F' & S).
    exists (status o'). split; [|exact S].
    apply statusOf_Some. exists o'. auto.
  - apply statusOf_Some in H. destruct H as (o & F & <-).
    intros h b.
    destruct (@shipmentCreate_status rt env h b w i o F) as (o' & F' & S).
    exists (status o'). split; [|exact S].
    apply statusOf_Some. exists o'. auto.
  - intros m N. apply perform_requested; assumption.
Qed.

Lemma status_follows_requests_witness :
  exists s',
    statusOf "BREWY_1"
      (run Sample.rt Sample.env
           [FasterWebhook (Sample.paidCallback "BREWY_1");
            ShipmentCreate Sample.admin (Sample.ship "BREWY_1")]
           (Sample.shop [Sample.order "BREWY_1" created []])) = Some s' /\
    (s' = created \/
     In s' (flat_map named
              [FasterWebhook (Sample.paidCallback "BREWY_1");
               ShipmentCreate Sample.admin (Sample.ship "BREWY_1")])).
Proof.
  exact (proj1 (@status_follows_requests Sample.rt Sample.env
                  [FasterWebhook (Sample.paidCallback "BREWY_1");
                   ShipmentCreate Sample.admin (Sample.ship "BREWY_1")]
                  (Sample.shop [Sample.order "BREWY_1" created []])
                  "BREWY_1" created eq_refl)).
Defined.

(** Counterexample to C1 as stated: a status patch moves a delivered order back to
    created, and the checkout webhook marks a failed order paid; neither
    is a transition of the table. *)
Lemma status_patch_reopens_delivered_order :
  statusOf "BREWY_1"
    (run Sample.rt Sample.env
         [PatchStatus Sample.admin "BREWY_1" (Some created)]
         (Sample.shop [Sample.order "BREWY_1" delivered []])) = Some created /\
  spec_transition delivered created = false /\
  statusOf "BREWY_2"
    (run Sample.rt Sample.env
         [FasterWebhook (Sample.paidCallback "BREWY_2")]
         (Sample.shop [Sample.order "BREWY_2" failed []])) = Some paid /\
  spec_transition failed paid = false.
Proof. vm_compute. repeat split. Qed.

(** ** The precondition of shipment creation *)

(** C2 (amended): shipment creation ([POST /shipment/create]) by an admin
    for a stored order answers 400 "Order must be paid before creating
    shipment" and leaves the world as it was when the order's status is
    not paid; when it is paid the request goes on to the collaborator, and
    the order is shipped once the collaborator accepts.  The admin patch
    of the shipment fields ([PATCH /orders/:orderId/shipment]) has no such
    precondition: it marks the order shipped whatever its status. *)
Theorem shipmentCreate_requires_paid
        (rt : Runtime) (env : Env) (h : AdminHeaders) (b : ShipmentCreateBody)
        (w : World) (i : string) (order : Order) :
  authenticateAdmin rt env h = Next ->
  sb_orderId b = Some i -> JS.truthy_str i = true ->
  Db.findOne (byOrderId i) (orders w) = Some order ->
  (status order <> paid ->
   shipmentCreate rt env h b w
   = (error_json 400 "Order must be paid before creating shipment", w)) /\
  (status order = paid ->
   exists data,
     In (Outbound (CallShiprocketCreate data))
        (log (snd (shipmentCreate rt env h b w))) /\
     (forall result,
         createShiprocketOrder rt data = Success result ->
         statusOf i (snd (shipmentCreate rt env h b w)) = Some shipped)) /\
  (forall p, statusOf i (snd (patchShipment rt env h i p w)) = Some shipped).
Proof.
  intros A Hi Ti F. split; [|split].
  - intro N. apply (shipmentCreate_unpaid rt env h b w A Hi Ti F).
    destruct (Status_eqb (status order) paid) eqn:E; [|reflexivity].
    apply Status_eqb_eq in E. contradiction.
  - intro S. rewrite (shipmentCreate_paid rt env h b w A Hi Ti F S).
    cbv zeta. eexists. split.
    + destruct (createShiprocketOrder rt _); cbn [snd];
        unfold saveFound, put_orders, emit; cbn [log];
        repeat rewrite in_app_iff; simpl; auto.
    + intros result R. rewrite R. cbn [snd].
      unfold statusOf.
      match goal with
      | |- context [saveFound _ ?w1] =>
          rewrite (@saveFound_lookup result order w1 i i F)
      end.
      rewrite String.eqb_refl. reflexivity.
  - intro p. unfold patchShipment. rewrite A.
    match goal with
    | |- context [updateOrder ?j ?u ?w] =>
        destruct (updateOrder j u w) as [[o|] w'] eqn:E;
        simpl; rewrite (updateOrder_snd _ _ _ E);
        unfold statusOf; rewrite updateOrder_orders;
        rewrite (findOne_updateFirst _ i i (orders w) (applyUpdate_orderId u));
        rewrite String.eqb_refl, F; reflexivity
    end.
Qed.

Lemma shipmentCreate_requires_paid_witness :
  shipmentCreate Sample.rt Sample.env Sample.admin (Sample.ship "BREWY_1")
                 (Sample.shop [Sample.order "BREWY_1" created []])
  = (error_json 400 "Order must be paid before creating shipment",
     Sample.shop [Sample.order "BREWY_1" created []]).
Proof.
  refine (proj1 (@shipmentCreate_requires_paid
                   Sample.rt Sample.env Sample.admin (Sample.ship "BREWY_1")
                   (Sample.shop [Sample.order "BREWY_1" created []])
                   "BREWY_1" (Sample.order "BREWY_1" created [])
                   eq_refl eq_refl eq_refl eq_refl) _).
  simpl. discriminate.
Defined.

(** Counterexample to C2 as stated, on the shipment patch: an order that is still
    created is marked shipped, with answer 200. *)
Lemma patchShipment_ships_unpaid_order :
  statusOf "BREWY_1" (Sample.shop [Sample.order "BREWY_1" created []]) = Some created /\
  code (fst (patchShipment Sample.rt Sample.env Sample.admin "BREWY_1"
                           Sample.shipmentInfo
                           (Sample.shop [Sample.order "BREWY_1" created []]))) = 200%N /\
  statusOf "BREWY_1"
    (snd (patchShipment Sample.rt Sample.env Sample.admin "BREWY_1"
                        Sample.shipmentInfo
                        (Sample.shop [Sample.order "BREWY_1" created []])))
  = Some shipped.
Proof. vm_compute. repeat split. Qed.

(** ** The package of a shipment *)

Lemma pack_items ps : forall its acc,
  orderItems (fold_left (packItem ps) its acc)
  = (orderItems acc ++ map shiprocketItem (filter (resolves ps) its))%list.
Proof.
  induction its as [|it its IH]; intro acc; simpl.
  - symmetry. apply app_nil_r.
  - rewrite IH. unfold packItem, resolves, productOf.
    destruct (Db.findOne (byProductId (item_productId it)) ps) as [p|].
    + destruct (prod_dimensions p); simpl; rewrite <- app_assoc; reflexivity.
    + reflexivity.
Qed.

Lemma pack_weight ps : forall its acc,
  totalWeight (fold_left (packItem ps) its acc)
  = fold_left PrimFloat.add (map (lineWeight ps) (filter (resolves ps) its))
              (totalWeight acc).
Proof.
  induction its as [|it its IH]; intro acc; simpl; [reflexivity|].
  rewrite IH. unfold packItem, resolves, lineWeight, productOf.
  destruct (Db.findOne (byProductId (item_productId it)) ps) as [p|] eqn:F.
  - simpl. unfold productOf. rewrite F.
    destruct (prod_dimensions p); reflexivity.
  - reflexivity.
Qed.

(** The three axes are computed the same way; [get] is the loop variable
    of the axis and [axis] the dimension it reads. *)
Lemma pack_axis ps (get : Package -> JS.number) (axis : Dimensions -> JS.number) :
  (forall acc it,
      get (packItem ps acc it)
      = fold_left JS.Math_max (lineAxis axis ps it) (get acc)) ->
  forall its acc,
    get (fold_left (packItem ps) its acc)
    = fold_left JS.Math_max (flat_map (lineAxis axis ps) its) (get acc).
Proof.
  intros Step its. induction its as [|it its IH]; intro acc; simpl; [reflexivity|].
  rewrite IH, Step, fold_left_app. reflexivity.
Qed.

Lemma packItem_axis ps (get : Package -> JS.number) (axis : Dimensions -> JS.number) :
  (forall its tw l b h d,
      get {| orderItems := its; totalWeight := tw;
             maxLength := JS.Math_max l (JS.or_num (dim_length d) 10%float);
             maxBreadth := JS.Math_max b (JS.or_num (dim_breadth d) 10%float);
             maxHeight := JS.Math_max h (JS.or_num (dim_height d) 10%float) |}
      = JS.Math_max
          (get {| orderItems := its; totalWeight := tw;
                  maxLength := l; maxBreadth := b; maxHeight := h |})
          (JS.or_num (axis d) 10%float)) ->
  (forall its its' tw tw' l b h,
      get {| orderItems := its; totalWeight := tw;
             maxLength := l; maxBreadth := b; maxHeight := h |}
      = get {| orderItems := its'; totalWeight := tw';
               maxLength := l; maxBreadth := b; maxHeight := h |}) ->
  forall acc it,
    get (packItem ps acc it)
    = fold_left JS.Math_max (lineAxis axis ps it) (get acc).
Proof.
  intros Hmax Hsame acc it. unfold packItem, lineAxis, productOf.
  destruct (Db.findOne (byProductId (item_productId it)) ps) as [p|];
    [|reflexivity].
  destruct acc as [its tw l b h].
  destruct (prod_dimensions p) as [d|]; cbn [fold_left
    orderItems totalWeight maxLength maxBreadth maxHeight].
  - rewrite Hmax. f_equal. apply Hsame.
  - apply Hsame.
Qed.

Lemma pack_length ps its :
  maxLength (pack ps its) = maxFrom 10%float (flat_map (lineAxis dim_length ps) its).
Proof.
  unfold pack, maxFrom.
  rewrite (pack_axis ps maxLength dim_length); [reflexivity|].
  apply packItem_axis; reflexivity.
Qed.

Lemma pack_breadth ps its :
  maxBreadth (pack ps its) = maxFrom 10%float (flat_map (lineAxis dim_breadth ps) its).
Proof.
  unfold pack, maxFrom.
  rewrite (pack_axis ps maxBreadth dim_breadth); [reflexivity|].
  apply packItem_axis; reflexivity.
Qed.

Lemma pack_height ps its :
  maxHeight (pack ps its) = maxFrom 10%float (flat_map (lineAxis dim_height ps) its).
Proof.
  unfold pack, maxFrom.
  rewrite (pack_axis ps maxHeight dim_height); [reflexivity|].
  apply packItem_axis; reflexivity.
Qed.

Lemma lineAxis_resolved axis ps its :
  flat_map (lineAxis axis ps) (filter (resolves ps) its)
  = flat_map (lineAxis axis ps) its.
Proof.
  induction its as [|it its IH]; simpl; [reflexivity|].
  destruct (resolves ps it) eqn:R; simpl.
  - rewrite IH. reflexivity.
  - rewrite IH. unfold resolves in R. unfold lineAxis at 2.
    destruct (productOf ps it); [discriminate|]. reflexivity.
Qed.

Lemma filter_none {A} (f : A -> bool) (l : list A) :
  forallb (fun x => negb (f x)) l = true -> filter f l = [].
Proof.
  induction l as [|a l IH]; simpl; [reflexivity|].
  destruct (f a); simpl; [discriminate|]. exact IH.
Qed.

Lemma shipmentCreate_sends rt env h b w i order :
  authenticateAdmin rt env h = Next ->
  sb_orderId b = Some i -> JS.truthy_str i = true ->
  Db.findOne (byOrderId i) (orders w) = Some order ->
  status order = paid ->
  let data := shiprocketData i (sb_pickupLocation b) order
                             (pack (products w) (items order)) in
  (exists rest,
      log (snd (shipmentCreate rt env h b w))
      = (log w ++ Outbound (CallShiprocketCreate data) :: rest)%list) /\
  (forall result,
      createShiprocketOrder rt data = Success result ->
      code (fst (shipmentCreate rt env h b w)) = 200%N /\
      statusOf i (snd (shipmentCreate rt env h b w)) = Some shipped).
Proof.
  intros A Hi Ti F S data.
  rewrite (shipmentCreate_paid rt env h b w A Hi Ti F S). cbv zeta.
  fold data. split.
  - destruct (createShiprocketOrder rt data) as [result|e]; cbn [snd].
    + exists [OrderWritten (markShipped result order)].
      unfold saveFound, put_orders, emit. cbn [log].
      rewrite <- app_assoc. reflexivity.
    + exists []. reflexivity.
  - intros result R. rewrite R. cbn [fst snd]. split; [reflexivity|].
    unfold statusOf.
    match goal with
    | |- context [saveFound _ ?w1] =>
        rewrite (@saveFound_lookup result order w1 i i F)
    end.
    rewrite String.eqb_refl. reflexivity.
Qed.

(** C9 (amended): for a paid order, the package sent to the collaborator
    has, on each axis, the maximum of 10 and the stored length, breadth or
    height of the ordered products (a stored zero counting as 10), not
    their sum and never less than 10; its weight is the sum over the
    items of the product's weight times the quantity, with 0.5 for a
    product without stored dimensions (or with a weight of zero).  Two
    cans of (6,6,12,0.35) and one of (10,10,10,0.5) give the package
    (10,10,12) and the weight 1.2. *)
Theorem shipment_package
        (rt : Runtime) (env : Env) (h : AdminHeaders) (b : ShipmentCreateBody)
        (w : World) (i : string) (order : Order) :
  authenticateAdmin rt env h = Next ->
  sb_orderId b = Some i -> JS.truthy_str i = true ->
  Db.findOne (byOrderId i) (orders w) = Some order ->
  status order = paid ->
  (exists data rest,
      log (snd (shipmentCreate rt env h b w))
      = (log w ++ Outbound (CallShiprocketCreate data) :: rest)%list /\
      sop_length data
      = maxFrom 10%float (flat_map (lineAxis dim_length (products w)) (items order)) /\
      sop_breadth data
      = maxFrom 10%float (flat_map (lineAxis dim_breadth (products w)) (items order)) /\
      sop_height data
      = maxFrom 10%float (flat_map (lineAxis dim_height (products w)) (items order)) /\
      sop_weight data
      = sum (map (lineWeight (products w))
                 (filter (resolves (products w)) (items order)))) /\
  (exists data rest,
      log (snd (shipmentCreate Sample.rt Sample.env Sample.admin
                 (Sample.ship "BREWY_1")
                 (Sample.shop
                    [Sample.order "BREWY_1" paid
                       [Sample.line "prod_grape" 2%float;
                        Sample.line "prod_lemon_lime" 1%float]])))
      = Outbound (CallShiprocketCreate data) :: rest /\
      (sop_length data, sop_breadth data, sop_height data)
      = (10%float, 10%float, 12%float) /\
      sop_weight data = 1.2%float).
Proof.
  intros A Hi Ti F S. split.
  - destruct (shipmentCreate_sends rt env h b w A Hi Ti F S) as [[rest L] _].
    eexists. exists rest. split; [exact L|].
    unfold shiprocketData.
    cbn [sop_length sop_breadth sop_height sop_weight].
    rewrite pack_length, pack_breadth, pack_height.
    repeat split. unfold pack. rewrite pack_weight. reflexivity.
  - eexists. eexists. split; [vm_compute; reflexivity|].
    vm_compute. split; reflexivity.
Qed.

Lemma shipment_package_witness :
  exists data rest,
    log (snd (shipmentCreate Sample.rt Sample.env Sample.admin
               (Sample.ship "BREWY_7")
               (Sample.shop
                  [Sample.order "BREWY_7" paid [Sample.line "prod_grape" 3%float]])))
    = Outbound (CallShiprocketCreate data) :: rest /\
    (sop_length data, sop_breadth data, sop_height data, sop_weight data)
    = (10%float, 10%float, 12%float, (0 + 0.35 * 3)%float).
Proof.
  destruct (@shipment_package Sample.rt Sample.env Sample.admin
              (Sample.ship "BREWY_7")
              (Sample.shop
                 [Sample.order "BREWY_7" paid [Sample.line "prod_grape" 3%float]])
              "BREWY_7"
              (Sample.order "BREWY_7" paid [Sample.line "prod_grape" 3%float])
              eq_refl eq_refl eq_refl eq_refl eq_refl)
    as [(data & rest & L & El & Eb & Eh & Ew) _].
  exists data, rest. split; [exact L|].
  rewrite El, Eb, Eh, Ew. vm_compute. reflexivity.
Defined.

(** Counterexample to C9 as stated: for an order of one can of (6,6,12), the
    per-axis maximum of the stored dimensions is (6,6,12), and the package
    sent is (10,10,12). *)
Lemma shipment_package_not_below_ten :
  (axisMax (flat_map (storedAxis dim_length [Sample.grape; Sample.lemon])
                     [Sample.line "prod_grape" 1%float]),
   axisMax (flat_map (storedAxis dim_breadth [Sample.grape; Sample.lemon])
                     [Sample.line "prod_grape" 1%float]),
   axisMax (flat_map (storedAxis dim_height [Sample.grape; Sample.lemon])
                     [Sample.line "prod_grape" 1%float]))
  = (Some 6%float, Some 6%float, Some 12%float) /\
  exists data rest,
    log (snd (shipmentCreate Sample.rt Sample.env Sample.admin
               (Sample.ship "BREWY_1")
               (Sample.shop
                  [Sample.order "BREWY_1" paid [Sample.line "prod_grape" 1%float]])))
    = Outbound (CallShiprocketCreate data) :: rest /\
    (sop_length data, sop_breadth data, sop_height data)
    = (10%float, 10%float, 12%float).
Proof.
  split; [vm_compute; reflexivity|].
  eexists. eexists. split; [vm_compute; reflexivity|].
  vm_compute. reflexivity.
Qed.

(** C10: in the shipment creation of a paid order, a line item whose
    product is no longer stored is skipped: the collaborator's
    [order_items] are the lines of the items that resolve, and only those
    items count in the weight and the dimensions; the request is sent all
    the same, and the order is marked shipped when the collaborator
    accepts.  When no item resolves, the item list is empty, the weight
    is 0 and the package is the default 10 x 10 x 10. *)
Theorem shipment_skips_missing_products
        (rt : Runtime) (env : Env) (h : AdminHeaders) (b : ShipmentCreateBody)
        (w : World) (i : string) (order : Order) :
  authenticateAdmin rt env h = Next ->
  sb_orderId b = Some i -> JS.truthy_str i = true ->
  Db.findOne (byOrderId i) (orders w) = Some order ->
  status order = paid ->
  let ps := products w in
  let kept := filter (resolves ps) (items order) in
  exists data rest,
    log (snd (shipmentCreate rt env h b w))
    = (log w ++ Outbound (CallShiprocketCreate data) :: rest)%list /\
    sop_order_items data = map shiprocketItem kept /\
    sop_weight data = sum (map (lineWeight ps) kept) /\
    sop_length data = maxFrom 10%float (flat_map (lineAxis dim_length ps) kept) /\
    sop_breadth data = maxFrom 10%float (flat_map (lineAxis dim_breadth ps) kept) /\
    sop_height data = maxFrom 10%float (flat_map (lineAxis dim_height ps) kept) /\
    (forall result,
        createShiprocketOrder rt data = Success result ->
        code (fst (shipmentCreate rt env h b w)) = 200%N /\
        statusOf i (snd (shipmentCreate rt env h b w)) = Some shipped) /\
    (forallb (fun it => negb (resolves ps it)) (items order) = true ->
     sop_order_items data = [] /\
     sop_weight data = 0%float /\
     (sop_length data, sop_breadth data, sop_height data)
     = (10%float, 10%float, 10%float)).
Proof.
  intros A Hi Ti F S ps kept.
  destruct (shipmentCreate_sends rt env h b w A Hi Ti F S) as [[rest L] Acc].
  eexists. exists rest. split; [exact L|].
  assert (Ei : orderItems (pack ps (items order)) = map shiprocketItem kept).
  { unfold pack. rewrite pack_items. reflexivity. }
  assert (Ew : totalWeight (pack ps (items order)) = sum (map (lineWeight ps) kept)).
  { unfold pack. rewrite pack_weight. reflexivity. }
  assert (El : maxLength (pack ps (items order))
               = maxFrom 10%float (flat_map (lineAxis dim_length ps) kept)).
  { unfold kept. rewrite lineAxis_resolved. apply pack_length. }
  assert (Eb : maxBreadth (pack ps (items order))
               = maxFrom 10%float (flat_map (lineAxis dim_breadth ps) kept)).
  { unfold kept. rewrite lineAxis_resolved. apply pack_breadth. }
  assert (Eh : maxHeight (pack ps (items order))
               = maxFrom 10%float (flat_map (lineAxis dim_height ps) kept)).
  { unfold kept. rewrite lineAxis_resolved. apply pack_height. }
  split; [exact Ei|]. split; [exact Ew|]. split; [exact El|].
  split; [exact Eb|]. split; [exact Eh|]. split; [exact Acc|].
  intro Gone.
  assert (K : kept = []) by (unfold kept; apply (@filter_none _ _ _ Gone)).
  rewrite K in Ei, Ew, El, Eb, Eh.
  split; [exact Ei|]. split; [exact Ew|].
  unfold shiprocketData. cbn [sop_length sop_breadth sop_height].
  fold ps. rewrite El, Eb, Eh. reflexivity.
Qed.

Lemma shipment_skips_missing_products_witness :
  exists data rest,
    log (snd (shipmentCreate Sample.rt Sample.env Sample.admin
               (Sample.ship "BREWY_9")
               (Sample.shop
                  [Sample.order "BREWY_9" paid [Sample.line "prod_gone" 4%float]])))
    = Outbound (CallShiprocketCreate data) :: rest /\
    sop_order_items data = [] /\
    sop_weight data = 0%float /\
    statusOf "BREWY_9"
      (snd (shipmentCreate Sample.rt Sample.env Sample.admin
              (Sample.ship "BREWY_9")
              (Sample.shop
                 [Sample.order "BREWY_9" paid [Sample.line "prod_gone" 4%float]])))
    = Some shipped.
Proof.
  destruct (@shipment_skips_missing_products Sample.rt Sample.env Sample.admin
              (Sample.ship "BREWY_9")
              (Sample.shop
                 [Sample.order "BREWY_9" paid [Sample.line "prod_gone" 4%float]])
              "BREWY_9"
              (Sample.order "BREWY_9" paid [Sample.line "prod_gone" 4%float])
              eq_refl eq_refl eq_refl eq_refl eq_refl)
    as (data & rest & L & _ & _ & _ & _ & _ & Acc & Empty).
  exists data, rest. split; [exact L|].
  destruct (Empty eq_refl) as (Ei & Ew & _).
  split; [exact Ei|]. split; [exact Ew|].
  exact (proj2 (Acc {| sc_order_id := Some 501%N; sc_shipment_id := Some 902%N |}
                    eq_refl)).
Defined.

(** ** The amount of a checkout session *)

Lemma calculateTotal_available ps : forall its acc,
  forallb (available ps) its = true ->
  calculateTotal ps its acc
  = Ok (fold_left PrimFloat.add (map (lineTotal ps) its) acc).
Proof.
  induction its as [|it its IH]; intros acc H; simpl in *; [reflexivity|].
  apply andb_prop in H. destruct H as [Ha H].
  unfold available, lineTotal, productOf in *.
  destruct (Db.findOne (byProductId (item_productId it)) ps) as [p|];
    [|discriminate].
  rewrite Ha. cbn [negb]. apply IH, H.
Qed.

Lemma priceItems_available ps : forall its acc lines,
  forallb (available ps) its = true ->
  exists lines',
    priceItems ps its acc lines
    = Ok (fold_left PrimFloat.add (map (lineTotal ps) its) acc, lines').
Proof.
  induction its as [|it its IH]; intros acc lines H; simpl in *.
  - exists lines. reflexivity.
  - apply andb_prop in H. destruct H as [Ha H].
    unfold available, lineTotal, productOf in *.
    destruct (Db.findOne (byProductId (item_productId it)) ps) as [p|];
      [|discriminate].
    rewrite Ha. cbn [negb]. apply IH, H.
Qed.

Lemma saveNew_fresh (o : Order) (w : World) :
  validate o = true ->
  existsb (byOrderId (orderId o)) (orders w) = false ->
  saveNew o w = Some (put_orders (orders w ++ [o]) o w).
Proof. intros V N. unfold saveNew. rewrite V, N. reflexivity. Qed.

Lemma findOne_app_fresh (i : string) (l : list Order) (o : Order) :
  existsb (byOrderId i) l = false ->
  orderId o = i ->
  Db.findOne (byOrderId i) (l ++ [o]) = Some o.
Proof.
  intros N E. unfold Db.findOne.
  induction l as [|a l IH]; simpl in *.
  - unfold byOrderId. rewrite E, String.eqb_refl. reflexivity.
  - apply orb_false_elim in N. destruct N as [Na N].
    rewrite Na. apply IH, N.
Qed.

Lemma set_razorpayOrderId_lookup (r : string) (order : Order) (w : World) :
  Db.findOne (byOrderId (orderId order)) (orders w) = Some order ->
  Db.findOne (byOrderId (orderId order))
             (orders (saveFound (set_razorpayOrderId r order) w))
  = Some (set_razorpayOrderId r order).
Proof.
  intro F. unfold saveFound, put_orders. cbn [orders].
  change (orderId (set_razorpayOrderId r order)) with (orderId order).
  rewrite (@updateFirst_found _ (byOrderId (orderId order))
             (set_razorpayOrderId r) (orders w) order F).
  rewrite (@findOne_updateFirst (set_razorpayOrderId r) (orderId order)
             (orderId order) (orders w)); [|reflexivity].
  rewrite String.eqb_refl, F. reflexivity.
Qed.

(** C5: when every line item names a stored product that is available,
    both session creations compute the amount as the sum over the items
    of the stored price times the quantity, and the order they persist
    has that amount: the amount the client submits to [/create-order] is
    only required to be there, and the faster checkout reads none. *)
Theorem session_amount_is_server_total
        (rt : Runtime) (env : Env) (now : N) (w : World)
        (its : list OrderItem) (cust : Customer) :
  forallb (available (products w)) its = true ->
  let total := itemsTotal (products w) its in
  (forall amt cur rzp,
      JS.truthy_num amt = true ->
      let i := "ORD_" ++ JS.toString now in
      let cur' := JS.or_ostr cur "INR" in
      createRazorpayOrder rt
        {| cop_amount := total; cop_currency := cur'; cop_receipt := i;
           cop_notes := (i, cust_email cust) |} = Success rzp ->
      validate (newOrder i (rzp_id rzp) total cur' cust its) = true ->
      existsb (byOrderId i) (orders w) = false ->
      let out :=
        createOrder rt env now
          {| co_amount := Some amt; co_currency := cur;
             co_items := Some its; co_customer := Some cust |} w in
      fst out = json (BOrderCreated i (rzp_id rzp) total (rzp_currency rzp)
                                    (RAZORPAY_KEY_ID env)) /\
      Db.findOne (byOrderId i) (orders (snd out))
      = Some (newOrder i (rzp_id rzp) total cur' cust its)) /\
  (forall pin,
      JS.truthy_str pin = true ->
      let i := "BREWY_" ++ JS.toString now in
      validate (newOrder i i total "INR" cust its) = true ->
      existsb (byOrderId i) (orders w) = false ->
      let out :=
        fasterCreate rt env now
          {| fb_items := Some its; fb_customer := Some cust;
             fb_pickupPincode := Some pin |} w in
      (exists o,
          Db.findOne (byOrderId i) (orders (snd out)) = Some o /\
          amount o = total /\ status o = created) /\
      (code (fst out) = 200%N ->
       exists cid curl, fst out = json (BCheckoutCreated i cid curl total))).
Proof.
  intros Av total. split.
  - intros amt cur rzp Ta i cur' R V N out.
    unfold out, createOrder. cbn [co_amount co_items co_customer co_currency].
    rewrite Ta. cbn [negb].
    rewrite (calculateTotal_available _ _ _ Av).
    fold (sum (map (lineTotal (products w)) its)).
    fold (itemsTotal (products w) its). fold total. fold i. fold cur'.
    rewrite R.
    rewrite saveNew_fresh; [|exact V|exact N].
    cbn [fst snd]. split; [reflexivity|].
    unfold put_orders, emit. cbn [orders].
    apply findOne_app_fresh; [exact N|reflexivity].
  - intros pin Tp i V N out.
    unfold out, fasterCreate. cbn [fb_items fb_customer fb_pickupPincode].
    rewrite Tp. cbn [negb].
    destruct (priceItems_available (products w) its 0%float [] Av) as [lines P].
    rewrite P.
    fold (sum (map (lineTotal (products w)) its)).
    fold (itemsTotal (products w) its). fold total. fold i.
    rewrite saveNew_fresh; [|exact V|exact N].
    set (order := newOrder i i total "INR" cust its).
    set (w1 := put_orders (orders w ++ [order]) order w).
    assert (F1 : Db.findOne (byOrderId i) (orders w1) = Some order).
    { unfold w1, put_orders. cbn [orders].
      apply findOne_app_fresh; [exact N|reflexivity]. }
    match goal with
    | |- context [createFasterCheckout rt ?p] =>
        destruct (createFasterCheckout rt p) as [res|e]
    end; cbn [fst snd].
    + split.
      * eexists. split; [|split].
        -- match goal with
           | |- context [saveFound (set_razorpayOrderId ?r order) ?w2] =>
               apply (@set_razorpayOrderId_lookup r order w2 F1)
           end.
        -- reflexivity.
        -- reflexivity.
      * intros _. eexists. eexists. reflexivity.
    + split.
      * exists order. split; [exact F1|]. split; reflexivity.
      * simpl. discriminate.
Qed.

Lemma session_amount_is_server_total_witness :
  fst (createOrder Sample.rt Sample.env 1764523990679%N
         {| co_amount := Some 5%float; co_currency := None;
            co_items := Some Sample.cart; co_customer := Some Sample.buyer |}
         (Sample.shop []))
  = json (BOrderCreated "ORD_1764523990679" "order_rzp_1" 98%float "INR"
                        (Some "rzp_key")) /\
  Db.findOne (byOrderId "ORD_1764523990679")
    (orders (snd (createOrder Sample.rt Sample.env 1764523990679%N
                    {| co_amount := Some 5%float; co_currency := None;
                       co_items := Some Sample.cart;
                       co_customer := Some Sample.buyer |}
                    (Sample.shop []))))
  = Some (newOrder "ORD_1764523990679" "order_rzp_1" 98%float "INR"
                   Sample.buyer Sample.cart).
Proof.
  exact (proj1 (@session_amount_is_server_total
                  Sample.rt Sample.env 1764523990679%N (Sample.shop [])
                  Sample.cart Sample.buyer eq_refl)
               5%float None
               {| rzp_id := "order_rzp_1"; rzp_currency := "INR" |}
               eq_refl eq_refl eq_refl eq_refl).
Defined.

(** ** Persisting the order and calling the collaborator *)

Lemma saveNew_Some (o : Order) (w w1 : World) :
  saveNew o w = Some w1 ->
  w1 = put_orders (orders w ++ [o]) o w /\
  existsb (byOrderId (orderId o)) (orders w) = false.
Proof.
  unfold saveNew.
  destruct (validate o); cbn [andb]; [|discriminate].
  destruct (existsb (byOrderId (orderId o)) (orders w)); cbn [negb];
    [discriminate|].
  intro H. injection H as <-. auto.
Qed.

Example fasterCreate_keeps_order_when_call_fails :
  fst (fasterCreate Sample.offline Sample.env 1764523990679%N
         {| fb_items := Some Sample.cart; fb_customer := Some Sample.buyer;
            fb_pickupPincode := Some "411001" |}
         (Sample.shop []))
  = error_json 500 "Failed to create Faster Checkout session" /\
  statusOf "BREWY_1764523990679"
    (snd (fasterCreate Sample.offline Sample.env 1764523990679%N
            {| fb_items := Some Sample.cart; fb_customer := Some Sample.buyer;
               fb_pickupPincode := Some "411001" |}
            (Sample.shop [])))
  = Some created.
Proof. vm_compute. split; reflexivity. Qed.

(** C6 (amended): the faster-checkout session creation persists the order,
    with status created, before it calls the collaborator, and when the
    call fails the answer is the collaborator's error and the created
    order is still stored.  The Razorpay session creation calls the
    collaborator first and persists the order, with status created, only
    after the call has succeeded: when the call fails nothing is stored. *)
Theorem session_persistence_order (rt : Runtime) (env : Env) (now : N) :
  (forall b w,
      let out := fasterCreate rt env now b w in
      snd out = w \/
      exists order params rest,
        status order = created /\
        log (snd out)
        = (log w ++ OrderWritten order :: Outbound (CallFasterCreate params) :: rest)%list /\
        (forall e,
            createFasterCheckout rt params = Failure e ->
            fst out = error_json 500 e /\ rest = [] /\
            Db.findOne (byOrderId (orderId order)) (orders (snd out)) = Some order)) /\
  (forall b w,
      let out := createOrder rt env now b w in
      snd out = w \/
      exists params,
        (code (fst out) = 500%N /\
         log (snd out) = (log w ++ [Outbound (CallRazorpayCreate params)])%list /\
         orders (snd out) = orders w) \/
        (exists order,
            status order = created /\
            createRazorpayOrder rt params <> Failure "Failed to create Razorpay order" /\
            log (snd out)
            = (log w ++ [Outbound (CallRazorpayCreate params); OrderWritten order])%list /\
            orders (snd out) = (orders w ++ [order])%list)).
Proof.
  split; intros b w out; unfold out; clear out.
  - unfold fasterCreate.
    destruct (fb_items b) as [its|]; [|left; reflexivity].
    destruct (fb_customer b) as [cust|]; [|left; reflexivity].
    destruct (fb_pickupPincode b) as [pin|]; [|left; reflexivity].
    destruct (negb (JS.truthy_str pin)); [left; reflexivity|].
    destruct (priceItems (products w) its 0%float []) as [[total lines]|r];
      [|left; reflexivity].
    set (i := "BREWY_" ++ JS.toString now).
    set (order := newOrder i i total "INR" cust its).
    destruct (saveNew order w) as [w1|] eqn:Sv; [|left; reflexivity].
    apply saveNew_Some in Sv. destruct Sv as [-> Fresh].
    right. exists order.
    match goal with
    | |- context [createFasterCheckout rt ?p] => exists p;
        destruct (createFasterCheckout rt p) as [res|e] eqn:R
    end.
    + eexists. split; [reflexivity|]. cbn [fst snd]. split.
      * unfold saveFound, put_orders, emit. cbn [log].
        repeat rewrite <- app_assoc. reflexivity.
      * intros e H. discriminate.
    + exists []. split; [reflexivity|]. cbn [fst snd]. split.
      * unfold put_orders, emit. cbn [log].
        rewrite <- app_assoc. reflexivity.
      * intros e' H. injection H as <-.
        split; [reflexivity|]. split; [reflexivity|].
        unfold put_orders, emit. cbn [orders].
        apply findOne_app_fresh; [exact Fresh|reflexivity].
  - unfold createOrder.
    destruct (co_amount b) as [amt|]; [|left; reflexivity].
    destruct (co_items b) as [its|]; [|left; reflexivity].
    destruct (co_customer b) as [cust|]; [|left; reflexivity].
    destruct (negb (JS.truthy_num amt)); [left; reflexivity|].
    destruct (calculateTotal (products w) its 0%float) as [total|r];
      [|left; reflexivity].
    right.
    match goal with
    | |- context [createRazorpayOrder rt ?p] => exists p;
        destruct (createRazorpayOrder rt p) as [rzp|e] eqn:R
    end.
    + match goal with
      | |- context [saveNew ?o ?w1] =>
          destruct (saveNew o w1) as [w2|] eqn:Sv;
          [ apply saveNew_Some in Sv; destruct Sv as [-> _];
            right; exists o
          | left; cbn [fst snd]; repeat split ]
      end.
      split; [reflexivity|]. split; [discriminate|].
      cbn [fst snd]. unfold put_orders, emit. cbn [log orders].
      rewrite <- app_assoc. split; reflexivity.
    + left. cbn [fst snd]. repeat split.
Qed.

(** Counterexample to C6 as stated, on the Razorpay session creation: with the
    collaborator unreachable the call is made and no order is stored,
    before or after it; with the collaborator reachable the call comes
    first in the log and the write of the order second. *)
Lemma createOrder_calls_before_saving :
  (exists params,
      createOrder Sample.offline Sample.env 1764523990679%N
        {| co_amount := Some 98%float; co_currency := None;
           co_items := Some Sample.cart; co_customer := Some Sample.buyer |}
        (Sample.shop [])
      = (error_json 500 "Failed to create Razorpay order",
         {| orders := []; products := [Sample.grape; Sample.lemon];
            collections := [];
            log := [Outbound (CallRazorpayCreate params)] |})) /\
  (exists params order,
      log (snd (createOrder Sample.rt Sample.env 1764523990679%N
                  {| co_amount := Some 98%float; co_currency := None;
                     co_items := Some Sample.cart;
                     co_customer := Some Sample.buyer |}
                  (Sample.shop [])))
      = [Outbound (CallRazorpayCreate params); OrderWritten order]).
Proof.
  split.
  - eexists. vm_compute. reflexivity.
  - eexists. eexists. vm_compute. reflexivity.
Qed.

(** ** The checkout token *)

Lemma validateCart_spec ps its :
  match validateCart ps its with
  | None => cartAvailable ps its = true
  | Some r => cartAvailable ps its = false /\ (code r = 404%N \/ code r = 400%N)
  end.
Proof.
  induction its as [|item its IH]; simpl; [reflexivity|].
  destruct (Db.findOne (byIdOrVariant (cart_variant_id item)) ps) as [p|].
  - destruct (prod_availableForSale p); simpl.
    + exact IH.
    + split; [reflexivity|]. right; reflexivity.
  - simpl. split; [reflexivity|]. left; reflexivity.
Qed.

(** C7: for a token request with a cart and a redirect URL, the token is
    requested from the collaborator only when every variant of the cart
    resolves to a stored product that is available for sale: otherwise
    the answer is 404 or 400 and nothing is sent.  An answer of 200 is
    [{success: true, token, message}] with the collaborator's token, and
    it is the answer whenever the cart passes, the credentials are
    configured and the collaborator returns a token. *)
Theorem generateToken_validates_cart
        (rt : Runtime) (env : Env) (clock1 clock2 : string)
        (b : GenerateTokenBody) (w : World)
        (its : list CheckoutCartItem) (url : string) :
  gt_cart_data b = Some {| cd_items := Some its |} ->
  gt_redirect_url b = Some url -> JS.truthy_str url = true ->
  let out := generateToken rt env clock1 clock2 b w in
  let payload :=
    {| atp_cart_items := its; atp_redirect_url := url;
       atp_timestamp := JS.or_str clock1 clock2 |} in
  (cartAvailable (products w) its = false ->
   snd out = w /\ (code (fst out) = 404%N \/ code (fst out) = 400%N)) /\
  (snd out = w \/
   (cartAvailable (products w) its = true /\
    snd out = emit (Outbound (CallAccessToken payload)) w)) /\
  (code (fst out) = 200%N ->
   exists token,
     fst out = json (BToken token) /\ JS.truthy_str token = true /\
     cartAvailable (products w) its = true /\
     snd out = emit (Outbound (CallAccessToken payload)) w) /\
  (forall key secret token,
      cartAvailable (products w) its = true ->
      SHIPROCKET_API_KEY env = Some key -> JS.truthy_str key = true ->
      SHIPROCKET_API_SECRET env = Some secret -> JS.truthy_str secret = true ->
      post_access_token rt payload key (generateHMAC rt payload secret)
      = HttpOk (Some token) ->
      JS.truthy_str token = true ->
      out = (json (BToken token), emit (Outbound (CallAccessToken payload)) w)).
Proof.
  intros Hc Hu Tu out payload. unfold out, generateToken.
  rewrite Hc, Hu. cbn [cd_items JS.truthy_ostr JS.or_ostr]. rewrite Tu.
  cbn [negb].
  assert (Eu : JS.or_str url "" = url)
    by (unfold JS.or_str; rewrite Tu; reflexivity).
  rewrite Eu.
  pose proof (validateCart_spec (products w) its) as V.
  destruct (validateCart (products w) its) as [r|].
  { destruct V as [V C]. cbn [fst snd]. rewrite V.
    split; [intros _; split; [reflexivity|exact C]|].
    split; [left; reflexivity|].
    split; [intro H; destruct C as [C|C]; rewrite C in H; discriminate|].
    intros key secret token H. discriminate. }
  rewrite V. unfold generateAccessToken.
  cbn [at_timestamp at_cart_items at_redirect_url JS.or_ostr].
  fold payload.
  split; [discriminate|].
  destruct (SHIPROCKET_API_KEY env) as [key|] eqn:Ek.
  2:{ cbn [fst snd]. split; [left; reflexivity|].
      split; [simpl; discriminate|]. intros; discriminate. }
  destruct (SHIPROCKET_API_SECRET env) as [secret|] eqn:Es.
  2:{ cbn [fst snd]. split; [left; reflexivity|].
      split; [simpl; discriminate|]. intros; discriminate. }
  destruct (JS.truthy_str key) eqn:Tk; cbn [negb orb].
  2:{ cbn [fst snd]. split; [left; reflexivity|].
      split; [simpl; discriminate|]. intros k s t _ K Tk'.
      injection K as <-. congruence. }
  destruct (JS.truthy_str secret) eqn:Ts; cbn [negb].
  2:{ cbn [fst snd]. split; [left; reflexivity|].
      split; [simpl; discriminate|]. intros k s t _ _ _ K Ts'.
      injection K as <-. congruence. }
  destruct (post_access_token rt payload key (generateHMAC rt payload secret))
    as [[token|]|m e] eqn:P.
  - cbn [JS.truthy_ostr JS.or_ostr].
    destruct (JS.truthy_str token) eqn:Tt.
    + unfold JS.or_str. rewrite Tt. cbn [fst snd].
      split; [right; split; reflexivity|].
      split.
      * intros _. exists token. repeat split. exact Tt.
      * intros k s t _ K _ S _ Q _.
        injection K as <-. injection S as <-. rewrite P in Q.
        injection Q as <-. reflexivity.
    + cbn [fst snd]. split; [right; split; reflexivity|].
      split; [simpl; discriminate|].
      intros k s t _ K _ S _ Q Tt'.
      injection K as <-. injection S as <-. rewrite P in Q.
      injection Q as <-. congruence.
  - cbn [JS.truthy_ostr fst snd]. split; [right; split; reflexivity|].
    split; [simpl; discriminate|].
    intros k s t _ K _ S _ Q _.
    injection K as <-. injection S as <-. rewrite P in Q. discriminate.
  - cbn [fst snd]. split; [right; split; reflexivity|].
    split; [simpl; discriminate|].
    intros k s t _ K _ S _ Q _.
    injection K as <-. injection S as <-. rewrite P in Q. discriminate.
Qed.

Lemma generateToken_validates_cart_witness :
  generateToken Sample.rt Sample.env
                "2025-06-01T10:00:00.000Z" "2025-06-01T10:00:00.001Z"
                Sample.tokenRequest (Sample.shop [])
  = (json (BToken "tok_1"),
     emit (Outbound
             (CallAccessToken
                {| atp_cart_items :=
                     [ {| cart_variant_id := "prod_grape"; cart_quantity := 2%float |};
                       {| cart_variant_id := "prod_lemon_lime";
                          cart_quantity := 1%float |} ];
                   atp_redirect_url := "http://localhost:3000/checkout/success";
                   atp_timestamp := "2025-06-01T10:00:00.000Z" |}))
          (Sample.shop [])).
Proof.
  exact (proj2 (proj2 (proj2
           (@generateToken_validates_cart
              Sample.rt Sample.env
              "2025-06-01T10:00:00.000Z" "2025-06-01T10:00:00.001Z"
              Sample.tokenRequest (Sample.shop [])
              [ {| cart_variant_id := "prod_grape"; cart_quantity := 2%float |};
                {| cart_variant_id := "prod_lemon_lime"; cart_quantity := 1%float |} ]
              "http://localhost:3000/checkout/success"
              eq_refl eq_refl eq_refl)))
           "sr_key" "sr_secret" "tok_1"
           eq_refl eq_refl eq_refl eq_refl eq_refl eq_refl eq_refl).
Defined.

(** ** The handle of a catalog record *)

(** The webhook's update always carries a handle derived from the title,
    when the title is not empty: the test it makes reads the update
    object, not the stored record. *)
Lemma productUpdateData_handle (rt : Runtime) (d : PartnerProduct) :
  JS.truthy_str (pp_title d) = true ->
  up_handle (productUpdateData rt d) = Some (handleOf (pp_title d)).
Proof.
  intro T. unfold productUpdateData. cbn [up_handle JS.truthy_ostr negb andb].
  rewrite T. reflexivity.
Qed.

Lemma collectionUpdateData_handle (d : PartnerCollection) :
  JS.truthy_str (pc_title d) = true ->
  uc_handle (collectionUpdateData d) = Some (handleOf (pc_title d)).
Proof.
  intro T. unfold collectionUpdateData. cbn [uc_handle JS.truthy_ostr negb andb].
  rewrite T. reflexivity.
Qed.

(** C8: the handle derived from "Grape Brewy" is "grape-brewy", and a run
    of white space gives one hyphen; but the derived handle is not only a
    default: a product stored with the handle "custom-grape" has the
    handle "grape-brewy" after a partner update that carries no handle. *)
Theorem productWebhook_overwrites_handle :
  handleOf "Grape Brewy" = "grape-brewy" /\
  handleOf "Grape   Brewy Zero" = "grape-brewy-zero" /\
  let stored := Sample.can "632910392" "Grape Brewy" "custom-grape" None in
  let req := ProductHook (Sample.partnerGrape "Grape Brewy") in
  let w := {| orders := []; products := [stored]; collections := []; log := [] |} in
  prod_handle stored = Some "custom-grape" /\
  fst (catalogWebhook Sample.rt Sample.env "2025-06-01T10:00:00.000Z"
                      (Sample.signed req) req w)
  = json (BProductUpdated "632910392") /\
  option_map prod_handle
    (Db.findOne (byProductId "632910392")
       (products (snd (catalogWebhook Sample.rt Sample.env "2025-06-01T10:00:00.000Z"
                                      (Sample.signed req) req w))))
  = Some (Some "grape-brewy").
Proof. vm_compute. repeat split. Qed.

(* ================================================================== *)
(** * Further properties of the handlers *)

Unset Implicit Arguments.

(** ** The admin gate *)

Lemma authenticateAdmin_rejects rt env h :
  x_admin_password h <> ADMIN_PASSWORD env ->
  (forall t, authorization h = Some t ->
             jwt_verify rt (JS.replace_first "Bearer " "" t)
                        (JS.or_ostr (JWT_SECRET env) "secret") = false) ->
  exists msg, authenticateAdmin rt env h = Reject (error_json 401 msg).
Proof.
  intros P T. unfold authenticateAdmin.
  destruct (JS.strict_eq (x_admin_password h) (ADMIN_PASSWORD env)) eqn:E.
  { apply strict_eq_true in E. contradiction. }
  destruct (authorization h) as [t|] eqn:A; cbn [option_map JS.truthy_ostr].
  - destruct (JS.truthy_str (JS.replace_first "Bearer " "" t)) eqn:Tt; cbn [negb].
    + cbn [JS.or_ostr]. unfold JS.or_str at 1. rewrite Tt.
      rewrite (T t eq_refl). eexists; reflexivity.
    + eexists; reflexivity.
  - eexists; reflexivity.
Qed.

(** X1: a request whose x-admin-password header is not the configured
    admin password, and that carries no bearer token or one that
    [jwt.verify] refuses, is answered 401 by each of the five admin routes
    that write to orders, and the world stays as it was: nothing is
    written and no collaborator is called. *)
Theorem admin_routes_require_credentials
        (rt : Runtime) (env : Env) (h : AdminHeaders) (w : World) :
  x_admin_password h <> ADMIN_PASSWORD env ->
  (forall t, authorization h = Some t ->
             jwt_verify rt (JS.replace_first "Bearer " "" t)
                        (JS.or_ostr (JWT_SECRET env) "secret") = false) ->
  exists msg,
    forall r, perform rt env (asMutation h r) w = (error_json 401 msg, w).
Proof.
  intros P T. destruct (authenticateAdmin_rejects rt env h P T) as [msg E].
  exists msg. intros [i st|i b|i|b|i]; cbn [asMutation perform];
    unfold patchStatus, patchShipment, fasterCancel, shipmentCreate, shipmentCancel;
    rewrite E; reflexivity.
Qed.

Lemma admin_routes_require_credentials_witness :
  exists msg,
    forall r,
      perform Sample.rt Sample.env (asMutation Sample.stranger r)
              (Sample.shop [Sample.order "BREWY_1" paid []])
      = (error_json 401 msg, Sample.shop [Sample.order "BREWY_1" paid []]).
Proof.
  apply (@admin_routes_require_credentials Sample.rt Sample.env Sample.stranger
           (Sample.shop [Sample.order "BREWY_1" paid []])).
  - simpl. discriminate.
  - intros t _. reflexivity.
Defined.

(** X2: when no admin password is configured, a request that sends no
    x-admin-password header passes the admin gate whatever else it
    carries (the two undefined values are strictly equal), so a status
    patch by an anonymous caller is applied to a stored order. *)
Theorem unset_admin_password_opens_gate
        (rt : Runtime) (env : Env) (h : AdminHeaders) (w : World)
        (i : string) (st : Status) (o : Order) :
  ADMIN_PASSWORD env = None ->
  x_admin_password h = None ->
  Db.findOne (byOrderId i) (orders w) = Some o ->
  authenticateAdmin rt env h = Next /\
  code (fst (patchStatus rt env h i (Some st) w)) = 200%N /\
  statusOf i (snd (patchStatus rt env h i (Some st) w)) = Some st.
Proof.
  intros E P F.
  assert (A : authenticateAdmin rt env h = Next).
  { unfold authenticateAdmin. rewrite E, P. reflexivity. }
  split; [exact A|].
  unfold patchStatus. rewrite A.
  destruct (updateOrder i (only_status (Some st)) w) as [[o'|] w'] eqn:U.
  - cbn [fst snd]. split; [reflexivity|].
    rewrite (updateOrder_snd _ _ _ U). unfold statusOf.
    rewrite updateOrder_orders.
    rewrite (@findOne_updateFirst (applyUpdate (only_status (Some st))) i i
               (orders w) (applyUpdate_orderId (only_status (Some st)))).
    rewrite String.eqb_refl, F. reflexivity.
  - exfalso. unfold updateOrder, Db.findOneAndUpdate in U. rewrite F in U.
    discriminate.
Qed.

Lemma unset_admin_password_opens_gate_witness :
  statusOf "BREWY_1"
    (snd (patchStatus Sample.rt Sample.envNoPassword Sample.stranger "BREWY_1"
                      (Some delivered)
                      (Sample.shop [Sample.order "BREWY_1" created []])))
  = Some delivered.
Proof.
  exact (proj2 (proj2 (@unset_admin_password_opens_gate
                         Sample.rt Sample.envNoPassword Sample.stranger
                         (Sample.shop [Sample.order "BREWY_1" created []])
                         "BREWY_1" delivered (Sample.order "BREWY_1" created [])
                         eq_refl eq_refl eq_refl))).
Defined.

(** ** The webhook signature, both ways *)

(** X3: the middleware [verifyHMAC] lets a request through exactly when
    both headers are present and not empty, the key is the configured
    SHIPROCKET_API_KEY, and [verifyWebhookHMAC] accepts the signature for
    the serialized body under the configured secret (the empty string
    when none is configured).  In particular nothing passes when no API
    key is configured. *)
Theorem verifyHMAC_accepts_exactly
        (rt : Runtime) (env : Env) (B : Type) (stringify : B -> string)
        (h : WebhookHeaders) (reqBody : B) :
  verifyHMAC rt env stringify h reqBody = Next <->
  exists key signature,
    X_Api_Key h = Some key /\ JS.truthy_str key = true /\
    X_Api_HMAC_SHA256 h = Some signature /\ JS.truthy_str signature = true /\
    SHIPROCKET_API_KEY env = Some key /\
    verifyWebhookHMAC rt (stringify reqBody) signature
                      (JS.or_ostr (SHIPROCKET_API_SECRET env) "") = true.
Proof.
  split.
  - intro E. pose proof E as E'. apply verifyHMAC_next in E'.
    destruct E' as (Tk & Ek & Es).
    destruct (X_Api_Key h) as [key|] eqn:Hk; [|discriminate].
    exists key. eexists. repeat split.
    + exact Tk.
    + exact Es.
    + (* the signature header was tested before the digest was computed *)
      unfold verifyHMAC in E. rewrite Es in E.
      cbn [JS.truthy_ostr] in E.
      destruct (JS.truthy_str _) eqn:Ts in E; [|discriminate].
      exact Ts.
    + symmetry. exact Ek.
    + unfold verifyWebhookHMAC. apply String.eqb_refl.
  - intros (key & signature & Hk & Tk & Hs & Ts & Ek & V).
    unfold verifyWebhookHMAC in V. apply String.eqb_eq in V.
    unfold verifyHMAC. rewrite Hk, Hs, Ek. cbn [JS.truthy_ostr].
    rewrite Tk, Ts. cbn [negb orb JS.strict_eq].
    rewrite String.eqb_refl. cbn [negb].
    rewrite V, String.eqb_refl. reflexivity.
Qed.

(** ** Collections of documents under [findOneAndUpdate] and upsert *)

Lemma updateFirst_fixed {A} (f : A -> bool) (g : A -> A) (l : list A) (d : A) :
  Db.findOne f l = Some d -> g d = d -> Db.updateFirst f g l = l.
Proof.
  unfold Db.findOne. induction l as [|a l IH]; simpl; [reflexivity|].
  destruct (f a).
  - intros H G. injection H as ->. rewrite G. reflexivity.
  - intros H G. f_equal. apply IH; assumption.
Qed.

Lemma findOne_updateFirst_hit {A} (f : A -> bool) (g : A -> A) (l : list A) (d : A) :
  Db.findOne f l = Some d -> f (g d) = true ->
  Db.findOne f (Db.updateFirst f g l) = Some (g d).
Proof.
  unfold Db.findOne. induction l as [|a l IH]; simpl; [discriminate|].
  destruct (f a) eqn:E.
  - intros H G. injection H as ->. simpl. rewrite G. reflexivity.
  - intros H G. simpl. rewrite E. apply IH; assumption.
Qed.

Lemma findOne_updateFirst_other {A} (f f' : A -> bool) (g : A -> A) (l : list A) :
  (forall d, f d = true -> f' d = false /\ f' (g d) = false) ->
  Db.findOne f' (Db.updateFirst f g l) = Db.findOne f' l.
Proof.
  intro K. unfold Db.findOne. induction l as [|a l IH]; simpl; [reflexivity|].
  destruct (f a) eqn:E.
  - destruct (K a E) as [Ka Kg]. simpl. rewrite Ka, Kg. reflexivity.
  - simpl. destruct (f' a); [reflexivity|exact IH].
Qed.

Lemma existsb_updateFirst {A} (P f : A -> bool) (g : A -> A) (l : list A) :
  (forall d, f d = true -> P (g d) = P d) ->
  existsb P (Db.updateFirst f g l) = existsb P l.
Proof.
  intro K. induction l as [|a l IH]; simpl; [reflexivity|].
  destruct (f a) eqn:E; simpl.
  - rewrite (K a E). reflexivity.
  - rewrite IH. reflexivity.
Qed.

Lemma findOne_app {A} (f : A -> bool) (l : list A) (d : A) :
  Db.findOne f (l ++ [d])
  = match Db.findOne f l with
    | Some x => Some x
    | None => if f d then Some d else None
    end.
Proof.
  unfold Db.findOne. induction l as [|a l IH]; simpl; [reflexivity|].
  destruct (f a); [reflexivity|exact IH].
Qed.

Lemma eqb_key_other (k i j : string) :
  j <> i -> String.eqb k i = true -> String.eqb k j = false.
Proof.
  intros N E. apply String.eqb_eq in E. subst k.
  apply String.eqb_neq. congruence.
Qed.

(** *** Products *)

Lemma updateFirst_agree {A} (f : A -> bool) (g g' : A -> A) (l : list A) (d : A) :
  Db.findOne f l = Some d -> g d = g' d ->
  Db.updateFirst f g l = Db.updateFirst f g' l.
Proof.
  unfold Db.findOne. induction l as [|a l IH]; simpl; [reflexivity|].
  destruct (f a).
  - intros H G. injection H as ->. rewrite G. reflexivity.
  - intros H G. f_equal. apply IH; assumption.
Qed.

Lemma setProduct_again (now later : string) (u : ProductUpdate) (p : Product) :
  setProduct later u (setProduct now u p) = touchProduct later (setProduct now u p).
Proof.
  unfold setProduct, touchProduct. cbn.
  destruct (up_price u), (up_handle u), (up_images u), (up_stock u),
    (up_variants u), (up_dimensions u); reflexivity.
Qed.

Lemma setProduct_inserted (now later : string) (u : ProductUpdate) :
  setProduct later u (insertedProduct now u)
  = touchProduct later (insertedProduct now u).
Proof.
  unfold setProduct, insertedProduct, touchProduct. cbn.
  destruct (up_price u), (up_handle u), (up_images u), (up_stock u),
    (up_variants u), (up_dimensions u); reflexivity.
Qed.

Lemma productHandleTaken_self (i : string) (h : option string)
      (g : Product -> Product) (ps : list Product) :
  (forall d, prod_id (g d) = i) ->
  productHandleTaken i h (Db.updateFirst (byProductId i) g ps)
  = productHandleTaken i h ps.
Proof.
  intro K. unfold productHandleTaken. apply existsb_updateFirst.
  intros d E. unfold byProductId in *. rewrite K, String.eqb_refl, E. reflexivity.
Qed.

(** What a successful upsert leaves behind: the product is found under
    its id, the other ids find what they found, and the same update
    applied to it later changes its time stamp only. *)
Lemma upsertProduct_spec (now : string) (i : string) (u : ProductUpdate)
      (w w' : World) (p : Product) :
  up_id u = i ->
  upsertProduct now i u w = Some (p, w') ->
  Db.findOne (byProductId i) (products w') = Some p /\
  (forall later, setProduct later u p = touchProduct later p) /\
  (p = insertedProduct now u \/ exists p0, p = setProduct now u p0) /\
  productHandleTaken i (prod_handle p) (products w') = false /\
  (forall j, j <> i ->
             Db.findOne (byProductId j) (products w')
             = Db.findOne (byProductId j) (products w)) /\
  orders w' = orders w /\ collections w' = collections w /\
  log w' = (log w ++ [ProductWritten p])%list.
Proof.
  intros Ei U. unfold upsertProduct in U.
  assert (Kid : forall d, prod_id (setProduct now u d) = i) by (intro d; exact Ei).
  destruct (Db.findOne (byProductId i) (products w)) as [p0|] eqn:F.
  - destruct (productHandleTaken i (prod_handle (setProduct now u p0)) (products w))
      eqn:T; [discriminate|].
    injection U as <- <-. unfold put_products. cbn [products orders collections log].
    split; [|split; [|split; [|split; [|split]]]].
    + apply findOne_updateFirst_hit; [exact F|].
      unfold byProductId. rewrite Kid. apply String.eqb_refl.
    + intro later. apply setProduct_again.
    + right. exists p0. reflexivity.
    + rewrite productHandleTaken_self; [exact T|exact Kid].
    + intros j N. apply findOne_updateFirst_other.
      intros d E. unfold byProductId in *. rewrite Kid. split.
      * apply (eqb_key_other _ _ _ N E).
      * apply String.eqb_neq. congruence.
    + auto.
  - destruct (productHandleTaken i (prod_handle (insertedProduct now u)) (products w))
      eqn:T; [discriminate|].
    injection U as <- <-. unfold put_products. cbn [products orders collections log].
    assert (Self : byProductId i (insertedProduct now u) = true).
    { unfold byProductId. cbn [insertedProduct prod_id]. rewrite Ei.
      apply String.eqb_refl. }
    split; [|split; [|split; [|split; [|split]]]].
    + rewrite findOne_app, F, Self. reflexivity.
    + intro later. apply setProduct_inserted.
    + left. reflexivity.
    + unfold productHandleTaken in *. rewrite existsb_app, T. simpl.
      rewrite Self. reflexivity.
    + intros j N. rewrite findOne_app.
      destruct (Db.findOne (byProductId j) (products w)); [reflexivity|].
      unfold byProductId. cbn [insertedProduct prod_id]. rewrite Ei.
      assert (E : (i =? j) = false) by (apply String.eqb_neq; congruence).
      rewrite E. reflexivity.
    + auto.
Qed.

Lemma upsertProduct_again (now later : string) (i : string) (u : ProductUpdate)
      (w w' : World) (p : Product) :
  up_id u = i ->
  upsertProduct now i u w = Some (p, w') ->
  upsertProduct later i u w'
  = Some (touchProduct later p,
          put_products (Db.updateFirst (byProductId i) (touchProduct later) (products w'))
                       (touchProduct later p) w').
Proof.
  intros Ei U.
  destruct (upsertProduct_spec now i u w w' p Ei U) as (F & Fix & _ & T & _).
  unfold upsertProduct. rewrite F, (Fix later).
  change (prod_handle (touchProduct later p)) with (prod_handle p). rewrite T.
  rewrite (updateFirst_agree (byProductId i) (setProduct later u) (touchProduct later)
             (products w') p F (Fix later)).
  reflexivity.
Qed.

(** *** Collections *)

Lemma setCollection_again (now later : string) (u : CollectionUpdate) (c : Collection) :
  setCollection later u (setCollection now u c)
  = touchCollection later (setCollection now u c).
Proof.
  unfold setCollection, touchCollection. cbn.
  destruct (uc_handle u), (uc_image u); reflexivity.
Qed.

Lemma setCollection_inserted (now later : string) (u : CollectionUpdate) :
  setCollection later u (insertedCollection now u)
  = touchCollection later (insertedCollection now u).
Proof.
  unfold setCollection, insertedCollection, touchCollection. cbn.
  destruct (uc_handle u), (uc_image u); reflexivity.
Qed.

Lemma upsertCollection_again (now later : string) (i : string) (u : CollectionUpdate)
      (w w' : World) (c : Collection) :
  uc_id u = i ->
  upsertCollection now i u w = Some (c, w') ->
  upsertCollection later i u w'
  = Some (touchCollection later c,
          put_collections
            (Db.updateFirst (byCollectionId i) (touchCollection later) (collections w'))
            (touchCollection later c) w').
Proof.
  intros Ei U. unfold upsertCollection in U.
  assert (Kid : forall d, coll_id (setCollection now u d) = i) by (intro d; exact Ei).
  assert (Again : forall c1 w1,
             Db.findOne (byCollectionId i) (collections w1) = Some c1 ->
             setCollection later u c1 = touchCollection later c1 ->
             collectionHandleTaken i (coll_handle c1) (collections w1) = false ->
             upsertCollection later i u w1
             = Some (touchCollection later c1,
                     put_collections
                       (Db.updateFirst (byCollectionId i) (touchCollection later)
                                       (collections w1))
                       (touchCollection later c1) w1)).
  { intros c1 w1 F Fix T. unfold upsertCollection. rewrite F, Fix.
    change (coll_handle (touchCollection later c1)) with (coll_handle c1). rewrite T.
    rewrite (updateFirst_agree (byCollectionId i) (setCollection later u)
               (touchCollection later) (collections w1) c1 F Fix).
    reflexivity. }
  destruct (Db.findOne (byCollectionId i) (collections w)) as [c0|] eqn:F.
  - destruct (collectionHandleTaken i (coll_handle (setCollection now u c0))
                                    (collections w)) eqn:T; [discriminate|].
    injection U as <- <-. apply Again; unfold put_collections; cbn [collections].
    + apply findOne_updateFirst_hit; [exact F|].
      unfold byCollectionId. rewrite Kid. apply String.eqb_refl.
    + apply setCollection_again.
    + unfold collectionHandleTaken in *. rewrite existsb_updateFirst; [exact T|].
      intros d E. unfold byCollectionId in *.
      rewrite Kid, String.eqb_refl, E. reflexivity.
  - destruct (collectionHandleTaken i (coll_handle (insertedCollection now u))
                                    (collections w)) eqn:T; [discriminate|].
    injection U as <- <-.
    assert (Self : byCollectionId i (insertedCollection now u) = true).
    { unfold byCollectionId. cbn [insertedCollection coll_id]. rewrite Ei.
      apply String.eqb_refl. }
    apply Again; unfold put_collections; cbn [collections].
    + rewrite findOne_app, F, Self. reflexivity.
    + apply setCollection_inserted.
    + unfold collectionHandleTaken in *. rewrite existsb_app, T. simpl.
      rewrite Self. reflexivity.
Qed.

(** ** The catalog webhooks *)

(** X4: the catalog upsert is idempotent up to the time stamp: when a
    product or collection webhook has been answered 200, the same request
    once more gets the same answer, and changes nothing in the store but
    the [updatedAt] of the one record the request names, which becomes
    the time of the repeat; every other product and collection, and every
    order, stays as it is. *)
Theorem catalogWebhook_idempotent
        (rt : Runtime) (env : Env) (now later : string) (h : WebhookHeaders)
        (req : CatalogRequest) (w : World) :
  code (fst (catalogWebhook rt env now h req w)) = 200%N ->
  let w1 := snd (catalogWebhook rt env now h req w) in
  let w2 := snd (catalogWebhook rt env later h req w1) in
  fst (catalogWebhook rt env later h req w1) = fst (catalogWebhook rt env now h req w) /\
  match req with
  | ProductHook d =>
      products w2
      = Db.updateFirst (byProductId (JS.toString (pp_id d))) (touchProduct later)
                       (products w1) /\
      collections w2 = collections w1
  | CollectionHook d =>
      collections w2
      = Db.updateFirst (byCollectionId (JS.toString (pc_id d))) (touchCollection later)
                       (collections w1) /\
      products w2 = products w1
  end /\
  orders w2 = orders w1.
Proof.
  cbv zeta. destruct req as [d|d]; cbn [catalogWebhook].
  - unfold productWebhook.
    destruct (verifyHMAC rt env (stringify_product rt) h d) as [|r] eqn:V.
    2:{ cbn [fst snd]. intros C.
        destruct (@verifyHMAC_reject_401 rt env _ _ h d r V) as [msg ->].
        discriminate. }
    destruct (upsertProduct now (JS.toString (pp_id d)) (productUpdateData rt d) w)
      as [[p w']|] eqn:U; cbn [fst snd].
    + intros _.
      destruct (upsertProduct_spec now (JS.toString (pp_id d)) (productUpdateData rt d)
                  w w' p eq_refl U) as (F & _).
      rewrite (upsertProduct_again now later (JS.toString (pp_id d))
                 (productUpdateData rt d) w w' p eq_refl U). cbn [fst snd].
      unfold put_products. cbn [products collections orders].
      change (prod_id (touchProduct later p)) with (prod_id p). auto.
    + simpl. discriminate.
  - unfold collectionWebhook.
    destruct (verifyHMAC rt env (stringify_collection rt) h d) as [|r] eqn:V.
    2:{ cbn [fst snd]. intros C.
        destruct (@verifyHMAC_reject_401 rt env _ _ h d r V) as [msg ->].
        discriminate. }
    destruct (upsertCollection now (JS.toString (pc_id d)) (collectionUpdateData d) w)
      as [[c w']|] eqn:U; cbn [fst snd].
    + intros _.
      rewrite (upsertCollection_again now later (JS.toString (pc_id d))
                 (collectionUpdateData d) w w' c eq_refl U). cbn [fst snd].
      unfold put_collections. cbn [products collections orders].
      change (coll_id (touchCollection later c)) with (coll_id c). auto.
    + simpl. discriminate.
Qed.

Lemma catalogWebhook_idempotent_witness :
  map prod_updatedAt
    (products
       (snd (catalogWebhook Sample.rt Sample.env "2025-06-02T08:30:00.000Z"
               (Sample.signed (ProductHook (Sample.partnerGrape "Grape Brewy Zero")))
               (ProductHook (Sample.partnerGrape "Grape Brewy Zero"))
               (snd (catalogWebhook Sample.rt Sample.env "2025-06-01T10:00:00.000Z"
                       (Sample.signed
                          (ProductHook (Sample.partnerGrape "Grape Brewy Zero")))
                       (ProductHook (Sample.partnerGrape "Grape Brewy Zero"))
                       (Sample.shop []))))))
  = [ "2025-01-01T00:00:00Z"; "2025-01-01T00:00:00Z"; "2025-06-02T08:30:00.000Z" ].
Proof.
  rewrite (proj1 (proj1 (proj2 (catalogWebhook_idempotent Sample.rt Sample.env
             "2025-06-01T10:00:00.000Z" "2025-06-02T08:30:00.000Z"
             (Sample.signed (ProductHook (Sample.partnerGrape "Grape Brewy Zero")))
             (ProductHook (Sample.partnerGrape "Grape Brewy Zero"))
             (Sample.shop []) eq_refl)))).
  reflexivity.
Defined.

(** X5: after a product webhook answered 200, the product is stored under
    the decimal form of the partner's id, with the partner's title as
    name, the description or the empty string, availability exactly when
    the partner's status is "active", and, for a title that is not empty,
    the handle derived from the title; the products of other ids are
    found as before, and nothing but that one product is written. *)
Theorem productWebhook_stores_partner_record
        (rt : Runtime) (env : Env) (now : string) (h : WebhookHeaders)
        (d : PartnerProduct) (w : World) :
  code (fst (productWebhook rt env now h d w)) = 200%N ->
  let i := JS.toString (pp_id d) in
  let w' := snd (productWebhook rt env now h d w) in
  exists p,
    fst (productWebhook rt env now h d w) = json (BProductUpdated i) /\
    Db.findOne (byProductId i) (products w') = Some p /\
    prod_name p = pp_title d /\
    prod_description p = JS.or_ostr (pp_body_html d) "" /\
    prod_availableForSale p = String.eqb (pp_status d) "active" /\
    (JS.truthy_str (pp_title d) = true ->
     prod_handle p = Some (handleOf (pp_title d))) /\
    (forall j, j <> i ->
               Db.findOne (byProductId j) (products w')
               = Db.findOne (byProductId j) (products w)) /\
    orders w' = orders w /\ collections w' = collections w /\
    log w' = (log w ++ [ProductWritten p])%list.
Proof.
  cbv zeta. unfold productWebhook.
  destruct (verifyHMAC rt env (stringify_product rt) h d) as [|r] eqn:V.
  2:{ cbn [fst]. intro C.
      destruct (@verifyHMAC_reject_401 _ _ _ _ _ _ _ V) as [msg ->].
      discriminate. }
  destruct (upsertProduct now (JS.toString (pp_id d)) (productUpdateData rt d) w)
    as [[p w']|] eqn:U; cbn [fst snd]; [|simpl; discriminate].
  intros _.
  set (i := JS.toString (pp_id d)) in *.
  destruct (upsertProduct_spec now i (productUpdateData rt d) w w' p eq_refl U)
    as (F & _ & Shape & _ & Other & Eo & Ec & El).
  exists p.
  assert (Fields : prod_id p = i /\ prod_name p = pp_title d /\
                   prod_description p = JS.or_ostr (pp_body_html d) "" /\
                   prod_availableForSale p = String.eqb (pp_status d) "active" /\
                   (JS.truthy_str (pp_title d) = true ->
                    prod_handle p = Some (handleOf (pp_title d)))).
  { destruct Shape as [->|[p0 ->]];
      (repeat split; try reflexivity);
      intro T; cbn [setProduct insertedProduct prod_handle];
      rewrite (productUpdateData_handle rt d T); reflexivity. }
  destruct Fields as (Ei & En & Ed & Ea & Eh).
  rewrite Ei. repeat split; assumption.
Qed.

Lemma productWebhook_stores_partner_record_witness :
  exists p,
    Db.findOne (byProductId "632910392")
      (products (snd (productWebhook Sample.rt Sample.env "2025-06-01T10:00:00.000Z"
                        (Sample.signed (ProductHook (Sample.partnerGrape "Grape Brewy Zero")))
                        (Sample.partnerGrape "Grape Brewy Zero")
                        (Sample.shop []))))
    = Some p /\
    prod_handle p = Some "grape-brewy-zero".
Proof.
  destruct (productWebhook_stores_partner_record Sample.rt Sample.env
              "2025-06-01T10:00:00.000Z"
              (Sample.signed (ProductHook (Sample.partnerGrape "Grape Brewy Zero")))
              (Sample.partnerGrape "Grape Brewy Zero")
              (Sample.shop []) eq_refl)
    as (p & _ & F & _ & _ & _ & H & _).
  exists p. split; [exact F|]. exact (H eq_refl).
Defined.

(** X6: the handle is unique among products: a product webhook whose
    title derives the handle that a product of another id already has is
    answered 500 "Failed to process product webhook", and nothing is
    written; so two partner products whose titles differ only in case or
    in the length of their white space cannot both be stored. *)
Theorem productWebhook_handle_collision
        (rt : Runtime) (env : Env) (now : string) (h : WebhookHeaders)
        (d : PartnerProduct) (w : World) (q : Product) :
  verifyHMAC rt env (stringify_product rt) h d = Next ->
  JS.truthy_str (pp_title d) = true ->
  In q (products w) ->
  prod_id q <> JS.toString (pp_id d) ->
  prod_handle q = Some (handleOf (pp_title d)) ->
  productWebhook rt env now h d w
  = (error_json 500 "Failed to process product webhook", w).
Proof.
  intros V T Hin Nid Hq. unfold productWebhook. rewrite V.
  assert (Taken : forall p,
             prod_handle p = Some (handleOf (pp_title d)) ->
             productHandleTaken (JS.toString (pp_id d)) (prod_handle p) (products w)
             = true).
  { intros p Hp. unfold productHandleTaken. apply existsb_exists.
    exists q. split; [exact Hin|].
    unfold byProductId, ostr_eqb.
    assert (E : (prod_id q =? JS.toString (pp_id d)) = false)
      by (apply String.eqb_neq; exact Nid).
    rewrite E, Hq, Hp. cbn [negb andb JS.strict_eq]. apply String.eqb_refl. }
  unfold upsertProduct.
  destruct (Db.findOne (byProductId (JS.toString (pp_id d))) (products w)) as [p0|].
  - rewrite Taken; [reflexivity|].
    cbn [setProduct prod_handle]. rewrite (productUpdateData_handle rt d T).
    reflexivity.
  - rewrite Taken; [reflexivity|].
    cbn [insertedProduct prod_handle]. apply (productUpdateData_handle rt d T).
Qed.

Lemma productWebhook_handle_collision_witness :
  productWebhook Sample.rt Sample.env "2025-06-01T10:00:00.000Z"
    (Sample.signed (ProductHook (Sample.partnerGrape "GRAPE   brewy")))
    (Sample.partnerGrape "GRAPE   brewy")
    (Sample.shop [])
  = (error_json 500 "Failed to process product webhook", Sample.shop []).
Proof.
  apply (productWebhook_handle_collision Sample.rt Sample.env
           "2025-06-01T10:00:00.000Z"
           (Sample.signed (ProductHook (Sample.partnerGrape "GRAPE   brewy")))
           (Sample.partnerGrape "GRAPE   brewy")
           (Sample.shop []) Sample.grape).
  - reflexivity.
  - reflexivity.
  - left. reflexivity.
  - vm_compute. discriminate.
  - reflexivity.
Defined.

(** ** The derived handle *)

Lemma lower_char_slug (c : ascii) :
  JS.is_space c = false -> slug_char (JS.lower_char c) = true.
Proof.
  destruct c as [[] [] [] [] [] [] [] []]; vm_compute;
    intro H; try reflexivity; discriminate.
Qed.

Lemma lower_char_space (c : ascii) :
  JS.is_space (JS.lower_char c) = JS.is_space c.
Proof. destruct c as [[] [] [] [] [] [] [] []]; vm_compute; reflexivity. Qed.

Lemma lower_char_fixed (c : ascii) :
  JS.is_upper c = false -> JS.lower_char c = c.
Proof. intro H. unfold JS.lower_char. rewrite H. reflexivity. Qed.

Lemma replace_ws_from_slug (b : bool) (s : string) :
  all_chars slug_char (JS.replace_ws_from b "-" (JS.toLowerCase s)) = true.
Proof.
  revert b. induction s as [|c s IH]; intro b; simpl; [reflexivity|].
  rewrite lower_char_space.
  destruct (JS.is_space c) eqn:Sp.
  - destruct b; simpl; apply IH.
  - simpl. rewrite (lower_char_slug c Sp). apply IH.
Qed.

Lemma toLowerCase_fixed (s : string) :
  all_chars slug_char s = true -> JS.toLowerCase s = s.
Proof.
  induction s as [|c s IH]; simpl; [reflexivity|].
  intro H. apply andb_prop in H. destruct H as [Hc Hs].
  unfold slug_char in Hc. apply andb_prop in Hc. destruct Hc as [_ Hu].
  rewrite lower_char_fixed; [|destruct (JS.is_upper c); [discriminate|reflexivity]].
  rewrite IH; [reflexivity|exact Hs].
Qed.

Lemma replace_ws_from_fixed (b : bool) (s : string) :
  all_chars slug_char s = true -> JS.replace_ws_from b "-" s = s.
Proof.
  revert b. induction s as [|c s IH]; intro b; simpl; [reflexivity|].
  intro H. apply andb_prop in H. destruct H as [Hc Hs].
  unfold slug_char in Hc. apply andb_prop in Hc. destruct Hc as [Hsp _].
  destruct (JS.is_space c); [discriminate|].
  rewrite IH; [reflexivity|exact Hs].
Qed.

(** X7: a derived handle contains no white-space character and no
    upper-case letter, whatever the name, and deriving a handle from a
    handle gives the handle back. *)
Theorem handleOf_is_slug (name : string) :
  all_chars slug_char (handleOf name) = true /\
  handleOf (handleOf name) = handleOf name.
Proof.
  assert (S : all_chars slug_char (handleOf name) = true)
    by apply replace_ws_from_slug.
  split; [exact S|].
  unfold handleOf at 1. rewrite (toLowerCase_fixed _ S).
  apply replace_ws_from_fixed. exact S.
Qed.

(** ** Line items that cannot be sold *)

Lemma calculateTotal_stops ps pre it post : forall acc,
  forallb (available ps) pre = true ->
  available ps it = false ->
  calculateTotal ps (pre ++ it :: post) acc = Stop _ (itemRefusal ps it).
Proof.
  induction pre as [|a pre IH]; intros acc Hp Hi; simpl in *.
  - unfold available, itemRefusal, productOf in *.
    destruct (Db.findOne (byProductId (item_productId it)) ps) as [p|];
      [|reflexivity].
    rewrite Hi. reflexivity.
  - apply andb_prop in Hp. destruct Hp as [Ha Hp].
    unfold available, productOf in Ha.
    destruct (Db.findOne (byProductId (item_productId a)) ps) as [p|];
      [|discriminate].
    rewrite Ha. cbn [negb]. apply IH; assumption.
Qed.

Lemma priceItems_stops ps pre it post : forall acc lines,
  forallb (available ps) pre = true ->
  available ps it = false ->
  priceItems ps (pre ++ it :: post) acc lines = Stop _ (itemRefusal ps it).
Proof.
  induction pre as [|a pre IH]; intros acc lines Hp Hi; simpl in *.
  - unfold available, itemRefusal, productOf in *.
    destruct (Db.findOne (byProductId (item_productId it)) ps) as [p|];
      [|reflexivity].
    rewrite Hi. reflexivity.
  - apply andb_prop in Hp. destruct Hp as [Ha Hp].
    unfold available, productOf in Ha.
    destruct (Db.findOne (byProductId (item_productId a)) ps) as [p|];
      [|discriminate].
    rewrite Ha. cbn [negb]. apply IH; assumption.
Qed.

(** X8: when the first line item that cannot be sold names a product that
    is not stored, both session creations answer 404 "Product <id> not
    found"; when it names a stored product that is not available for
    sale, they answer 400 "Product <name> is not available".  Either way
    no order is stored and no collaborator is called, whatever the other
    items are. *)
Theorem session_rejects_unsellable_item
        (rt : Runtime) (env : Env) (now : N) (w : World)
        (pre post : list OrderItem) (it : OrderItem) (cust : Customer) :
  forallb (available (products w)) pre = true ->
  available (products w) it = false ->
  (forall amt cur,
      JS.truthy_num amt = true ->
      createOrder rt env now
        {| co_amount := Some amt; co_currency := cur;
           co_items := Some (pre ++ it :: post)%list; co_customer := Some cust |} w
      = (itemRefusal (products w) it, w)) /\
  (forall pin,
      JS.truthy_str pin = true ->
      fasterCreate rt env now
        {| fb_items := Some (pre ++ it :: post)%list; fb_customer := Some cust;
           fb_pickupPincode := Some pin |} w
      = (itemRefusal (products w) it, w)).
Proof.
  intros Hp Hi. split.
  - intros amt cur Ta. unfold createOrder.
    cbn [co_amount co_items co_customer]. rewrite Ta. cbn [negb].
    rewrite (calculateTotal_stops _ _ _ _ _ Hp Hi). reflexivity.
  - intros pin Tp. unfold fasterCreate.
    cbn [fb_items fb_customer fb_pickupPincode]. rewrite Tp. cbn [negb].
    rewrite (priceItems_stops _ _ _ _ _ _ Hp Hi). reflexivity.
Qed.

Lemma session_rejects_unsellable_item_witness :
  fasterCreate Sample.rt Sample.env 1764523990679%N
    {| fb_items := Some (Sample.cart ++ [Sample.line "prod_gone" 1%float])%list;
       fb_customer := Some Sample.buyer; fb_pickupPincode := Some "411001" |}
    (Sample.shop [])
  = (error_json 404 "Product prod_gone not found", Sample.shop []).
Proof.
  exact (proj2 (session_rejects_unsellable_item
                  Sample.rt Sample.env 1764523990679%N (Sample.shop [])
                  Sample.cart [] (Sample.line "prod_gone" 1%float) Sample.buyer
                  eq_refl eq_refl)
               "411001" eq_refl).
Defined.

(** ** A confirmed payment *)

Lemma updateOrder_found j u w order :
  Db.findOne (byOrderId j) (orders w) = Some order ->
  updateOrder j u w
  = (Some (applyUpdate u order),
     put_orders (Db.updateFirst (byOrderId j) (applyUpdate u) (orders w))
                (applyUpdate u order) w).
Proof.
  intro F. unfold updateOrder, Db.findOneAndUpdate. rewrite F. reflexivity.
Qed.

Lemma updateOrder_missing j u w :
  Db.findOne (byOrderId j) (orders w) = None ->
  updateOrder j u w = (None, w).
Proof.
  intro F. unfold updateOrder, Db.findOneAndUpdate. rewrite F. reflexivity.
Qed.

Lemma updateOrder_lookup j u w i :
  Db.findOne (byOrderId i) (orders (snd (updateOrder j u w)))
  = if String.eqb i j
    then option_map (applyUpdate u) (Db.findOne (byOrderId i) (orders w))
    else Db.findOne (byOrderId i) (orders w).
Proof.
  rewrite updateOrder_orders.
  apply (@findOne_updateFirst (applyUpdate u) i j (orders w)
           (applyUpdate_orderId u)).
Qed.

Lemma verifyPayment_valid_run
      (rt : Runtime) (env : Env) (b : VerifyPaymentBody) (w : World)
      (secret orderRef paymentRef signature : string) :
  RAZORPAY_KEY_SECRET env = Some secret ->
  vp_razorpayOrderId b = Some orderRef -> JS.truthy_str orderRef = true ->
  vp_razorpayPaymentId b = Some paymentRef -> JS.truthy_str paymentRef = true ->
  vp_razorpaySignature b = Some signature -> JS.truthy_str signature = true ->
  signature = hmac_sha256_hex rt secret (orderRef ++ "|" ++ paymentRef) ->
  verifyPayment rt env b w
  = match updateOrder (JS.or_ostr (vp_orderId b) orderRef)
                      {| u_status := Some paid;
                         u_razorpayPaymentId := Some paymentRef;
                         u_razorpaySignature := Some signature;
                         u_shiprocketOrderId := None;
                         u_shiprocketShipmentId := None;
                         u_trackingUrl := None |} w with
    | (None, w') => (error_json 404 "Order not found", w')
    | (Some o, w') => (json (BPaymentVerified o), w')
    end.
Proof.
  intros Hk Ho To Hp Tp Hs Ts Sig.
  unfold verifyPayment. rewrite Ho, Hp, Hs.
  cbn [JS.truthy_ostr JS.or_ostr]. rewrite To, Tp, Ts. cbn [negb orb].
  unfold JS.or_str. rewrite To, Tp, Ts.
  unfold verifyRazorpayPayment. rewrite Hk, <- Sig, String.eqb_refl.
  cbn [negb].
  destruct (vp_orderId b) as [k|]; cbn [JS.or_ostr];
    unfold JS.or_str; reflexivity.
Qed.

(** X9: a payment confirmation with the right signature looks the order
    up by the body's orderId, or by the Razorpay order id when the body
    has none.  If no order has that id the answer is 404 and nothing is
    written; otherwise the answer is 200 and that order, and no other, is
    rewritten: its status is paid, the payment id and the signature are
    recorded, and its amount, items and customer are as before. *)
Theorem verifyPayment_marks_paid
        (rt : Runtime) (env : Env) (b : VerifyPaymentBody) (w : World)
        (secret orderRef paymentRef signature : string) :
  RAZORPAY_KEY_SECRET env = Some secret ->
  vp_razorpayOrderId b = Some orderRef -> JS.truthy_str orderRef = true ->
  vp_razorpayPaymentId b = Some paymentRef -> JS.truthy_str paymentRef = true ->
  vp_razorpaySignature b = Some signature -> JS.truthy_str signature = true ->
  signature = hmac_sha256_hex rt secret (orderRef ++ "|" ++ paymentRef) ->
  let target := JS.or_ostr (vp_orderId b) orderRef in
  (Db.findOne (byOrderId target) (orders w) = None ->
   verifyPayment rt env b w = (error_json 404 "Order not found", w)) /\
  (forall order,
      Db.findOne (byOrderId target) (orders w) = Some order ->
      exists order',
        fst (verifyPayment rt env b w) = json (BPaymentVerified order') /\
        Db.findOne (byOrderId target) (orders (snd (verifyPayment rt env b w)))
        = Some order' /\
        status order' = paid /\
        razorpayPaymentId order' = Some paymentRef /\
        razorpaySignature order' = Some signature /\
        (amount order', items order', customer order')
        = (amount order, items order, customer order) /\
        (forall j, j <> target ->
                   Db.findOne (byOrderId j) (orders (snd (verifyPayment rt env b w)))
                   = Db.findOne (byOrderId j) (orders w))).
Proof.
  intros Hk Ho To Hp Tp Hs Ts Sig target.
  rewrite (verifyPayment_valid_run rt env b w secret orderRef paymentRef signature
             Hk Ho To Hp Tp Hs Ts Sig).
  fold target. split.
  - intro F. rewrite (updateOrder_missing _ _ _ F). reflexivity.
  - intros order F. rewrite (updateOrder_found _ _ _ _ F). cbn [fst snd].
    eexists. split; [reflexivity|].
    unfold put_orders. cbn [orders].
    split; [|split; [|split; [|split; [|split]]]]; try reflexivity.
    + rewrite (@findOne_updateFirst _ target target (orders w)
                 (applyUpdate_orderId _)).
      rewrite String.eqb_refl, F. reflexivity.
    + intros j N.
      rewrite (@findOne_updateFirst _ j target (orders w)
                 (applyUpdate_orderId _)).
      assert (E : (j =? target) = false) by (apply String.eqb_neq; exact N).
      rewrite E. reflexivity.
Qed.

Lemma verifyPayment_marks_paid_witness :
  statusOf "BREWY_1"
    (snd (verifyPayment Sample.rt Sample.env Sample.genuine
            (Sample.shop [Sample.order "BREWY_1" created [];
                          Sample.order "BREWY_2" created []])))
  = Some paid /\
  statusOf "BREWY_2"
    (snd (verifyPayment Sample.rt Sample.env Sample.genuine
            (Sample.shop [Sample.order "BREWY_1" created [];
                          Sample.order "BREWY_2" created []])))
  = Some created.
Proof.
  destruct (proj2 (verifyPayment_marks_paid Sample.rt Sample.env Sample.genuine
                     (Sample.shop [Sample.order "BREWY_1" created [];
                                   Sample.order "BREWY_2" created []])
                     "rzp_secret" "order_rzp_1" "pay_1"
                     (hmac_sha256_hex Sample.rt "rzp_secret" "order_rzp_1|pay_1")
                     eq_refl eq_refl eq_refl eq_refl eq_refl eq_refl eq_refl eq_refl)
                  (Sample.order "BREWY_1" created []) eq_refl)
    as (o' & _ & F & S & _ & _ & _ & Other).
  unfold statusOf. split.
  - change (JS.or_ostr (vp_orderId Sample.genuine) "order_rzp_1") with "BREWY_1" in F.
    rewrite F. simpl. rewrite S. reflexivity.
  - rewrite (Other "BREWY_2"); [reflexivity|]. simpl. discriminate.
Defined.

(** ** What a mutation leaves alone *)

Lemma updateFirst_ids (f : Order -> bool) (g : Order -> Order) (l : list Order) :
  (forall d, f d = true -> orderId (g d) = orderId d) ->
  map orderId (Db.updateFirst f g l) = map orderId l.
Proof.
  intro K. induction l as [|a l IH]; simpl; [reflexivity|].
  destruct (f a) eqn:E; simpl.
  - rewrite (K a E). reflexivity.
  - rewrite IH. reflexivity.
Qed.

Lemma updateOrder_ids j u w :
  map orderId (orders (snd (updateOrder j u w))) = map orderId (orders w).
Proof.
  rewrite updateOrder_orders. apply updateFirst_ids. intros; reflexivity.
Qed.

Lemma saveFound_ids o w :
  map orderId (orders (saveFound o w)) = map orderId (orders w).
Proof.
  unfold saveFound, put_orders. cbn [orders]. apply updateFirst_ids.
  intros d E. unfold byOrderId in E. apply String.eqb_eq in E. auto.
Qed.

Lemma touches_frame names w w' :
  touches names w w' ->
  exists j,
    (forall i, i <> j ->
               Db.findOne (byOrderId i) (orders w') = Db.findOne (byOrderId i) (orders w)) /\
    map orderId (orders w') = map orderId (orders w).
Proof.
  intros [E|(j & u & w1 & E1 & E2 & _)].
  - exists "". rewrite E. auto.
  - exists j. rewrite E2, <- E1. split.
    + intros i N. rewrite updateOrder_lookup.
      assert (E : (i =? j) = false) by (apply String.eqb_neq; exact N).
      rewrite E. reflexivity.
    + apply updateOrder_ids.
Qed.

Lemma shipmentCreate_frame rt env h b w :
  exists j,
    (forall i, i <> j ->
               Db.findOne (byOrderId i) (orders (snd (shipmentCreate rt env h b w)))
               = Db.findOne (byOrderId i) (orders w)) /\
    map orderId (orders (snd (shipmentCreate rt env h b w))) = map orderId (orders w).
Proof.
  set (j := JS.or_ostr (sb_orderId b) "").
  exists j.
  assert (Same : forall r : Response,
             (forall i, i <> j ->
                        Db.findOne (byOrderId i) (orders (snd (r, w)))
                        = Db.findOne (byOrderId i) (orders w)) /\
             map orderId (orders (snd (r, w))) = map orderId (orders w)).
  { intro r. cbn [snd]. auto. }
  unfold shipmentCreate.
  destruct (authenticateAdmin rt env h); [|apply Same].
  destruct (negb _); [apply Same|].
  fold j.
  destruct (Db.findOne (byOrderId j) (orders w)) as [order|] eqn:Fj; [|apply Same].
  destruct (negb _); [apply Same|].
  match goal with
  | |- context [createShiprocketOrder rt ?d] =>
      destruct (createShiprocketOrder rt d) as [result|e]
  end; cbn [snd].
  - split.
    + intros i N.
      match goal with
      | |- context [saveFound _ ?w1] =>
          rewrite (@saveFound_lookup result order w1 j i Fj)
      end.
      assert (E : (i =? j) = false) by (apply String.eqb_neq; exact N).
      rewrite E. reflexivity.
    + rewrite saveFound_ids. reflexivity.
  - auto.
Qed.

(** X10: every public mutation rewrites at most one order: there is an
    order id such that the orders of all other ids are found exactly as
    before, and the sequence of order ids in the collection is unchanged,
    so no mutation adds, removes or reorders an order. *)
Theorem mutation_touches_one_order (rt : Runtime) (env : Env) (m : Mutation) (w : World) :
  exists j,
    (forall i, i <> j ->
               Db.findOne (byOrderId i) (orders (snd (perform rt env m w)))
               = Db.findOne (byOrderId i) (orders w)) /\
    map orderId (orders (snd (perform rt env m w))) = map orderId (orders w).
Proof.
  destruct m; cbn [perform].
  - apply (touches_frame _ _ _ (verifyPayment_touches rt env b w)).
  - apply (touches_frame _ _ _ (patchStatus_touches rt env h i st w)).
  - apply (touches_frame _ _ _ (patchPayment_touches i b w)).
  - apply (touches_frame _ _ _ (patchShipment_touches rt env h i b w)).
  - apply (touches_frame _ _ _ (fasterVerify_touches rt b w)).
  - apply (touches_frame _ _ _ (fasterCancel_touches rt env h orderId0 w)).
  - apply (touches_frame _ _ _ (fasterWebhook_touches b w)).
  - apply shipmentCreate_frame.
  - apply (touches_frame _ _ _ (shipmentCancel_touches rt env h orderId0 w)).
Qed.

(** ** Order ids stay unique *)

Lemma existsb_byOrderId_false (i : string) (l : list Order) :
  existsb (byOrderId i) l = false -> ~ In i (map orderId l).
Proof.
  induction l as [|a l IH]; simpl; [tauto|].
  intro H. apply orb_false_elim in H. destruct H as [Ha Hl].
  intros [E|E].
  - unfold byOrderId in Ha. rewrite E, String.eqb_refl in Ha. discriminate.
  - exact (IH Hl E).
Qed.

Lemma NoDup_snoc (i : string) (l : list string) :
  NoDup l -> ~ In i l -> NoDup (l ++ [i]).
Proof.
  intros N H. induction N as [|x l Hx N IH]; simpl.
  - constructor; [simpl; tauto|constructor].
  - constructor.
    + rewrite in_app_iff. simpl. intros [E|[E|[]]].
      * contradiction.
      * apply H. left. auto.
    + apply IH. intro E. apply H. right. exact E.
Qed.

Lemma saveNew_unique o w w1 :
  NoDup (map orderId (orders w)) ->
  saveNew o w = Some w1 ->
  NoDup (map orderId (orders w1)).
Proof.
  intros N S. apply saveNew_Some in S. destruct S as [-> Fresh].
  unfold put_orders. cbn [orders]. rewrite map_app. simpl.
  apply NoDup_snoc; [exact N|].
  apply existsb_byOrderId_false. exact Fresh.
Qed.

Lemma createOrder_unique rt env now b w :
  NoDup (map orderId (orders w)) ->
  NoDup (map orderId (orders (snd (createOrder rt env now b w)))).
Proof.
  intro N. unfold createOrder.
  destruct (co_amount b) as [amt|]; [|exact N].
  destruct (co_items b) as [its|]; [|exact N].
  destruct (co_customer b) as [cust|]; [|exact N].
  destruct (negb (JS.truthy_num amt)); [exact N|].
  destruct (calculateTotal (products w) its 0%float) as [total|r]; [|exact N].
  match goal with
  | |- context [createRazorpayOrder rt ?p] =>
      destruct (createRazorpayOrder rt p) as [rzp|e]
  end; [|exact N].
  match goal with
  | |- context [saveNew ?o ?w1] => destruct (saveNew o w1) as [w2|] eqn:S
  end; [|exact N].
  cbn [snd]. eapply saveNew_unique; [|exact S]. exact N.
Qed.

Lemma fasterCreate_unique rt env now b w :
  NoDup (map orderId (orders w)) ->
  NoDup (map orderId (orders (snd (fasterCreate rt env now b w)))).
Proof.
  intro N. unfold fasterCreate.
  destruct (fb_items b) as [its|]; [|exact N].
  destruct (fb_customer b) as [cust|]; [|exact N].
  destruct (fb_pickupPincode b) as [pin|]; [|exact N].
  destruct (negb (JS.truthy_str pin)); [exact N|].
  destruct (priceItems (products w) its 0%float []) as [[total lines]|r]; [|exact N].
  match goal with
  | |- context [saveNew ?o ?w0] => destruct (saveNew o w0) as [w1|] eqn:S
  end; [|exact N].
  assert (N1 : NoDup (map orderId (orders w1)))
    by (eapply saveNew_unique; [|exact S]; exact N).
  match goal with
  | |- context [createFasterCheckout rt ?p] =>
      destruct (createFasterCheckout rt p) as [res|e]
  end; cbn [snd].
  - rewrite saveFound_ids. exact N1.
  - exact N1.
Qed.

Lemma handle_unique rt env r w :
  NoDup (map orderId (orders w)) ->
  NoDup (map orderId (orders (snd (handle rt env r w)))).
Proof.
  intro N. destruct r as [m|now b|now b|d]; cbn [handle].
  - destruct (mutation_touches_one_order rt env m w) as (j & _ & E).
    rewrite E. exact N.
  - apply createOrder_unique, N.
  - apply fasterCreate_unique, N.
  - unfold postOrder.
    destruct (saveNew (orderOfData d) w) as [w'|] eqn:S; cbn [snd]; [|exact N].
    eapply saveNew_unique; [|exact S]. exact N.
Qed.

Lemma findOne_unique (l : list Order) (o : Order) :
  NoDup (map orderId l) -> In o l ->
  Db.findOne (byOrderId (orderId o)) l = Some o.
Proof.
  unfold Db.findOne. induction l as [|a l IH]; simpl; [tauto|].
  intros N [E|E].
  - subst a. unfold byOrderId. rewrite String.eqb_refl. reflexivity.
  - inversion N as [|x xs Hx N']; subst.
    unfold byOrderId at 1.
    destruct (orderId a =? orderId o) eqn:Q.
    + apply String.eqb_eq in Q. exfalso. apply Hx. rewrite Q.
      apply in_map. exact E.
    + apply IH; assumption.
Qed.

Lemma serve_unique rt env rs : forall w,
  NoDup (map orderId (orders w)) ->
  NoDup (map orderId (orders (serve rt env rs w))).
Proof.
  induction rs as [|r rs IH]; intros w N; [exact N|].
  apply IH. apply handle_unique. exact N.
Qed.

(** X11: order ids stay unique: if no two stored orders share an id, then
    after any sequence of order-writing requests (the public mutations,
    both session creations and the plain order creation) still no two
    do, and every stored order is the one found under its id. *)
Theorem order_ids_stay_unique
        (rt : Runtime) (env : Env) (rs : list OrderRequest) (w : World) :
  NoDup (map orderId (orders w)) ->
  NoDup (map orderId (orders (serve rt env rs w))) /\
  (forall o, In o (orders (serve rt env rs w)) ->
             Db.findOne (byOrderId (orderId o)) (orders (serve rt env rs w)) = Some o).
Proof.
  intro N. pose proof (serve_unique rt env rs w N) as N'.
  split; [exact N'|]. intros o H. apply findOne_unique; assumption.
Qed.

Lemma order_ids_stay_unique_witness :
  NoDup (map orderId
           (orders (serve Sample.rt Sample.env
                          [PostOrder SampleOrders.posted; PostOrder SampleOrders.posted;
                           FasterCreate 1764523990679%N
                             {| fb_items := Some Sample.cart;
                                fb_customer := Some Sample.buyer;
                                fb_pickupPincode := Some "411001" |}]
                          (Sample.shop [])))).
Proof.
  exact (proj1 (order_ids_stay_unique Sample.rt Sample.env
                  [PostOrder SampleOrders.posted; PostOrder SampleOrders.posted;
                   FasterCreate 1764523990679%N
                     {| fb_items := Some Sample.cart;
                        fb_customer := Some Sample.buyer;
                        fb_pickupPincode := Some "411001" |}]
                  (Sample.shop []) (NoDup_nil string))).
Defined.

(** ** Plain order creation and lookup *)

(** X12: [POST /api/orders] stores the posted order as it is, status and
    amount included, when it passes the schema's validation and its id is
    not in use: the answer is 201 and [GET /api/orders/:orderId] then
    returns that order.  When the id is in use the answer is 500 and
    nothing is written.  A lookup of an id that is not stored is
    answered 404. *)
Theorem postOrder_then_getOrder (d : OrderData) (w : World) :
  validate (orderOfData d) = true ->
  (existsb (byOrderId (od_orderId d)) (orders w) = false ->
   fst (postOrder d w) = {| code := 201; body := BOrder (orderOfData d) |} /\
   getOrder (od_orderId d) (snd (postOrder d w))
   = (json (BOrder (orderOfData d)), snd (postOrder d w)) /\
   status (orderOfData d) = match od_status d with Some s => s | None => created end) /\
  (existsb (byOrderId (od_orderId d)) (orders w) = true ->
   postOrder d w = (error_json 500 "Failed to create order", w)) /\
  (forall i, Db.findOne (byOrderId i) (orders w) = None ->
             getOrder i w = (error_json 404 "Order not found", w)).
Proof.
  intro V. split; [|split].
  - intro Fresh. unfold postOrder.
    rewrite (@saveNew_fresh (orderOfData d) w V Fresh). cbn [fst snd].
    split; [reflexivity|]. split; [|reflexivity].
    unfold getOrder, put_orders. cbn [orders].
    rewrite (@findOne_app_fresh (od_orderId d) (orders w) (orderOfData d) Fresh eq_refl).
    reflexivity.
  - intro Used. unfold postOrder, saveNew.
    change (orderId (orderOfData d)) with (od_orderId d).
    rewrite Used, andb_false_r. reflexivity.
  - intros i F. unfold getOrder. rewrite F. reflexivity.
Qed.

Lemma postOrder_then_getOrder_witness :
  getOrder "MANUAL_1" (snd (postOrder SampleOrders.posted (Sample.shop [])))
  = (json (BOrder (orderOfData SampleOrders.posted)),
     snd (postOrder SampleOrders.posted (Sample.shop []))) /\
  status (orderOfData SampleOrders.posted) = delivered.
Proof.
  destruct (proj1 (postOrder_then_getOrder SampleOrders.posted (Sample.shop []) eq_refl)
                  eq_refl) as (_ & G & S).
  split; [exact G|exact S].
Defined.

(** ** A shipment the collaborator refuses *)

(** X13: when the collaborator refuses the shipment of a paid order, the
    answer is 500 with the collaborator's message (or "Failed to create
    Shiprocket order" when it gives none), and no order is written: the
    order is still paid.  The same request can then be repeated, and
    ships the order once the collaborator accepts. *)
Theorem shipmentCreate_refused_can_retry
        (rt rt' : Runtime) (env : Env) (h : AdminHeaders) (b : ShipmentCreateBody)
        (w : World) (i : string) (order : Order)
        (m : option string) (e : string) (result : ShiprocketCreated) :
  authenticateAdmin rt env h = Next ->
  authenticateAdmin rt' env h = Next ->
  sb_orderId b = Some i -> JS.truthy_str i = true ->
  Db.findOne (byOrderId i) (orders w) = Some order ->
  status order = paid ->
  let data := shiprocketData i (sb_pickupLocation b) order
                             (pack (products w) (items order)) in
  post_orders_create_adhoc rt data = HttpFail m e ->
  post_orders_create_adhoc rt' data = HttpOk result ->
  let w1 := snd (shipmentCreate rt env h b w) in
  fst (shipmentCreate rt env h b w)
  = error_json 500 (JS.or_ostr m "Failed to create Shiprocket order") /\
  orders w1 = orders w /\
  statusOf i w1 = Some paid /\
  code (fst (shipmentCreate rt' env h b w1)) = 200%N /\
  statusOf i (snd (shipmentCreate rt' env h b w1)) = Some shipped.
Proof.
  intros A A' Hi Ti F S data Bad Good w1.
  assert (R : shipmentCreate rt env h b w
              = (error_json 500 (JS.or_ostr m "Failed to create Shiprocket order"),
                 emit (Outbound (CallShiprocketCreate data)) w)).
  { rewrite (shipmentCreate_paid rt env h b w A Hi Ti F S). cbv zeta.
    fold data. unfold createShiprocketOrder. rewrite Bad. reflexivity. }
  unfold w1. rewrite R. cbn [fst snd].
  split; [reflexivity|]. split; [reflexivity|].
  split; [unfold statusOf, emit; cbn [orders]; rewrite F; cbn [option_map];
          rewrite S; reflexivity|].
  set (w2 := emit (Outbound (CallShiprocketCreate data)) w).
  assert (F2 : Db.findOne (byOrderId i) (orders w2) = Some order) by exact F.
  destruct (@shipmentCreate_sends rt' env h b w2 i order A' Hi Ti F2 S) as [_ Acc].
  apply (Acc result). unfold createShiprocketOrder.
  change (products w2) with (products w). fold data. rewrite Good. reflexivity.
Qed.

Lemma shipmentCreate_refused_can_retry_witness :
  statusOf "BREWY_1"
    (snd (shipmentCreate Sample.offline Sample.env Sample.admin (Sample.ship "BREWY_1")
            (Sample.shop [Sample.order "BREWY_1" paid Sample.cart])))
  = Some paid /\
  statusOf "BREWY_1"
    (snd (shipmentCreate Sample.rt Sample.env Sample.admin (Sample.ship "BREWY_1")
            (snd (shipmentCreate Sample.offline Sample.env Sample.admin
                    (Sample.ship "BREWY_1")
                    (Sample.shop [Sample.order "BREWY_1" paid Sample.cart])))))
  = Some shipped.
Proof.
  destruct (shipmentCreate_refused_can_retry
              Sample.offline Sample.rt Sample.env Sample.admin (Sample.ship "BREWY_1")
              (Sample.shop [Sample.order "BREWY_1" paid Sample.cart])
              "BREWY_1" (Sample.order "BREWY_1" paid Sample.cart)
              None "timeout"
              {| sc_order_id := Some 501%N; sc_shipment_id := Some 902%N |}
              eq_refl eq_refl eq_refl eq_refl eq_refl eq_refl eq_refl eq_refl)
    as (_ & _ & P & _ & Sh).
  split; [exact P|exact Sh].
Defined.

(** ** Cancellation *)

Lemma updateOrder_status_set j st w s :
  statusOf j w = Some s ->
  statusOf j (snd (updateOrder j (only_status (Some st)) w)) = Some st.
Proof.
  unfold statusOf. rewrite updateOrder_lookup, String.eqb_refl.
  destruct (Db.findOne (byOrderId j) (orders w)); [reflexivity|discriminate].
Qed.

(** X14: both cancellations ask the collaborator first.  If it refuses,
    the answer is 500 with its message (or a fixed one) and no order is
    written.  If it accepts, the answer is 200 whether or not the order
    is stored, and a stored order is marked failed whatever its status
    was, delivered included. *)
Theorem cancel_marks_failed_after_collaborator
        (rt : Runtime) (env : Env) (h : AdminHeaders) (i : string) (w : World) :
  authenticateAdmin rt env h = Next ->
  JS.truthy_str i = true ->
  (forall m e,
      post_orders_cancel rt i = HttpFail m e ->
      fst (shipmentCancel rt env h (Some i) w)
      = error_json 500 (JS.or_ostr m "Failed to cancel shipment") /\
      orders (snd (shipmentCancel rt env h (Some i) w)) = orders w) /\
  (post_orders_cancel rt i = HttpOk tt ->
   fst (shipmentCancel rt env h (Some i) w)
   = json (BMessage "Shipment cancelled successfully") /\
   (forall s, statusOf i w = Some s ->
              statusOf i (snd (shipmentCancel rt env h (Some i) w)) = Some failed) /\
   (statusOf i w = None ->
    orders (snd (shipmentCancel rt env h (Some i) w)) = orders w)) /\
  (forall m e,
      post_faster_orders_cancel rt i = HttpFail m e ->
      fst (fasterCancel rt env h (Some i) w)
      = error_json 500 (JS.or_ostr m "Failed to cancel order") /\
      orders (snd (fasterCancel rt env h (Some i) w)) = orders w) /\
  (post_faster_orders_cancel rt i = HttpOk tt ->
   fst (fasterCancel rt env h (Some i) w)
   = json (BMessage "Order cancelled successfully") /\
   (forall s, statusOf i w = Some s ->
              statusOf i (snd (fasterCancel rt env h (Some i) w)) = Some failed) /\
   (statusOf i w = None ->
    orders (snd (fasterCancel rt env h (Some i) w)) = orders w)).
Proof.
  intros A Ti.
  assert (Gone : forall w0, statusOf i w0 = None ->
                            orders (snd (updateOrder i (only_status (Some failed)) w0))
                            = orders w0).
  { intros w0 H. unfold statusOf in H.
    destruct (Db.findOne (byOrderId i) (orders w0)) eqn:F; [discriminate|].
    rewrite (updateOrder_missing _ _ _ F). reflexivity. }
  split; [|split; [|split]].
  - intros m e Bad. unfold shipmentCancel, cancelShipment.
    rewrite A, Ti, Bad. cbn [negb fst snd]. auto.
  - intro Good. unfold shipmentCancel, cancelShipment.
    rewrite A, Ti, Good. cbn [negb fst snd].
    split; [reflexivity|]. split.
    + intros s H. apply (updateOrder_status_set i failed _ s). exact H.
    + intro H. rewrite Gone; [reflexivity|exact H].
  - intros m e Bad. unfold fasterCancel, cancelFasterCheckout.
    rewrite A, Ti, Bad. cbn [negb fst snd]. auto.
  - intro Good. unfold fasterCancel, cancelFasterCheckout.
    rewrite A, Ti, Good. cbn [negb fst snd].
    split; [reflexivity|]. split.
    + intros s H. apply (updateOrder_status_set i failed _ s). exact H.
    + intro H. rewrite Gone; [reflexivity|exact H].
Qed.

Lemma cancel_marks_failed_after_collaborator_witness :
  statusOf "BREWY_1"
    (snd (shipmentCancel Sample.rt Sample.env Sample.admin (Some "BREWY_1")
            (Sample.shop [Sample.order "BREWY_1" delivered []])))
  = Some failed.
Proof.
  exact (proj1 (proj2 (proj1 (proj2
           (cancel_marks_failed_after_collaborator
              Sample.rt Sample.env Sample.admin "BREWY_1"
              (Sample.shop [Sample.order "BREWY_1" delivered []])
              eq_refl eq_refl)) eq_refl))
           delivered eq_refl).
Defined.

(** ** The bearer-token cache *)

(** X15: after a login that returned a token, the token is served from
    the cache, without another login and without touching the cache, by
    every call made less than nine days after the login; a call made
    nine days or more after it logs in again.  A failed login leaves the
    cache as it was, and an empty cache always logs in. *)
Theorem shiprocket_token_cached_nine_days
        (c : TokenCache) (now1 now2 : N) (tok : string) :
  JS.truthy_str tok = true ->
  tc_loggedIn (getShiprocketToken (HttpOk (Some tok)) now1 now2 c) = true ->
  let c1 := tc_cache (getShiprocketToken (HttpOk (Some tok)) now1 now2 c) in
  (forall login later1 later2,
      (later1 < now2 + nineDays)%N ->
      getShiprocketToken login later1 later2 c1
      = {| tc_result := Success (Some tok); tc_cache := c1; tc_loggedIn := false |}) /\
  (forall login later1 later2,
      (now2 + nineDays <= later1)%N ->
      tc_loggedIn (getShiprocketToken login later1 later2 c1) = true) /\
  (forall m e t1 t2 c0,
      tc_cache (getShiprocketToken (HttpFail m e) t1 t2 c0) = c0) /\
  (forall login t1 t2 expiry,
      tc_loggedIn (getShiprocketToken login t1 t2
                     {| authToken := None; tokenExpiry := expiry |}) = true).
Proof.
  intros T L c1.
  assert (E : c1 = {| authToken := Some tok; tokenExpiry := now2 + nineDays |}).
  { unfold c1, getShiprocketToken in *.
    destruct (JS.truthy_ostr (authToken c) && (now1 <? tokenExpiry c)%N);
      [discriminate|reflexivity]. }
  rewrite E. split; [|split; [|split]].
  - intros login later1 later2 H. unfold getShiprocketToken.
    cbn [authToken tokenExpiry JS.truthy_ostr]. rewrite T.
    apply N.ltb_lt in H. rewrite H. reflexivity.
  - intros login later1 later2 H. unfold getShiprocketToken.
    cbn [authToken tokenExpiry JS.truthy_ostr]. rewrite T.
    assert (F : (later1 <? now2 + nineDays)%N = false) by (apply N.ltb_ge; exact H).
    rewrite F. destruct login; reflexivity.
  - intros m e t1 t2 c0. unfold getShiprocketToken.
    destruct (JS.truthy_ostr (authToken c0) && (t1 <? tokenExpiry c0)%N); reflexivity.
  - intros login t1 t2 expiry. unfold getShiprocketToken.
    cbn [authToken JS.truthy_ostr andb]. destruct login; reflexivity.
Qed.

Lemma shiprocket_token_cached_nine_days_witness :
  getShiprocketToken (HttpFail None "offline") 1765301590678%N 1765301590679%N
    (tc_cache (getShiprocketToken (HttpOk (Some "tok_1"))
                 1764523990679%N 1764523990679%N
                 {| authToken := None; tokenExpiry := 0 |}))
  = {| tc_result := Success (Some "tok_1");
       tc_cache := tc_cache (getShiprocketToken (HttpOk (Some "tok_1"))
                               1764523990679%N 1764523990679%N
                               {| authToken := None; tokenExpiry := 0 |});
       tc_loggedIn := false |}.
Proof.
  exact (proj1 (shiprocket_token_cached_nine_days
                  {| authToken := None; tokenExpiry := 0 |}
                  1764523990679%N 1764523990679%N "tok_1" eq_refl eq_refl)
               (HttpFail None "offline") 1765301590678%N 1765301590679%N eq_refl).
Defined.

(** ** The checkout token without credentials *)

(** X16: when SHIPROCKET_API_KEY or SHIPROCKET_API_SECRET is not
    configured, or is empty, a token request with a valid cart is
    answered 500 "Shiprocket API credentials not configured", and no
    request is sent to the collaborator. *)
Theorem generateToken_needs_credentials
        (rt : Runtime) (env : Env) (clock1 clock2 : string)
        (b : GenerateTokenBody) (w : World)
        (its : list CheckoutCartItem) (url : string) :
  gt_cart_data b = Some {| cd_items := Some its |} ->
  gt_redirect_url b = Some url -> JS.truthy_str url = true ->
  cartAvailable (products w) its = true ->
  JS.truthy_ostr (SHIPROCKET_API_KEY env) = false \/
  JS.truthy_ostr (SHIPROCKET_API_SECRET env) = false ->
  generateToken rt env clock1 clock2 b w
  = (error_json 500 "Shiprocket API credentials not configured", w).
Proof.
  intros Hc Hu Tu Av Cred. unfold generateToken.
  rewrite Hc, Hu. cbn [cd_items JS.truthy_ostr JS.or_ostr]. rewrite Tu.
  cbn [negb].
  pose proof (validateCart_spec (products w) its) as V.
  destruct (validateCart (products w) its) as [r|].
  { destruct V as [V _]. congruence. }
  unfold generateAccessToken.
  destruct (SHIPROCKET_API_KEY env) as [key|];
    destruct (SHIPROCKET_API_SECRET env) as [secret|];
    cbn [JS.truthy_ostr] in Cred; try reflexivity.
  destruct Cred as [C|C]; rewrite C; cbn [negb orb]; [reflexivity|].
  rewrite orb_true_r. reflexivity.
Qed.

Lemma generateToken_needs_credentials_witness :
  generateToken Sample.rt Sample.envNoSecret
                "2025-06-01T10:00:00.000Z" "2025-06-01T10:00:00.001Z"
                Sample.tokenRequest (Sample.shop [])
  = (error_json 500 "Shiprocket API credentials not configured", Sample.shop []).
Proof.
  apply (generateToken_needs_credentials Sample.rt Sample.envNoSecret
           "2025-06-01T10:00:00.000Z" "2025-06-01T10:00:00.001Z"
           Sample.tokenRequest (Sample.shop [])
           [ {| cart_variant_id := "prod_grape"; cart_quantity := 2%float |};
             {| cart_variant_id := "prod_lemon_lime"; cart_quantity := 1%float |} ]
           "http://localhost:3000/checkout/success"
           eq_refl eq_refl eq_refl eq_refl).
  right. reflexivity.
Defined.

(** ** The callback and the verification of the hosted checkout *)

Lemma truthy_str_nonempty (s : string) : s <> "" -> JS.truthy_str s = true.
Proof. destruct s; [congruence|reflexivity]. Qed.

Lemma strict_eq_false (a b : option string) :
  a <> b -> JS.strict_eq a b = false.
Proof.
  intro N. destruct (JS.strict_eq a b) eqn:E; [|reflexivity].
  apply strict_eq_true in E. contradiction.
Qed.

Lemma fasterWebhook_found (b : FasterWebhookBody) (w : World) (i : string) (s : Status) :
  wh_order_id b = Some i -> JS.truthy_str i = true ->
  statusOf i w = Some s ->
  fst (fasterWebhook b w) = json (BMessage "Webhook processed successfully") /\
  statusOf i (snd (fasterWebhook b w))
  = Some (match u_status (webhookUpdate b) with Some s' => s' | None => s end).
Proof.
  intros Hi Ti S. unfold fasterWebhook. rewrite Hi, Ti. cbn [negb].
  unfold statusOf in S.
  destruct (Db.findOne (byOrderId i) (orders w)) as [o|] eqn:F; [|discriminate].
  injection S as S.
  pose proof (updateOrder_lookup i (webhookUpdate b) w i) as L.
  rewrite (updateOrder_found i (webhookUpdate b) w o F) in *.
  cbn [fst snd] in *. split; [reflexivity|].
  unfold statusOf. rewrite L, String.eqb_refl, F. cbn [option_map applyUpdate status].
  rewrite S. reflexivity.
Qed.

(** X17: the callback of the hosted checkout, which carries no
    credentials, sets the status of a stored order from its body alone: a
    shipment status "shipped" or "delivered" is taken over whatever the
    payment status says and whatever the order's status was; otherwise a
    payment status "paid" marks the order paid and any other non-empty
    payment status marks it failed; with neither, the status stays.  The
    answer is 200 in each case. *)
Theorem fasterWebhook_sets_status
        (b : FasterWebhookBody) (w : World) (i : string) (s : Status) :
  wh_order_id b = Some i -> JS.truthy_str i = true ->
  statusOf i w = Some s ->
  let after := statusOf i (snd (fasterWebhook b w)) in
  fst (fasterWebhook b w) = json (BMessage "Webhook processed successfully") /\
  (wh_shipment_status b = Some "shipped" -> after = Some shipped) /\
  (wh_shipment_status b = Some "delivered" -> after = Some delivered) /\
  (wh_shipment_status b <> Some "shipped" ->
   wh_shipment_status b <> Some "delivered" ->
   (wh_payment_status b = Some "paid" -> after = Some paid) /\
   (forall p, wh_payment_status b = Some p -> p <> "" -> p <> "paid" ->
              after = Some failed) /\
   (JS.truthy_ostr (wh_payment_status b) = false -> after = Some s)).
Proof.
  intros Hi Ti S. cbv zeta.
  destruct (fasterWebhook_found b w i s Hi Ti S) as [R A].
  rewrite A. clear A. unfold webhookUpdate. cbn [u_status].
  split; [exact R|]. split; [|split].
  - intros ->. reflexivity.
  - intros ->. reflexivity.
  - intros N1 N2.
    rewrite (strict_eq_false _ _ N1), (strict_eq_false _ _ N2).
    split; [|split].
    + intros ->. reflexivity.
    + intros p -> Ne Np. cbn [JS.truthy_ostr].
      rewrite (truthy_str_nonempty p Ne).
      rewrite strict_eq_false; [reflexivity|congruence].
    + intros ->. reflexivity.
Qed.

Lemma fasterWebhook_sets_status_witness :
  statusOf "BREWY_1"
    (snd (fasterWebhook
            {| wh_order_id := Some "BREWY_1"; wh_payment_status := Some "pending";
               wh_shipment_status := None; wh_tracking_url := None |}
            (Sample.shop [Sample.order "BREWY_1" delivered Sample.cart])))
  = Some failed.
Proof.
  refine (proj1 (proj2 (proj2 (proj2 (proj2
            (fasterWebhook_sets_status
               {| wh_order_id := Some "BREWY_1"; wh_payment_status := Some "pending";
                  wh_shipment_status := None; wh_tracking_url := None |}
               (Sample.shop [Sample.order "BREWY_1" delivered Sample.cart])
               "BREWY_1" delivered eq_refl eq_refl eq_refl))) _ _))
            "pending" eq_refl _ _);
    cbn; discriminate.
Defined.

(** X18: verifying a hosted checkout asks the collaborator first.  If it
    fails, the answer is 500 and no order is written.  If it answers, the
    order named in the body (or else the one the collaborator names) is
    marked paid exactly when the collaborator reports the payment status
    "paid", and is otherwise set back to created whatever its status was;
    the identifiers the collaborator reports replace the stored ones. *)
Theorem fasterVerify_follows_collaborator
        (rt : Runtime) (b : FasterVerifyBody) (w : World)
        (checkoutId i : string) (o : Order) :
  fv_checkoutId b = Some checkoutId -> JS.truthy_str checkoutId = true ->
  Db.findOne (byOrderId i) (orders w) = Some o ->
  (forall m e,
      get_faster_checkout rt checkoutId = HttpFail m e ->
      fst (fasterVerify rt b w)
      = error_json 500 (JS.or_ostr m "Failed to verify Faster Checkout") /\
      orders (snd (fasterVerify rt b w)) = orders w) /\
  (forall result,
      get_faster_checkout rt checkoutId = HttpOk result ->
      or_else (fv_orderId b) (fcv_order_id result) = Some i ->
      exists o',
        Db.findOne (byOrderId i) (orders (snd (fasterVerify rt b w))) = Some o' /\
        fst (fasterVerify rt b w)
        = json (BCheckoutVerified o' (fcv_payment_status result)
                                  (fcv_tracking_url result)) /\
        status o' = (if JS.strict_eq (fcv_payment_status result) (Some "paid")
                     then paid else created) /\
        shiprocketOrderId o'
        = Db.set_opt (fcv_order_id result) (shiprocketOrderId o) /\
        shiprocketShipmentId o'
        = Db.set_opt (fcv_shipment_id result) (shiprocketShipmentId o) /\
        trackingUrl o' = Db.set_opt (fcv_tracking_url result) (trackingUrl o) /\
        amount o' = amount o /\ items o' = items o).
Proof.
  intros Hc Tc F. split.
  - intros m e Hf. unfold fasterVerify, verifyFasterCheckout.
    rewrite Hc, Tc, Hf. cbn [negb]. split; reflexivity.
  - intros result Hr Ht. unfold fasterVerify, verifyFasterCheckout.
    rewrite Hc, Tc, Hr, Ht. cbn [negb updateOrderBy].
    match goal with
    | |- context [updateOrder i ?u ?w1] =>
        assert (F1 : Db.findOne (byOrderId i) (orders w1) = Some o) by exact F;
        pose proof (updateOrder_lookup i u w1 i) as L;
        rewrite (updateOrder_found i u w1 o F1) in *
    end.
    cbn [fst snd] in *. rewrite String.eqb_refl in L.
    change (Db.findOne (byOrderId i)
              (orders (emit (Outbound (CallFasterVerify checkoutId)) w)))
      with (Db.findOne (byOrderId i) (orders w)) in L.
    rewrite F in L. cbn [option_map] in L.
    eexists. split; [exact L|].
    split; [reflexivity|]. cbn. repeat split; reflexivity.
Qed.

Lemma fasterVerify_follows_collaborator_witness :
  statusOf "BREWY_1"
    (snd (fasterVerify
            {| hmac_sha256_hex := hmac_sha256_hex Sample.rt;
               hmac_sha256_base64 := hmac_sha256_base64 Sample.rt;
               jwt_verify := jwt_verify Sample.rt;
               parseFloat := parseFloat Sample.rt;
               stringify_product := stringify_product Sample.rt;
               stringify_collection := stringify_collection Sample.rt;
               stringify_token_payload := stringify_token_payload Sample.rt;
               razorpay_orders_create := razorpay_orders_create Sample.rt;
               post_faster_checkout_create := post_faster_checkout_create Sample.rt;
               get_faster_checkout :=
                 fun _ => HttpOk {| fcv_payment_status := Some "pending";
                                    fcv_order_id := Some "SR_77";
                                    fcv_shipment_id := None;
                                    fcv_tracking_url := None |};
               post_faster_orders_cancel := post_faster_orders_cancel Sample.rt;
               post_orders_create_adhoc := post_orders_create_adhoc Sample.rt;
               post_orders_cancel := post_orders_cancel Sample.rt;
               post_access_token := post_access_token Sample.rt |}
            {| fv_checkoutId := Some "chk_1"; fv_orderId := Some "BREWY_1" |}
            (Sample.shop [Sample.order "BREWY_1" shipped Sample.cart])))
  = Some created.
Proof.
  destruct (proj2 (fasterVerify_follows_collaborator
                     {| hmac_sha256_hex := hmac_sha256_hex Sample.rt;
                        hmac_sha256_base64 := hmac_sha256_base64 Sample.rt;
                        jwt_verify := jwt_verify Sample.rt;
                        parseFloat := parseFloat Sample.rt;
                        stringify_product := stringify_product Sample.rt;
                        stringify_collection := stringify_collection Sample.rt;
                        stringify_token_payload := stringify_token_payload Sample.rt;
                        razorpay_orders_create := razorpay_orders_create Sample.rt;
                        post_faster_checkout_create :=
                          post_faster_checkout_create Sample.rt;
                        get_faster_checkout :=
                          fun _ => HttpOk {| fcv_payment_status := Some "pending";
                                             fcv_order_id := Some "SR_77";
                                             fcv_shipment_id := None;
                                             fcv_tracking_url := None |};
                        post_faster_orders_cancel := post_faster_orders_cancel Sample.rt;
                        post_orders_create_adhoc := post_orders_create_adhoc Sample.rt;
                        post_orders_cancel := post_orders_cancel Sample.rt;
                        post_access_token := post_access_token Sample.rt |}
                     {| fv_checkoutId := Some "chk_1"; fv_orderId := Some "BREWY_1" |}
                     (Sample.shop [Sample.order "BREWY_1" shipped Sample.cart])
                     "chk_1" "BREWY_1" (Sample.order "BREWY_1" shipped Sample.cart)
                     eq_refl eq_refl eq_refl)
                  {| fcv_payment_status := Some "pending";
                     fcv_order_id := Some "SR_77";
                     fcv_shipment_id := None;
                     fcv_tracking_url := None |} eq_refl eq_refl)
    as (o' & F & _ & S & _).
  unfold statusOf. rewrite F. cbn [option_map]. rewrite S. reflexivity.
Defined.

(** ** From the checkout session to the shipment *)

Lemma createOrder_success (rt : Runtime) (env : Env) (now : N)
      (b : CreateOrderBody) (w : World)
      (amt : JS.number) (its : list OrderItem) (cust : Customer)
      (rzp : RazorpayOrder) :
  co_amount b = Some amt -> JS.truthy_num amt = true ->
  co_items b = Some its -> co_customer b = Some cust ->
  forallb (available (products w)) its = true ->
  let i := "ORD_" ++ JS.toString now in
  let cur := JS.or_ostr (co_currency b) "INR" in
  let total := itemsTotal (products w) its in
  let params := {| cop_amount := total; cop_currency := cur;
                   cop_receipt := i; cop_notes := (i, cust_email cust) |} in
  let order := newOrder i (rzp_id rzp) total cur cust its in
  razorpay_orders_create rt params = Some rzp ->
  validate order = true ->
  existsb (byOrderId i) (orders w) = false ->
  createOrder rt env now b w
  = (json (BOrderCreated i (rzp_id rzp) total (rzp_currency rzp)
                         (RAZORPAY_KEY_ID env)),
     put_orders (orders w ++ [order]) order
                (emit (Outbound (CallRazorpayCreate params)) w)).
Proof.
  intros Ha Ta Hi Hc Av. cbv zeta. intros Hr V N.
  unfold createOrder. rewrite Ha, Hi, Hc, Ta. cbn [negb].
  rewrite (calculateTotal_available (products w) its 0%float Av).
  fold (sum (map (lineTotal (products w)) its)).
  fold (itemsTotal (products w) its).
  unfold createRazorpayOrder. rewrite Hr.
  match goal with
  | |- context [saveNew ?o ?w1] => rewrite (@saveNew_fresh o w1 V N)
  end.
  reflexivity.
Qed.

(** X19: a checkout that goes well, request by request.  A session is
    opened for a cart of available products, the payment is confirmed
    with the signature the payment secret gives, and an administrator
    creates the shipment that the carrier accepts.  Then the ledger holds
    the order shipped, with the amount computed from the stored prices,
    the payment reference, and the carrier's identifiers; the payment
    collaborator was asked for a session of that amount and the carrier
    was given it as the sub-total; and the three requests wrote the order
    three times: as created, as paid, and as shipped. *)
Theorem checkout_paid_then_shipped
        (rt : Runtime) (env : Env) (now : N) (b : CreateOrderBody) (w : World)
        (amt : JS.number) (its : list OrderItem) (cust : Customer)
        (rzp : RazorpayOrder) (secret paymentRef : string)
        (h : AdminHeaders) (pickup : option string) (sent : ShiprocketCreated) :
  co_amount b = Some amt -> JS.truthy_num amt = true ->
  co_items b = Some its -> co_customer b = Some cust ->
  forallb (available (products w)) its = true ->
  let i := "ORD_" ++ JS.toString now in
  let cur := JS.or_ostr (co_currency b) "INR" in
  let total := itemsTotal (products w) its in
  let params := {| cop_amount := total; cop_currency := cur;
                   cop_receipt := i; cop_notes := (i, cust_email cust) |} in
  let opened := newOrder i (rzp_id rzp) total cur cust its in
  razorpay_orders_create rt params = Some rzp ->
  validate opened = true ->
  existsb (byOrderId i) (orders w) = false ->
  RAZORPAY_KEY_SECRET env = Some secret ->
  JS.truthy_str (rzp_id rzp) = true -> JS.truthy_str paymentRef = true ->
  let signature := hmac_sha256_hex rt secret (rzp_id rzp ++ "|" ++ paymentRef) in
  JS.truthy_str signature = true ->
  authenticateAdmin rt env h = Next ->
  let settled :=
    {| orderId := i; razorpayOrderId := rzp_id rzp;
       razorpayPaymentId := Some paymentRef; razorpaySignature := Some signature;
       amount := total; currency := cur; status := paid;
       customer := cust; items := its;
       shiprocketOrderId := None; shiprocketShipmentId := None;
       trackingUrl := None |} in
  let data := shiprocketData i pickup settled (pack (products w) its) in
  post_orders_create_adhoc rt data = HttpOk sent ->
  let dispatched :=
    {| orderId := i; razorpayOrderId := rzp_id rzp;
       razorpayPaymentId := Some paymentRef; razorpaySignature := Some signature;
       amount := total; currency := cur; status := shipped;
       customer := cust; items := its;
       shiprocketOrderId := option_map JS.toString (sc_order_id sent);
       shiprocketShipmentId := option_map JS.toString (sc_shipment_id sent);
       trackingUrl := None |} in
  let after :=
    serve rt env
      [ CreateOrder now b;
        Mutate (VerifyPayment
                  {| vp_razorpayOrderId := Some (rzp_id rzp);
                     vp_razorpayPaymentId := Some paymentRef;
                     vp_razorpaySignature := Some signature;
                     vp_orderId := Some i |});
        Mutate (ShipmentCreate h {| sb_orderId := Some i;
                                    sb_pickupLocation := pickup |}) ] w in
  Db.findOne (byOrderId i) (orders after) = Some dispatched /\
  cop_amount params = total /\
  sop_sub_total data = total /\
  In (Outbound (CallRazorpayCreate params)) (log after) /\
  In (Outbound (CallShiprocketCreate data)) (log after) /\
  orderWrites (log after)
  = (orderWrites (log w) ++ [opened; settled; dispatched])%list.
Proof.
  intros Ha Ta Hi Hc Av. cbv zeta. intros Hr V N Hk Tr Tp Ts A Hs.
  set (i := "ORD_" ++ JS.toString now) in *.
  set (cur := JS.or_ostr (co_currency b) "INR") in *.
  set (total := itemsTotal (products w) its) in *.
  set (signature := hmac_sha256_hex rt secret (rzp_id rzp ++ "|" ++ paymentRef)) in *.
  set (opened := newOrder i (rzp_id rzp) total cur cust its) in *.
  assert (Ti : JS.truthy_str i = true) by reflexivity.
  unfold serve. cbn [fold_left handle perform].
  rewrite (createOrder_success rt env now b w amt its cust rzp
             Ha Ta Hi Hc Av Hr V N).
  fold i cur total opened. cbn [snd].
  match goal with
  | |- context [verifyPayment rt env ?vb ?w1] =>
      rewrite (verifyPayment_valid_run rt env vb w1 secret (rzp_id rzp)
                 paymentRef signature Hk eq_refl Tr eq_refl Tp eq_refl Ts eq_refl);
      assert (F1 : Db.findOne (byOrderId i) (orders w1) = Some opened)
        by (apply (@findOne_app_fresh i (orders w) opened N); reflexivity)
  end.
  cbn [vp_orderId JS.or_ostr].
  replace (JS.or_str i (rzp_id rzp)) with i
    by (unfold JS.or_str; rewrite Ti; reflexivity).
  match goal with
  | |- context [updateOrder i ?u ?w1] =>
      pose proof (updateOrder_lookup i u w1 i) as L;
      rewrite (updateOrder_found i u w1 opened F1) in *
  end.
  cbn [snd] in *. rewrite String.eqb_refl, F1 in L.
  cbn [option_map] in L.
  match type of L with
  | Db.findOne _ (orders ?w') = Some ?o2 =>
      set (w2 := w') in *;
      change o2 with
        {| orderId := i; razorpayOrderId := rzp_id rzp;
           razorpayPaymentId := Some paymentRef;
           razorpaySignature := Some signature;
           amount := total; currency := cur; status := paid;
           customer := cust; items := its;
           shiprocketOrderId := None; shiprocketShipmentId := None;
           trackingUrl := None |} in *
  end.
  match type of L with
  | _ = Some ?o2 => set (settled := o2) in *
  end.
  rewrite (@shipmentCreate_paid rt env h
             {| sb_orderId := Some i; sb_pickupLocation := pickup |}
             w2 i settled A eq_refl Ti L eq_refl).
  cbv zeta. cbn [sb_pickupLocation].
  change (products w2) with (products w). change (items settled) with its.
  unfold createShiprocketOrder. rewrite Hs. cbn [snd].
  split; [|split; [|split; [|split; [|split]]]].
  - match goal with
    | |- context [saveFound _ ?w3] =>
        rewrite (@saveFound_lookup sent settled w3 i i L)
    end.
    rewrite String.eqb_refl. reflexivity.
  - reflexivity.
  - reflexivity.
  - cbn [log saveFound put_orders emit]. subst w2. cbn [log put_orders emit].
    rewrite !in_app_iff. cbn [In]. intuition auto.
  - cbn [log saveFound put_orders emit]. subst w2. cbn [log put_orders emit].
    rewrite !in_app_iff. cbn [In]. intuition auto.
  - cbn [log saveFound put_orders emit]. subst w2. cbn [log put_orders emit].
    unfold orderWrites. rewrite !flat_map_app. cbn [flat_map app].
    rewrite <- !app_assoc. reflexivity.
Qed.

Lemma checkout_paid_then_shipped_witness :
  option_map (fun o => (status o, amount o, shiprocketShipmentId o))
    (Db.findOne (byOrderId "ORD_1764523990679")
       (orders
          (serve Sample.rt Sample.env
             [ CreateOrder 1764523990679%N
                 {| co_amount := Some 1%float; co_currency := None;
                    co_items := Some Sample.cart;
                    co_customer := Some Sample.buyer |};
               Mutate (VerifyPayment
                         {| vp_razorpayOrderId := Some "order_rzp_1";
                            vp_razorpayPaymentId := Some "pay_1";
                            vp_razorpaySignature :=
                              Some (hmac_sha256_hex Sample.rt "rzp_secret"
                                                    "order_rzp_1|pay_1");
                            vp_orderId := Some "ORD_1764523990679" |});
               Mutate (ShipmentCreate Sample.admin
                         (Sample.ship "ORD_1764523990679")) ]
             (Sample.shop []))))
  = Some (shipped, 98%float, Some "902").
Proof.
  pose proof (checkout_paid_then_shipped
                Sample.rt Sample.env 1764523990679%N
                {| co_amount := Some 1%float; co_currency := None;
                   co_items := Some Sample.cart;
                   co_customer := Some Sample.buyer |}
                (Sample.shop []) 1%float Sample.cart Sample.buyer
                {| rzp_id := "order_rzp_1"; rzp_currency := "INR" |}
                "rzp_secret" "pay_1" Sample.admin None
                {| sc_order_id := Some 501%N; sc_shipment_id := Some 902%N |}
                eq_refl eq_refl eq_refl eq_refl eq_refl eq_refl eq_refl eq_refl
                eq_refl eq_refl eq_refl eq_refl eq_refl eq_refl) as H.
  cbv zeta in H. destruct H as [F _].
  exact (f_equal (option_map (fun o => (status o, amount o, shiprocketShipmentId o))) F).
Defined.

(** ** The payment patch *)

(** X20: the payment patch of the order routes takes no credentials and
    checks no signature.  For a stored order it answers 200 with the
    updated order, which has the status of the body, or paid when the
    body names none, and the payment reference and signature of the body
    as they came; the amount is kept, and the write is the only effect. *)
Theorem patchPayment_marks_paid_unchecked
        (i : string) (b : PaymentPatch) (w : World) (o : Order) :
  Db.findOne (byOrderId i) (orders w) = Some o ->
  exists o',
    fst (patchPayment i b w) = json (BOrder o') /\
    Db.findOne (byOrderId i) (orders (snd (patchPayment i b w))) = Some o' /\
    status o' = match pay_status b with Some s => s | None => paid end /\
    razorpayPaymentId o'
    = Db.set_opt (pay_razorpayPaymentId b) (razorpayPaymentId o) /\
    razorpaySignature o'
    = Db.set_opt (pay_razorpaySignature b) (razorpaySignature o) /\
    amount o' = amount o /\
    log (snd (patchPayment i b w)) = (log w ++ [OrderWritten o'])%list.
Proof.
  intro F. unfold patchPayment. cbv zeta.
  match goal with
  | |- context [updateOrder i ?u w] =>
      pose proof (updateOrder_lookup i u w i) as L;
      rewrite (updateOrder_found i u w o F) in *
  end.
  cbn [fst snd] in *. rewrite String.eqb_refl, F in L. cbn [option_map] in L.
  eexists. split; [reflexivity|]. split; [exact L|].
  cbn. repeat split; reflexivity.
Qed.

Lemma patchPayment_marks_paid_unchecked_witness :
  statusOf "BREWY_1"
    (snd (patchPayment "BREWY_1"
            {| pay_razorpayPaymentId := Some "pay_none";
               pay_razorpaySignature := Some "0000"; pay_status := None |}
            (Sample.shop [Sample.order "BREWY_1" created Sample.cart])))
  = Some paid.
Proof.
  destruct (patchPayment_marks_paid_unchecked "BREWY_1"
              {| pay_razorpayPaymentId := Some "pay_none";
                 pay_razorpaySignature := Some "0000"; pay_status := None |}
              (Sample.shop [Sample.order "BREWY_1" created Sample.cart])
              (Sample.order "BREWY_1" created Sample.cart) eq_refl)
    as (o' & _ & F & S & _).
  unfold statusOf. rewrite F. cbn [option_map]. rewrite S. reflexivity.
Defined.

(** ** Two sessions in the same millisecond *)

Lemma calculateTotal_Stop_code ps : forall its acc r,
  calculateTotal ps its acc = Stop _ r -> code r <> 200%N.
Proof.
  induction its as [|it its IH]; intros acc r; simpl; [discriminate|].
  destruct (Db.findOne (byProductId (item_productId it)) ps) as [p|].
  - destruct (negb (prod_availableForSale p)).
    + intro H. injection H as <-. discriminate.
    + apply IH.
  - intro H. injection H as <-. discriminate.
Qed.

Lemma existsb_snoc_self (i : string) (l : list Order) (o : Order) :
  orderId o = i -> existsb (byOrderId i) (l ++ [o]) = true.
Proof.
  intro E. rewrite existsb_app. cbn [existsb]. unfold byOrderId at 2.
  rewrite E, String.eqb_refl. cbn [orb]. apply orb_true_r.
Qed.

Lemma createOrder_ok_stored rt env now b w :
  code (fst (createOrder rt env now b w)) = 200%N ->
  existsb (byOrderId ("ORD_" ++ JS.toString now))
          (orders (snd (createOrder rt env now b w))) = true.
Proof.
  unfold createOrder.
  destruct (co_amount b) as [amt|]; [|discriminate].
  destruct (co_items b) as [its|]; [|discriminate].
  destruct (co_customer b) as [cust|]; [|discriminate].
  destruct (negb (JS.truthy_num amt)); [discriminate|].
  destruct (calculateTotal (products w) its 0%float) as [total|r] eqn:T.
  2:{ intro H. exfalso. exact (calculateTotal_Stop_code _ _ _ _ T H). }
  match goal with
  | |- context [createRazorpayOrder rt ?p] =>
      destruct (createRazorpayOrder rt p) as [rzp|e]
  end; [|discriminate].
  match goal with
  | |- context [saveNew ?o ?w1] => destruct (saveNew o w1) as [w2|] eqn:S
  end; [|discriminate].
  intros _. cbn [snd]. apply saveNew_Some in S. destruct S as [-> _].
  cbn [orders put_orders emit]. apply existsb_snoc_self. reflexivity.
Qed.

(** X21: the order id of a payment session is the clock reading, so a
    second session in the same millisecond cannot be stored.  After a
    session that was answered 200, every request for a session at the
    same clock reading is answered with an error and stores nothing; when
    its cart is available and the payment collaborator accepts, the
    answer is 500 "Failed to create order", and the session the
    collaborator opened has no order in the ledger. *)
Theorem createOrder_same_instant_refused
        (rt : Runtime) (env : Env) (now : N) (b b' : CreateOrderBody) (w : World) :
  code (fst (createOrder rt env now b w)) = 200%N ->
  let w1 := snd (createOrder rt env now b w) in
  code (fst (createOrder rt env now b' w1)) <> 200%N /\
  orders (snd (createOrder rt env now b' w1)) = orders w1 /\
  (forall amt its cust rzp,
      co_amount b' = Some amt -> JS.truthy_num amt = true ->
      co_items b' = Some its -> co_customer b' = Some cust ->
      forallb (available (products w1)) its = true ->
      let i := "ORD_" ++ JS.toString now in
      let params := {| cop_amount := itemsTotal (products w1) its;
                       cop_currency := JS.or_ostr (co_currency b') "INR";
                       cop_receipt := i; cop_notes := (i, cust_email cust) |} in
      razorpay_orders_create rt params = Some rzp ->
      createOrder rt env now b' w1
      = (error_json 500 "Failed to create order",
         emit (Outbound (CallRazorpayCreate params)) w1)).
Proof.
  intro H. cbv zeta. apply createOrder_ok_stored in H.
  set (w1 := snd (createOrder rt env now b w)) in *.
  assert (Refused : forall o e,
             orderId o = "ORD_" ++ JS.toString now ->
             saveNew o (emit e w1) = None).
  { intros o e E. unfold saveNew. cbn [orders emit]. rewrite E, H.
    cbn [negb]. rewrite andb_false_r. reflexivity. }
  split; [|split].
  - unfold createOrder.
    destruct (co_amount b') as [amt|]; [|discriminate].
    destruct (co_items b') as [its|]; [|discriminate].
    destruct (co_customer b') as [cust|]; [|discriminate].
    destruct (negb (JS.truthy_num amt)); [discriminate|].
    destruct (calculateTotal (products w1) its 0%float) as [total|r] eqn:T.
    2:{ exact (calculateTotal_Stop_code _ _ _ _ T). }
    match goal with
    | |- context [createRazorpayOrder rt ?p] =>
        destruct (createRazorpayOrder rt p) as [rzp|e]
    end; [|discriminate].
    rewrite Refused by reflexivity. discriminate.
  - unfold createOrder.
    destruct (co_amount b') as [amt|]; [|reflexivity].
    destruct (co_items b') as [its|]; [|reflexivity].
    destruct (co_customer b') as [cust|]; [|reflexivity].
    destruct (negb (JS.truthy_num amt)); [reflexivity|].
    destruct (calculateTotal (products w1) its 0%float) as [total|r];
      [|reflexivity].
    match goal with
    | |- context [createRazorpayOrder rt ?p] =>
        destruct (createRazorpayOrder rt p) as [rzp|e]
    end; [|reflexivity].
    rewrite Refused by reflexivity. reflexivity.
  - intros amt its cust rzp Ha Ta Hi Hc Av Hr.
    unfold createOrder. rewrite Ha, Hi, Hc, Ta. cbn [negb].
    rewrite (calculateTotal_available (products w1) its 0%float Av).
    fold (sum (map (lineTotal (products w1)) its)).
    fold (itemsTotal (products w1) its).
    unfold createRazorpayOrder. rewrite Hr.
    rewrite Refused by reflexivity. reflexivity.
Qed.

Lemma createOrder_same_instant_refused_witness :
  fst (createOrder Sample.rt Sample.env 1764523990679%N
         {| co_amount := Some 98%float; co_currency := None;
            co_items := Some [Sample.line "prod_lemon_lime" 2%float];
            co_customer := Some Sample.buyer |}
         (snd (createOrder Sample.rt Sample.env 1764523990679%N
                 {| co_amount := Some 1%float; co_currency := None;
                    co_items := Some Sample.cart;
                    co_customer := Some Sample.buyer |}
                 (Sample.shop []))))
  = error_json 500 "Failed to create order".
Proof.
  exact (f_equal fst
           (proj2 (proj2 (createOrder_same_instant_refused
                            Sample.rt Sample.env 1764523990679%N
                            {| co_amount := Some 1%float; co_currency := None;
                               co_items := Some Sample.cart;
                               co_customer := Some Sample.buyer |}
                            {| co_amount := Some 98%float; co_currency := None;
                               co_items := Some [Sample.line "prod_lemon_lime" 2%float];
                               co_customer := Some Sample.buyer |}
                            (Sample.shop []) eq_refl))
                  98%float [Sample.line "prod_lemon_lime" 2%float] Sample.buyer
                  {| rzp_id := "order_rzp_1"; rzp_currency := "INR" |}
                  eq_refl eq_refl eq_refl eq_refl eq_refl eq_refl)).
Defined.
